(** * django_ssh_storage: SSH/SFTP storage backend

  A shallow embedding of [ssh_storage/sshclientmanager.py],
  [ssh_storage/storage.py] and [ssh_storage/custom_storage.py].

  Python objects that are mutated in place (connection managers and
  storages) live in a store and are passed by reference.  The paramiko
  transport and the remote hosts are an interface ([Env]); every call made
  through it is recorded in a trace.  Exceptions are an explicit outcome. *)

From Stdlib Require Import String Ascii ZArith Lia DecimalString.
From stdpp Require Import base gmap strings list.

Open Scope string_scope.

(** ** Python values and exceptions *)

(** The values that occur in the settings dictionary and in the fields of a
  manager: [None], a [str], an [int], a list of [str]. *)
Inductive pyval :=
| PNone
| PStr (s : string)
| PInt (z : Z)
| PList (l : list string).

(** Truth value of an object, as tested by [if x:] and [not x]. *)
Definition truthy (v : pyval) : bool :=
match v with
| PNone => false
| PStr s => negb (String.eqb s EmptyString)
| PInt z => negb (Z.eqb z 0)
| PList l => match l with [] => false | _ => true end
end.

(** [v == s] for a string literal [s]. *)
Definition eq_str (v : pyval) (s : string) : bool :=
match v with
| PStr s' => String.eqb s' s
| _ => false
end.

Inductive exn :=
| IOError (msg : string)
| AttributeError (msg : string)
| TypeError (msg : string)
| KeyError (key : string)
| ValueError (msg : string)
| SSHException (msg : string)
| SSHClientManagerException
| SSHStorageException (msg : string)
| ImproperlyConfigured (msg : string).

(** [except IOError:] *)
Definition is_IOError (e : exn) : bool :=
match e with IOError _ => true | _ => false end.

(** [except paramiko.SSHException:] *)
Definition is_SSHException (e : exn) : bool :=
match e with SSHException _ => true | _ => false end.

(** [except ValueError:] *)
Definition is_ValueError (e : exn) : bool :=
match e with ValueError _ => true | _ => false end.

(** [except AttributeError:] *)
Definition is_AttributeError (e : exn) : bool :=
match e with AttributeError _ => true | _ => false end.

(** A bare [except:] *)
Definition any_exception (e : exn) : bool := true.

(** What a library call answers: a value or an exception. *)
Inductive reply (A : Type) :=
| Reply (a : A)
| Throw (e : exn).
Arguments Reply {A} a.
Arguments Throw {A} e.

(** What the evaluation of a piece of this program gives.  [OutOfFuel] is
  the bounded unfolding of [while True] running out; no handler catches
  it. *)
Inductive outcome (A : Type) :=
| Ok (a : A)
| Raise (e : exn)
| OutOfFuel.
Arguments Ok {A} a.
Arguments Raise {A} e.
Arguments OutOfFuel {A}.

(** ** String operations of the Python library *)

Definition sep : ascii := "/"%char.

(** [s.startswith(c)] and [s.endswith(c)] for a one-character [c]. *)
Definition startswith (c : ascii) (s : string) : bool :=
match s with
| String a _ => Ascii.eqb a c
| EmptyString => false
end.

Fixpoint endswith (c : ascii) (s : string) : bool :=
match s with
| EmptyString => false
| String a EmptyString => Ascii.eqb a c
| String _ r => endswith c r
end.

(** [(s[:i], s[i:])] for [i = s.rfind(c)], when [c] occurs in [s]. *)
Fixpoint rsplit_at (c : ascii) (s : string) : option (string * string) :=
match s with
| EmptyString => None
| String a r =>
    match rsplit_at c r with
    | Some (x, y) => Some (String a x, y)
    | None => if Ascii.eqb a c then Some (EmptyString, s) else None
    end
end.

(** [s.rstrip(c)] *)
Fixpoint rstrip (c : ascii) (s : string) : string :=
match s with
| EmptyString => EmptyString
| String a r =>
    match rstrip c r with
    | EmptyString => if Ascii.eqb a c then EmptyString else String a EmptyString
    | r' => String a r'
    end
end.

(** [s == c * len(s)] *)
Fixpoint all_char (c : ascii) (s : string) : bool :=
match s with
| EmptyString => true
| String a r => Ascii.eqb a c && all_char c r
end.

(** [s.split(c)] *)
Fixpoint str_split (c : ascii) (s : string) : list string :=
match s with
| EmptyString => [EmptyString]
| String a r =>
    if Ascii.eqb a c then EmptyString :: str_split c r
    else match str_split c r with
         | x :: xs => String a x :: xs
         | [] => [String a EmptyString]
         end
end.

(** [s.replace(a, b)] for one-character [a] and [b]. *)
Fixpoint str_replace (a b : ascii) (s : string) : string :=
match s with
| EmptyString => EmptyString
| String c r => String (if Ascii.eqb c a then b else c) (str_replace a b r)
end.

(** [s.lower()] on the ASCII letters. *)
Definition lower_ascii (c : ascii) : ascii :=
let n := nat_of_ascii c in
if (65 <=? n)%nat && (n <=? 90)%nat then ascii_of_nat (n + 32) else c.

Fixpoint str_lower (s : string) : string :=
match s with
| EmptyString => EmptyString
| String c r => String (lower_ascii c) (str_lower r)
end.

(** [str(n)] of a non-negative [int]. *)
Definition str_of_nat (n : nat) : string :=
NilEmpty.string_of_uint (Nat.to_uint n).

(** [str(z)] of an [int]. *)
Definition str_of_Z (z : Z) : string :=
NilEmpty.string_of_int (Z.to_int z).

(** [posixpath]: the remote side and the deployment hosts are POSIX, so
  [os.path] is [posixpath]. *)
Module posixpath.

Definition join2 (path b : string) : string :=
  if startswith sep b then b
  else if String.eqb path EmptyString || endswith sep path then path ++ b
  else path ++ String sep b.

(** [posixpath.join(a, *p)] *)
Definition join (a : string) (p : list string) : string :=
  fold_left join2 p a.

(** [posixpath.split(p)] *)
Definition split (p : string) : string * string :=
  match rsplit_at sep p with
  | None => (EmptyString, p)
  | Some (x, y) =>
      let head := x ++ String sep EmptyString in
      let tail := match y with String _ t => t | EmptyString => EmptyString end in
      (if all_char sep head then head else rstrip sep head, tail)
  end.

(** [posixpath.splitext(p)]: the extension starts at the last dot of the
    last component, unless only dots precede it there. *)
Definition splitext (p : string) : string * string :=
  let '(head, base) :=
    match rsplit_at sep p with
    | None => (EmptyString, p)
    | Some (x, y) =>
        (x ++ String sep EmptyString,
         match y with String _ t => t | EmptyString => EmptyString end)
    end in
  match rsplit_at "."%char base with
  | Some (stem, ext) =>
      if all_char "."%char stem then (p, EmptyString) else (head ++ stem, ext)
  | None => (p, EmptyString)
  end.

End posixpath.

(** ** The environment: Python library functions, paramiko and the hosts *)

(** Keyword arguments built by [setup] for [SSHClient.connect]. *)
Record connect_kwargs := {
kw_port : pyval;
kw_username : option pyval;
kw_password : option pyval;
kw_key_filename : option pyval
}.

(** The attributes of a remote path, as [stat] and [lstat] return them. *)
Record sftp_attr := {
st_size : Z;
st_mtime : Z;
st_atime : Z;
st_mode : option Z
}.

(** An object handed to [upload] as [sourcefile]: whether it has a [file]
  attribute, its [name] attribute when it has one, its [str()] and the
  bytes it holds. *)
Record fileobj := {
fo_has_file : bool;
fo_name : option pyval;
fo_str : string;
fo_data : string
}.

Inductive pyobj :=
| PV (v : pyval)
| PO (o : fileobj).

(** What the program does not define itself.  [world] is the state of the
  network, of the remote hosts and of the local file system; the clients
  are paramiko's [SSHClient] and [SFTPClient] objects.  [stat] and [lstat]
  are queries: they answer from the world and leave it as it is. *)
Class Env := {
world : Type;
ssh_client : Type;
sftp_client : Type;
(* Python library *)
py_int_of_str : string -> option Z;
py_repr_list : list string -> string;
py_repr_dict : gmap string pyval -> string;
os_path_exists : pyval -> world -> reply bool;
(* paramiko.SSHClient *)
SSHClient_new : world -> ssh_client * world;
SSHClient_set_missing_host_key_policy : ssh_client -> world -> reply unit * world;
SSHClient_connect : ssh_client -> pyval -> connect_kwargs -> world -> reply unit * world;
SSHClient_open_sftp : ssh_client -> world -> reply sftp_client * world;
SSHClient_close : ssh_client -> world -> reply unit * world;
(* paramiko.SFTPClient *)
SFTP_close : sftp_client -> world -> reply unit * world;
SFTP_mkdir : sftp_client -> string -> world -> reply unit * world;
SFTP_lstat : sftp_client -> string -> world -> reply sftp_attr;
SFTP_stat : sftp_client -> string -> world -> reply sftp_attr;
SFTP_put : sftp_client -> string -> string -> world -> reply unit * world;
SFTP_putfo : sftp_client -> pyobj -> string -> world -> reply unit * world;
SFTP_remove : sftp_client -> string -> world -> reply unit * world
}.

(** An attribute of an object: not there at all ([hasattr] is false), or
  bound to a value, [None] included. *)
Inductive attr (A : Type) :=
| Missing
| Bound (v : option A).
Arguments Missing {A}.
Arguments Bound {A} v.

Definition hasattr {A} (a : attr A) : bool :=
match a with Missing => false | Bound _ => true end.

Inductive level := ERROR | CRITICAL.

Section Store.
Context `{E : Env}.

(** The fields of an [SSHClientManager]. *)
Record manager := {
  hostname : pyval;
  username : pyval;
  password : pyval;
  port : pyval;
  rsa_key : pyval;
  basepath : pyval;
  currentpath : pyval;
  _ssh : option ssh_client;
  _sftp : attr sftp_client
}.

(** The classes of [storage.py] and [custom_storage.py]. *)
Inductive storage_class :=
| SSHStorage
| MultipleSSHStorages
| StaticStorage
| MediaStorage.

(** The fields of a storage.  [_ssh_client_managers] is the dict of the
    multi-host coordinator, in insertion order; its values are references
    to managers or [None]. *)
Record storage := {
  cls : storage_class;
  _config : gmap string pyval;
  _ssh_client_manager : option nat;
  _ssh_client_managers : list (string * option nat)
}.

(** The calls made to paramiko, in the order they are made. *)
Inductive call :=
| CallSSHClient (c : ssh_client)
| CallSetPolicy (c : ssh_client)
| CallConnect (c : ssh_client) (host : pyval) (kw : connect_kwargs)
| CallOpenSftp (c : ssh_client)
| CallSSHClose (c : ssh_client)
| CallSFTPClose (h : sftp_client)
| CallMkdir (h : sftp_client) (path : string)
| CallLstat (h : sftp_client) (path : string)
| CallStat (h : sftp_client) (path : string)
| CallPut (h : sftp_client) (localpath remotepath : string)
| CallPutfo (h : sftp_client) (fl : pyobj) (remotepath : string)
| CallRemove (h : sftp_client) (path : string).

Record state := {
  remote : world;
  managers : gmap nat manager;
  storages : gmap nat storage;
  next_ref : nat;
  calls : list call;
  log : list (level * string)
}.

Definition set_remote (w : world) (s : state) : state :=
  {| remote := w; managers := managers s; storages := storages s;
     next_ref := next_ref s; calls := calls s; log := log s |}.
Definition set_managers (ms : gmap nat manager) (s : state) : state :=
  {| remote := remote s; managers := ms; storages := storages s;
     next_ref := next_ref s; calls := calls s; log := log s |}.
Definition set_storages (ss : gmap nat storage) (s : state) : state :=
  {| remote := remote s; managers := managers s; storages := ss;
     next_ref := next_ref s; calls := calls s; log := log s |}.
Definition set_next_ref (n : nat) (s : state) : state :=
  {| remote := remote s; managers := managers s; storages := storages s;
     next_ref := n; calls := calls s; log := log s |}.
Definition add_call (c : call) (s : state) : state :=
  {| remote := remote s; managers := managers s; storages := storages s;
     next_ref := next_ref s; calls := calls s ++ [c]; log := log s |}.
Definition add_calls (cs : list call) (s : state) : state :=
  {| remote := remote s; managers := managers s; storages := storages s;
     next_ref := next_ref s; calls := calls s ++ cs; log := log s |}.
Definition add_log (l : level) (msg : string) (s : state) : state :=
  {| remote := remote s; managers := managers s; storages := storages s;
     next_ref := next_ref s; calls := calls s; log := log s ++ [(l, msg)] |}.

(** *** State and exceptions *)

Definition M (A : Type) : Type := state -> outcome A * state.

Definition ret {A} (a : A) : M A := fun s => (Ok a, s).

Definition bind {A B} (c : M A) (k : A -> M B) : M B :=
  fun s =>
    match c s with
    | (Ok a, s') => k a s'
    | (Raise e, s') => (Raise e, s')
    | (OutOfFuel, s') => (OutOfFuel, s')
    end.

Definition raise {A} (e : exn) : M A := fun s => (Raise e, s).

Definition out_of_fuel {A} : M A := fun s => (OutOfFuel, s).

(** [try: body  except <catches> as e: handler e] *)
Definition try_except {A} (body : M A) (catches : exn -> bool) (handler : exn -> M A) : M A :=
  fun s =>
    match body s with
    | (Raise e, s') => if catches e then handler e s' else (Raise e, s')
    | r => r
    end.

(** [for x in l: body x] *)
Fixpoint for_each {A} (l : list A) (body : A -> M unit) : M unit :=
  match l with
  | [] => ret tt
  | x :: l' => bind (body x) (fun _ => for_each l' body)
  end.

Definition logger (l : level) (msg : string) : M unit :=
  fun s => (Ok tt, add_log l msg s).

(** A call into the library that may change the world. *)
Definition lib {A} (c : call) (f : world -> reply A * world) : M A :=
  fun s =>
    let s1 := add_call c s in
    match f (remote s1) with
    | (Reply a, w) => (Ok a, set_remote w s1)
    | (Throw e, w) => (Raise e, set_remote w s1)
    end.

(** A query to the library. *)
Definition ask {A} (c : call) (f : world -> reply A) : M A :=
  fun s =>
    let s1 := add_call c s in
    match f (remote s1) with
    | Reply a => (Ok a, s1)
    | Throw e => (Raise e, s1)
    end.

(** [os.path.exists(v)] on the local file system. *)
Definition lib_exists (v : pyval) : M bool :=
  fun s =>
    match os_path_exists v (remote s) with
    | Reply b => (Ok b, s)
    | Throw e => (Raise e, s)
    end.

(** [str(v)] *)
Definition py_str (v : pyval) : string :=
  match v with
  | PNone => "None"
  | PStr s => s
  | PInt z => str_of_Z z
  | PList l => py_repr_list l
  end.

Definition pyobj_str (o : pyobj) : string :=
  match o with
  | PV v => py_str v
  | PO o => fo_str o
  end.

(** A value used where the library needs a [str] (a path). *)
Definition as_str (v : pyval) : M string :=
  match v with
  | PStr s => ret s
  | _ => raise (TypeError "expected str, bytes or os.PathLike object")
  end.

(** [os.path.join(a, b)] on objects. *)
Definition os_path_join (a b : pyval) : M pyval :=
  bind (as_str a) (fun a' =>
  bind (as_str b) (fun b' =>
  ret (PStr (posixpath.join a' [b'])))).

(** [os.path.split(p)] on an object. *)
Definition os_path_split (p : pyobj) : M (string * string) :=
  match p with
  | PV (PStr s) => ret (posixpath.split s)
  | _ => raise (TypeError "expected str, bytes or os.PathLike object")
  end.

(** Dereference a manager. *)
Definition deref (self : nat) : M manager :=
  fun s =>
    match managers s !! self with
    | Some m => (Ok m, s)
    | None => (Raise (AttributeError "no such object"), s)
    end.

(** Assign fields of a manager in place. *)
Definition update (self : nat) (f : manager -> manager) : M unit :=
  fun s =>
    match managers s !! self with
    | Some m => (Ok tt, set_managers (<[self := f m]> (managers s)) s)
    | None => (Raise (AttributeError "no such object"), s)
    end.

Definition new_manager (m : manager) : M nat :=
  fun s =>
    let r := next_ref s in
    (Ok r, set_next_ref (S r) (set_managers (<[r := m]> (managers s)) s)).

Definition deref_storage (self : nat) : M storage :=
  fun s =>
    match storages s !! self with
    | Some st => (Ok st, s)
    | None => (Raise (AttributeError "no such object"), s)
    end.

Definition update_storage (self : nat) (f : storage -> storage) : M unit :=
  fun s =>
    match storages s !! self with
    | Some st => (Ok tt, set_storages (<[self := f st]> (storages s)) s)
    | None => (Raise (AttributeError "no such object"), s)
    end.

Definition new_storage (st : storage) : M nat :=
  fun s =>
    let r := next_ref s in
    (Ok r, set_next_ref (S r) (set_storages (<[r := st]> (storages s)) s)).

End Store.

Declare Scope py_scope.
Delimit Scope py_scope with py.
Notation "'let*' x ':=' c 'in' k" := (bind c (fun x => k))
(at level 10, x pattern, c at level 100, k at level 200) : py_scope.
Notation "c '>>' k" := (bind c (fun _ => k))
(at level 100, k at level 200, right associativity) : py_scope.
Open Scope py_scope.

(** ** [sshclientmanager.py]: class [SSHClientManager]

  [logger.debug] records are not modelled; [logger.error] and
  [logger.fatal] are. *)
Module SSHClientManager.
Section Methods.
Context `{E : Env}.

Definition nl : string := String (ascii_of_nat 10) EmptyString.

(** [self._sftp], an [AttributeError] when the attribute is missing. *)
Definition get_sftp (self : nat) : M (option sftp_client) :=
  let* m := deref self in
  match _sftp m with
  | Bound v => ret v
  | Missing => raise (AttributeError "'SSHClientManager' object has no attribute '_sftp'")
  end.

(** A method called on [self._ssh] or [self._sftp]: on [None] it is an
    [AttributeError]. *)
Definition on_handle {H A} (h : option H) (meth : string) (k : H -> M A) : M A :=
  match h with
  | Some c => k c
  | None => raise (AttributeError ("'NoneType' object has no attribute '" ++ meth ++ "'"))
  end.

(** [self._sftp.mkdir(path)]; paramiko refuses a path that is no string
    with a [TypeError]. *)
Definition sftp_mkdir (self : nat) (path : pyval) : M unit :=
  let* h := get_sftp self in
  on_handle h "mkdir" (fun c =>
    let* p := as_str path in
    lib (CallMkdir c p) (SFTP_mkdir c p)).

Definition sftp_lstat (self : nat) (path : pyval) : M sftp_attr :=
  let* h := get_sftp self in
  on_handle h "lstat" (fun c =>
    let* p := as_str path in
    ask (CallLstat c p) (SFTP_lstat c p)).

Definition sftp_put (self : nat) (filename : pyobj) (destpath : pyval) : M unit :=
  let* h := get_sftp self in
  on_handle h "put" (fun c =>
    let* l := match filename with
              | PV v => as_str v
              | PO _ => raise (TypeError "expected str, bytes or os.PathLike object")
              end in
    let* p := as_str destpath in
    lib (CallPut c l p) (SFTP_put c l p)).

Definition sftp_putfo (self : nat) (sourcefile : pyobj) (destpath : pyval) : M unit :=
  let* h := get_sftp self in
  on_handle h "putfo" (fun c =>
    let* p := as_str destpath in
    lib (CallPutfo c sourcefile p) (SFTP_putfo c sourcefile p)).

Definition sftp_remove (self : nat) (path : pyval) : M unit :=
  let* h := get_sftp self in
  on_handle h "remove" (fun c =>
    let* p := as_str path in
    lib (CallRemove c p) (SFTP_remove c p)).

(** [__init__(self, hostname, username=None, password=None, port=22,
    rsa_key=None, basepath=None)] *)
Definition __init__ (hostname username password port rsa_key basepath : pyval) : M nat :=
  new_manager
    {| hostname := hostname;
       username := username;
       password := password;
       port := port;
       rsa_key := rsa_key;
       basepath := basepath;
       currentpath := basepath;
       _ssh := None;
       _sftp := Bound None |}.

Definition check (self : nat) : M unit :=
  let* m := deref self in
  if negb (truthy (username m)) then raise SSHClientManagerException
  else if negb (truthy (password m)) && negb (truthy (rsa_key m))
  then raise SSHClientManagerException
  else ret tt.

Definition set_ssh (v : option ssh_client) (m : manager) : manager :=
  {| hostname := hostname m; username := username m; password := password m;
     port := port m; rsa_key := rsa_key m; basepath := basepath m;
     currentpath := currentpath m; _ssh := v; _sftp := _sftp m |}.

Definition set_sftp (v : option sftp_client) (m : manager) : manager :=
  {| hostname := hostname m; username := username m; password := password m;
     port := port m; rsa_key := rsa_key m; basepath := basepath m;
     currentpath := currentpath m; _ssh := _ssh m; _sftp := Bound v |}.

(** The assignments that open [close_connection]. *)
Definition reset_config (m : manager) : manager :=
  {| hostname := PNone; username := PNone; password := PNone;
     port := PInt 22; rsa_key := PNone; basepath := PNone;
     currentpath := PNone; _ssh := _ssh m; _sftp := _sftp m |}.

Definition set_missing_host_key_policy (self : nat) : M unit :=
  let* m := deref self in
  on_handle (_ssh m) "set_missing_host_key_policy" (fun c =>
    lib (CallSetPolicy c) (SSHClient_set_missing_host_key_policy c)).

Definition connect (self : nat) (kwargs : connect_kwargs) : M bool :=
  try_except
    (let* m := deref self in
     on_handle (_ssh m) "connect" (fun c =>
       lib (CallConnect c (hostname m) kwargs) (SSHClient_connect c (hostname m) kwargs)) >>
     let* m := deref self in
     let* h := on_handle (_ssh m) "open_sftp" (fun c =>
                 lib (CallOpenSftp c) (SSHClient_open_sftp c)) in
     update self (set_sftp (Some h)) >>
     ret true)
    is_SSHException
    (fun _ => ret false).

Definition setup (self : nat) : M bool :=
  let* c := (fun s => let '(c, w) := SSHClient_new (remote s) in
                      (Ok c, add_call (CallSSHClient c) (set_remote w s))) in
  update self (set_ssh (Some c)) >>
  set_missing_host_key_policy self >>
  let* m := deref self in
  let ssh_kwargs :=
    {| kw_port := port m;
       kw_username := if truthy (username m) then Some (username m) else None;
       kw_password := if truthy (password m) then Some (password m) else None;
       kw_key_filename := if truthy (rsa_key m) then Some (rsa_key m) else None |} in
  connect self ssh_kwargs.

(** The [sftp] property. *)
Definition sftp (self : nat) : M (option sftp_client) :=
  let* m := deref self in
  (if negb (hasattr (_sftp m)) then setup self >> ret tt else ret tt) >>
  get_sftp self.

(** The paths probed by the recursive walk of [mkdir]:
    [os.path.join('/', *pathdirs[:pp + 1])] for [pp] in
    [range(1, len(pathdirs))]. *)
Definition walk_paths (path : string) : list string :=
  let pathdirs := str_split sep path in
  map (fun pp => posixpath.join "/" (take (pp + 1) pathdirs))
      (seq 1 (length pathdirs - 1)).

Definition mkdir (self : nat) (path : pyval) (recursive : bool) : M pyval :=
  try_except
    (sftp_mkdir self path)
    is_IOError
    (fun e =>
       if recursive then
         let* p := match path with
                   | PStr p => ret p
                   | _ => raise (AttributeError "object has no attribute 'split'")
                   end in
         for_each (walk_paths p) (fun currentpath =>
           try_except
             (sftp_lstat self (PStr currentpath) >> ret tt)
             is_IOError
             (fun _ => sftp_mkdir self (PStr currentpath)))
       else raise e) >>
  ret path.

(** [hasattr(sourcefile, 'file')] *)
Definition has_file (sourcefile : pyobj) : bool :=
  match sourcefile with
  | PV _ => false
  | PO o => fo_has_file o
  end.

(** [try: filename = sourcefile.name  except AttributeError: filename = sourcefile] *)
Definition filename_of (sourcefile : pyobj) : pyobj :=
  match sourcefile with
  | PV _ => sourcefile
  | PO o => match fo_name o with
            | Some v => PV v
            | None => sourcefile
            end
  end.

(** ["{}_{}{}".format(filename_prefix, counter, filename_ext)] *)
Definition suffixed (filename_prefix : string) (counter : nat) (filename_ext : string) : string :=
  filename_prefix ++ "_" ++ str_of_nat counter ++ filename_ext.

(** The [while True] loop of [upload], unfolded at most [fuel] times; it
    gives the [destpath] the loop is left with. *)
Fixpoint probe (fuel : nat) (self : nat) (filename_prefix filename_ext : string)
    (overwrite : bool) (counter : nat) (destpath : string) : M string :=
  match fuel with
  | O => out_of_fuel
  | S fuel' =>
      let* next :=
        try_except
          (sftp_lstat self (PStr destpath) >>
           if overwrite then ret None
           else
             let counter := S counter in
             ret (Some (counter, suffixed filename_prefix counter filename_ext)))
          any_exception
          (fun _ => ret None) in
      match next with
      | None => ret destpath
      | Some (counter, destpath) =>
          probe fuel' self filename_prefix filename_ext overwrite counter destpath
      end
  end.

(** The directory an [upload] or [remove] works in. *)
Definition resolve_path (self : nat) (path : pyval) : M pyval :=
  let* m := deref self in
  if negb (truthy path) then ret (currentpath m)
  else os_path_join (basepath m) path.

(** The [try] block that ends [upload]: the transfer to [destpath]. *)
Definition transfer (self : nat) (sourcefile : pyobj) (destpath : string) : M bool :=
  let is_file := has_file sourcefile in
  let filename := filename_of sourcefile in
  try_except
    ((if is_file then sftp_putfo self sourcefile (PStr destpath)
      else sftp_put self filename (PStr destpath)) >>
     ret true)
    is_IOError
    (fun ioe =>
       logger ERROR ("There were problems uploading " ++ pyobj_str filename ++ " to "
                     ++ destpath ++ "." ++ nl
                     ++ match ioe with IOError msg => msg | _ => EmptyString end) >>
       ret false).

(** [upload(self, sourcefile, path=None, destname=None, overwrite=True)] *)
Definition upload (fuel : nat) (self : nat) (sourcefile : pyobj)
    (path destname : pyval) (overwrite : bool) : M bool :=
  let filename := filename_of sourcefile in
  let* destname :=
    if negb (truthy destname)
    then let* ht := os_path_split filename in ret (PStr (snd ht))
    else ret destname in
  let* path := resolve_path self path in
  mkdir self path true >>
  let* destpath := os_path_join path destname in
  let* destpath := as_str destpath in
  let '(filename_prefix, filename_ext) := posixpath.splitext destpath in
  let* destpath := probe fuel self filename_prefix filename_ext overwrite 0 destpath in
  transfer self sourcefile destpath.

(** [remove(self, filename, path=None)] *)
Definition remove (self : nat) (filename : pyobj) (path : pyval) : M bool :=
  let* ht := os_path_split filename in
  let filename := PStr (snd ht) in
  let* path := resolve_path self path in
  let* destpath := os_path_join path filename in
  try_except
    (sftp_remove self destpath >> ret true)
    is_IOError
    (fun _ =>
       logger ERROR ("The path '" ++ py_str destpath ++ "' doesn't exist.") >>
       ret false).

(** [close_connection(self)] *)
Definition close_connection (self : nat) : M bool :=
  try_except
    (update self reset_config >>
     let* h := get_sftp self in
     on_handle h "close" (fun c => lib (CallSFTPClose c) (SFTP_close c)) >>
     let* m := deref self in
     on_handle (_ssh m) "close" (fun c => lib (CallSSHClose c) (SSHClient_close c)) >>
     update self (set_sftp None) >>
     update self (set_ssh None) >>
     ret true)
    any_exception
    (fun _ => ret false).

End Methods.
End SSHClientManager.

(** ** [storage.py] and [custom_storage.py]

  A method [m] of class [C] is [C_m]; the definition named after the
  method alone resolves it on the class of [self], as a call
  [self.m(...)] does.  Embedded are the constructors, the connection
  handling, [exists], [_put_file], [_save], [disconnect] and [url]. *)

(** The Django settings the storages read. *)
Record settings := {
STATICFILES_LOCATION : pyval;
MEDIAFILES_LOCATION : pyval
}.

Section Storages.
Context `{E : Env}.

(** [d.get(k, '')] *)
Definition dict_get (d : gmap string pyval) (k : string) : pyval :=
  default (PStr EmptyString) (d !! k).

(** [d[k]] *)
Definition getitem (d : gmap string pyval) (k : string) : M pyval :=
  match d !! k with
  | Some v => ret v
  | None => raise (KeyError k)
  end.

(** [v.lower()] *)
Definition py_lower (v : pyval) : M string :=
  match v with
  | PStr s => ret (str_lower s)
  | _ => raise (AttributeError "object has no attribute 'lower'")
  end.

(** [int(v)] *)
Definition py_int (v : pyval) : M Z :=
  match v with
  | PInt z => ret z
  | PStr s => match py_int_of_str s with
              | Some z => ret z
              | None => raise (ValueError "invalid literal for int() with base 10")
              end
  | _ => raise (TypeError "int() argument must be a string, a bytes-like object or a real number")
  end.

(** [protocol == '' or protocol.lower() != 'http://' and protocol.lower() != 'https://'] *)
Definition not_a_protocol (protocol : pyval) : M bool :=
  if eq_str protocol EmptyString then ret true
  else
    let* l := py_lower protocol in
    if negb (String.eqb l "http://")
    then let* l := py_lower protocol in ret (negb (String.eqb l "https://"))
    else ret false.

Definition fail_config {A} (msg : string) : M A :=
  logger CRITICAL msg >> raise (ImproperlyConfigured msg).

Definition SSHStorage__decode_location (location : gmap string pyval) : M (gmap string pyval) :=
  (* Mandatory attributes *)
  (if eq_str (dict_get location "HOSTNAME") EmptyString then fail_config "A hostname must be provided."
   else ret tt) >>
  (if eq_str (dict_get location "USERNAME") EmptyString then fail_config "A username must be provided."
   else ret tt) >>
  (if eq_str (dict_get location "BASEPATH") EmptyString then fail_config "A basepath must be provided."
   else ret tt) >>
  (if eq_str (dict_get location "PASSWORD") EmptyString && eq_str (dict_get location "RSA_KEY") EmptyString
   then fail_config "A password or rsa_key must be provided."
   else ret tt) >>
  let config : gmap string pyval := ∅ in
  let* v := getitem location "HOSTNAME" in
  let config := <["hostname" := v]> config in
  let* v := getitem location "USERNAME" in
  let config := <["username" := v]> config in
  let* v := getitem location "BASEPATH" in
  let config := <["basepath" := v]> config in
  (* Optional attributes *)
  let protocol := dict_get location "PROTOCOL" in
  let* b := not_a_protocol protocol in
  let* config :=
    if b then ret (<["protocol" := PStr "http://"]> config)
    else let* l := py_lower protocol in ret (<["protocol" := PStr l]> config) in
  let* config :=
    if eq_str (dict_get location "PASSWORD") EmptyString then
      let config := <["password" := PNone]> config in
      let* v := getitem location "RSA_KEY" in
      let config := <["rsa_key" := v]> config in
      let* found := lib_exists v in
      if negb found
      then raise (ImproperlyConfigured ("The file '" ++ py_str v ++ "' has not been found."))
      else ret config
    else
      let* v := getitem location "PASSWORD" in
      let config := <["password" := v]> config in
      ret (<["rsa_key" := PNone]> config) in
  let* config :=
    if eq_str (dict_get location "PORT") EmptyString then ret (<["port" := PInt 22]> config)
    else
      try_except
        (let* v := getitem location "PORT" in
         let* z := py_int v in
         ret (<["port" := PInt z]> config))
        is_ValueError
        (fun _ => ret (<["port" := PInt 22]> config)) in
  let static_proxy_protocol := dict_get location "STATIC_PROXY_PROTOCOL" in
  let* b := not_a_protocol static_proxy_protocol in
  let* config :=
    if b then
      let* v := getitem config "protocol" in
      ret (<["static_proxy_protocol" := v]> config)
    else ret (<["static_proxy_protocol" := static_proxy_protocol]> config) in
  let static_proxy_hostname := dict_get location "STATIC_PROXY_HOSTNAME" in
  let* config :=
    if eq_str static_proxy_hostname EmptyString then
      let* v := getitem config "hostname" in
      ret (<["static_proxy_hostname" := v]> config)
    else ret (<["static_proxy_hostname" := static_proxy_hostname]> config) in
  let static_proxy_port := dict_get location "STATIC_PROXY_PORT" in
  let* config :=
    if eq_str static_proxy_port EmptyString then ret (<["static_proxy_port" := PStr "80"]> config)
    else
      try_except
        (py_int static_proxy_port >>
         ret (<["static_proxy_port" := static_proxy_port]> config))
        is_ValueError
        (fun _ => ret (<["static_proxy_port" := PStr "80"]> config)) in
  ret config.

(** [MultipleSSHStorages._decode_location].  The assignment
    [location['HOSTNAME'] = 'localhost'] is made on the dictionary that is
    decoded here. *)
Definition MultipleSSHStorages__decode_location (location : gmap string pyval)
    : M (gmap string pyval) :=
  (if eq_str (dict_get location "HOSTNAMES") EmptyString then fail_config "A hostname must be provided."
   else ret tt) >>
  let location := <["HOSTNAME" := PStr "localhost"]> location in
  let* config := SSHStorage__decode_location location in
  let* v := getitem location "HOSTNAMES" in
  ret (<["hostnames" := v]> config).

Definition _decode_location (c : storage_class) (location : gmap string pyval)
    : M (gmap string pyval) :=
  match c with
  | MultipleSSHStorages => MultipleSSHStorages__decode_location location
  | _ => SSHStorage__decode_location location
  end.

Definition set_config (c : gmap string pyval) (st : storage) : storage :=
  {| cls := cls st; _config := c; _ssh_client_manager := _ssh_client_manager st;
     _ssh_client_managers := _ssh_client_managers st |}.
Definition set_ssh_client_manager (m : option nat) (st : storage) : storage :=
  {| cls := cls st; _config := _config st; _ssh_client_manager := m;
     _ssh_client_managers := _ssh_client_managers st |}.
Definition set_ssh_client_managers (ms : list (string * option nat)) (st : storage) : storage :=
  {| cls := cls st; _config := _config st; _ssh_client_manager := _ssh_client_manager st;
     _ssh_client_managers := ms |}.

(** [d[k] = v] on a dict kept in insertion order. *)
Fixpoint dict_set {V} (k : string) (v : V) (d : list (string * V)) : list (string * V) :=
  match d with
  | [] => [(k, v)]
  | (k', v') :: d' => if String.eqb k' k then (k', v) :: d' else (k', v') :: dict_set k v d'
  end.

(** [for x in v]: the elements of a list, the characters of a string. *)
Definition py_iter (v : pyval) : M (list string) :=
  match v with
  | PList l => ret l
  | PStr s => ret (map (fun c => String c EmptyString) (list_ascii_of_string s))
  | _ => raise (TypeError "object is not iterable")
  end.

(** [SSHStorage.__init__], run for an object of class [c]. *)
Definition SSHStorage___init__ (c : storage_class) (location : gmap string pyval) : M nat :=
  let* config := _decode_location c location in
  new_storage {| cls := c; _config := config; _ssh_client_manager := None;
                 _ssh_client_managers := [] |}.

Definition MultipleSSHStorages___init__ (location : gmap string pyval) : M nat :=
  let* self := SSHStorage___init__ MultipleSSHStorages location in
  update_storage self (set_ssh_client_managers []) >>
  let* st := deref_storage self in
  let* v := getitem (_config st) "hostnames" in
  let* hosts := py_iter v in
  for_each hosts (fun host =>
    update_storage self (fun st =>
      set_ssh_client_managers (dict_set host None (_ssh_client_managers st)) st)) >>
  ret self.

Definition _add_to_basepath (self : nat) (location : pyval) : M unit :=
  update_storage self (fun st => set_config (<["location" := location]> (_config st)) st) >>
  let* st := deref_storage self in
  let* _path := getitem (_config st) "basepath" in
  let* _path := os_path_join _path location in
  update_storage self (fun st => set_config (<["basepath" := _path]> (_config st)) st).

Definition StaticStorage___init__ (cfg : settings) (location : gmap string pyval) : M nat :=
  let* self := SSHStorage___init__ StaticStorage location in
  let location := STATICFILES_LOCATION cfg in
  _add_to_basepath self location >>
  ret self.

Definition MediaStorage___init__ (cfg : settings) (location : gmap string pyval) : M nat :=
  let* self := SSHStorage___init__ MediaStorage location in
  let location := MEDIAFILES_LOCATION cfg in
  _add_to_basepath self location >>
  ret self.

(** [C(location)] *)
Definition construct (c : storage_class) (cfg : settings) (location : gmap string pyval) : M nat :=
  match c with
  | SSHStorage => SSHStorage___init__ SSHStorage location
  | MultipleSSHStorages => MultipleSSHStorages___init__ location
  | StaticStorage => StaticStorage___init__ cfg location
  | MediaStorage => MediaStorage___init__ cfg location
  end.

(** A method called on a reference to a manager that may be [None]. *)
Definition on_manager {A} (m : option nat) (meth : string) (k : nat -> M A) : M A :=
  match m with
  | Some r => k r
  | None => raise (AttributeError ("'NoneType' object has no attribute '" ++ meth ++ "'"))
  end.

(** The [check] of [_start_connection]: a manager that fails it is closed
    and dropped. *)
Definition drop_if_invalid (manager : option nat) : M (option nat) :=
  match manager with
  | Some m =>
      try_except
        (SSHClientManager.check m >> ret (Some m))
        any_exception
        (fun _ =>
           try_except (SSHClientManager.close_connection m >> ret tt)
                      any_exception (fun _ => ret tt) >>
           ret None)
  | None => ret None
  end.

Definition connection_error {A} (config : gmap string pyval) : M A :=
  let msg := "Connection or login error using data " ++ py_repr_dict config in
  logger ERROR msg >> raise (SSHStorageException msg).

Definition SSHStorage__start_connection (self : nat) : M unit :=
  (* Check if connection is still alive and if not, drop it. *)
  let* st := deref_storage self in
  let* kept := drop_if_invalid (_ssh_client_manager st) in
  update_storage self (set_ssh_client_manager kept) >>
  (* Real reconnect *)
  let* st := deref_storage self in
  match _ssh_client_manager st with
  | None =>
      let config := _config st in
      let* hostname := getitem config "hostname" in
      let* username := getitem config "username" in
      let* basepath := getitem config "basepath" in
      let* password := getitem config "password" in
      let* rsa_key := getitem config "rsa_key" in
      let* port := getitem config "port" in
      let* m := SSHClientManager.__init__ hostname username password port rsa_key basepath in
      update_storage self (set_ssh_client_manager (Some m)) >>
      let* connected := SSHClientManager.setup m in
      if negb connected then connection_error config else ret tt
  | Some _ => ret tt
  end.

Definition MultipleSSHStorages__start_connection (self : nat) : M unit :=
  let* st := deref_storage self in
  let managers := _ssh_client_managers st in
  for_each managers (fun '(host, manager) =>
    let* manager := drop_if_invalid manager in
    match manager with
    | None =>
        let* st := deref_storage self in
        let config := _config st in
        let* username := getitem config "username" in
        let* basepath := getitem config "basepath" in
        let* password := getitem config "password" in
        let* rsa_key := getitem config "rsa_key" in
        let* port := getitem config "port" in
        let* m := SSHClientManager.__init__ (PStr host) username password port rsa_key basepath in
        let* connected := SSHClientManager.setup m in
        if negb connected then connection_error config
        else update_storage self (fun st =>
               set_ssh_client_managers (dict_set host (Some m) (_ssh_client_managers st)) st)
    | Some _ => ret tt
    end).

Definition _start_connection (self : nat) : M unit :=
  let* st := deref_storage self in
  match cls st with
  | MultipleSSHStorages => MultipleSSHStorages__start_connection self
  | _ => SSHStorage__start_connection self
  end.

(** The [ssh_client_manager] property. *)
Definition ssh_client_manager (self : nat) : M (option nat) :=
  let* st := deref_storage self in
  (match _ssh_client_manager st with
   | None => _start_connection self
   | Some _ => ret tt
   end) >>
  let* st := deref_storage self in
  ret (_ssh_client_manager st).

Definition _remote_path (self : nat) (name : string) : M string :=
  let* st := deref_storage self in
  let* basepath := getitem (_config st) "basepath" in
  let* r := os_path_join basepath (PStr name) in
  as_str r.

(** [manager.sftp.stat(remote_path)] *)
Definition manager_stat (manager : option nat) (remote_path : string) : M sftp_attr :=
  let* h := on_manager manager "sftp" SSHClientManager.sftp in
  SSHClientManager.on_handle h "stat" (fun c =>
    ask (CallStat c remote_path) (SFTP_stat c remote_path)).

Definition SSHStorage_exists (self : nat) (name : string) : M bool :=
  let* remote_path := _remote_path self name in
  try_except
    (let* manager := ssh_client_manager self in
     manager_stat manager remote_path >>
     ret true)
    is_IOError
    (fun _ => ret false).

Definition MultipleSSHStorages_exists (self : nat) (name : string) : M bool :=
  let* remote_path := _remote_path self name in
  try_except
    (let* st := deref_storage self in
     for_each (map snd (_ssh_client_managers st)) (fun manager =>
       manager_stat manager remote_path >> ret tt) >>
     ret true)
    is_IOError
    (fun _ => ret false).

Definition exists_ (self : nat) (name : string) : M bool :=
  let* st := deref_storage self in
  match cls st with
  | MultipleSSHStorages => MultipleSSHStorages_exists self name
  | _ => SSHStorage_exists self name
  end.

Definition disconnect (self : nat) : M unit :=
  let* st := deref_storage self in
  match _ssh_client_manager st with
  | Some m =>
      SSHClientManager.close_connection m >>
      update_storage self (set_ssh_client_manager None)
  | None => ret tt
  end.

(** [path if path != '' else None] *)
Definition path_or_none (path : string) : pyval :=
  if negb (String.eqb path EmptyString) then PStr path else PNone.

Definition SSHStorage__put_file (fuel : nat) (self : nat) (name : string) (content : pyobj) : M unit :=
  let '(path, destname) := posixpath.split name in
  let* st := deref_storage self in
  let* result :=
    on_manager (_ssh_client_manager st) "upload" (fun m =>
      SSHClientManager.upload fuel m content (path_or_none path) (PStr destname) true) in
  if negb result then
    logger ERROR ("Error writing file " ++ name) >>
    raise (SSHStorageException ("Error writing file " ++ name))
  else ret tt.

Definition MultipleSSHStorages__put_file (fuel : nat) (self : nat) (name : string) (content : pyobj)
    : M unit :=
  let '(path, destname) := posixpath.split name in
  let* st := deref_storage self in
  for_each (map snd (_ssh_client_managers st)) (fun manager =>
    let* result :=
      on_manager manager "upload" (fun m =>
        SSHClientManager.upload fuel m content (path_or_none path) (PStr destname) true) in
    if negb result then logger ERROR ("Error writing file " ++ name)
    else ret tt).

Definition _put_file (fuel : nat) (self : nat) (name : string) (content : pyobj) : M unit :=
  let* st := deref_storage self in
  match cls st with
  | MultipleSSHStorages => MultipleSSHStorages__put_file fuel self name content
  | _ => SSHStorage__put_file fuel self name content
  end.

(** [content.open()] and [content.close()].  A [File] object opens and
    closes itself; a value that is no file object, the bytes of a buffer
    among them, has no such method. *)
Definition content_open (content : pyobj) : M unit :=
  match content with
  | PO _ => ret tt
  | PV _ => raise (AttributeError "object has no attribute 'open'")
  end.

Definition content_close (content : pyobj) : M unit :=
  match content with
  | PO _ => ret tt
  | PV _ => raise (AttributeError "object has no attribute 'close'")
  end.

(** [_save(name, content)]: [content.open()] comes first and
    [content.close()] last. *)
Definition _save (fuel : nat) (self : nat) (name : string) (content : pyobj) : M string :=
  content_open content >>
  _start_connection self >>
  _put_file fuel self name content >>
  content_close content >>
  ret name.

Definition url (self : nat) (name : string) : M string :=
  let* st := deref_storage self in
  let* hostname_aux := getitem (_config st) "static_proxy_hostname" in
  let* p := getitem (_config st) "static_proxy_port" in
  let* hostname_aux :=
    if negb (eq_str p "80") then
      let* p := getitem (_config st) "static_proxy_port" in
      ret (PStr (py_str hostname_aux ++ ":" ++ py_str p))
    else ret hostname_aux in
  let* a := getitem (_config st) "static_proxy_protocol" in
  let* c := getitem (_config st) "location" in
  let* a := as_str a in
  let* b := as_str hostname_aux in
  let* c := as_str c in
  let the_url := str_replace "\"%char "/"%char (posixpath.join a [b; c; name]) in
  ret the_url.

End Storages.

(** ** An environment: hosts with an in-memory file system

  A host keeps its directories and files under their lists of path
  components.  A relative path is resolved against the home directory of
  the account, an absolute one against the root; empty components are
  dropped.  A host may be read-only.  Operations on a handle that is not
  open fail with [IOError], as a closed socket does. *)
Module Mem.

Inductive node :=
| Dir
| File (content : string).

Record host := {
  files : gmap (list string) node;
  home : list string;
  readonly : bool;
  accepts : connect_kwargs -> bool
}.

Record mworld := {
  hosts : gmap string host;
  clients : gmap nat (option string);
  sftps : gmap nat string;
  next_id : nat;
  local_files : gmap string string
}.

Definition components (p : string) : list string :=
  filter (λ x, x ≠ EmptyString) (str_split sep p).

Definition resolve (hd : host) (p : string) : list string :=
  if startswith sep p then components p else home hd ++ components p.

Definition node_at (fs : gmap (list string) node) (l : list string) : option node :=
  match l with
  | [] => Some Dir
  | _ => fs !! l
  end.

Definition attr_of (n : node) : sftp_attr :=
  match n with
  | Dir => {| st_size := 4096; st_mtime := 0; st_atime := 0; st_mode := Some 16384%Z |}
  | File c => {| st_size := Z.of_nat (String.length c); st_mtime := 0; st_atime := 0;
                 st_mode := Some 32768%Z |}
  end.

Definition set_hosts (hs : gmap string host) (w : mworld) : mworld :=
  {| hosts := hs; clients := clients w; sftps := sftps w; next_id := next_id w;
     local_files := local_files w |}.

Definition set_files (fs : gmap (list string) node) (hd : host) : host :=
  {| files := fs; home := home hd; readonly := readonly hd; accepts := accepts hd |}.

(** The host behind an open SFTP handle. *)
Definition host_of (h : nat) (w : mworld) : option (string * host) :=
  match sftps w !! h with
  | Some name => match hosts w !! name with
                 | Some hd => Some (name, hd)
                 | None => None
                 end
  | None => None
  end.

Definition closed {A} : reply A := Throw (IOError "Socket is closed").

Definition lstat (h : nat) (p : string) (w : mworld) : reply sftp_attr :=
  match host_of h w with
  | Some (_, hd) =>
      match node_at (files hd) (resolve hd p) with
      | Some n => Reply (attr_of n)
      | None => Throw (IOError "No such file")
      end
  | None => closed
  end.

Definition mkdir (h : nat) (p : string) (w : mworld) : reply unit * mworld :=
  match host_of h w with
  | Some (name, hd) =>
      let l := resolve hd p in
      if readonly hd then (Throw (IOError "Permission denied"), w)
      else match node_at (files hd) l with
           | Some _ => (Throw (IOError "Failure"), w)
           | None =>
               match node_at (files hd) (removelast l) with
               | Some Dir =>
                   (Reply tt, set_hosts (<[name := set_files (<[l := Dir]> (files hd)) hd]> (hosts w)) w)
               | _ => (Throw (IOError "No such file"), w)
               end
           end
  | None => (closed, w)
  end.

(** Create or replace the file at [p]. *)
Definition write (h : nat) (p : string) (content : string) (w : mworld) : reply unit * mworld :=
  match host_of h w with
  | Some (name, hd) =>
      let l := resolve hd p in
      if readonly hd then (Throw (IOError "Permission denied"), w)
      else match l, node_at (files hd) l, node_at (files hd) (removelast l) with
           | [], _, _ => (Throw (IOError "Failure"), w)
           | _, Some Dir, _ => (Throw (IOError "Failure"), w)
           | _, _, Some Dir =>
               (Reply tt,
                set_hosts (<[name := set_files (<[l := File content]> (files hd)) hd]> (hosts w)) w)
           | _, _, _ => (Throw (IOError "No such file"), w)
           end
  | None => (closed, w)
  end.

Definition put (h : nat) (localpath remotepath : string) (w : mworld) : reply unit * mworld :=
  match local_files w !! localpath with
  | Some content => write h remotepath content w
  | None => (Throw (IOError "No such file or directory"), w)
  end.

Definition putfo (h : nat) (fl : pyobj) (remotepath : string) (w : mworld) : reply unit * mworld :=
  match fl with
  | PO o => write h remotepath (fo_data o) w
  | PV _ => (Throw (AttributeError "object has no attribute 'read'"), w)
  end.

Definition remove (h : nat) (p : string) (w : mworld) : reply unit * mworld :=
  match host_of h w with
  | Some (name, hd) =>
      let l := resolve hd p in
      if readonly hd then (Throw (IOError "Permission denied"), w)
      else match node_at (files hd) l with
           | Some (File _) =>
               (Reply tt, set_hosts (<[name := set_files (delete l (files hd)) hd]> (hosts w)) w)
           | _ => (Throw (IOError "No such file"), w)
           end
  | None => (closed, w)
  end.

Definition new_client (w : mworld) : nat * mworld :=
  (next_id w,
   {| hosts := hosts w; clients := <[next_id w := None]> (clients w); sftps := sftps w;
      next_id := S (next_id w); local_files := local_files w |}).

Definition connect (c : nat) (hostname : pyval) (kw : connect_kwargs) (w : mworld)
    : reply unit * mworld :=
  match hostname with
  | PStr name =>
      match hosts w !! name with
      | Some hd =>
          if accepts hd kw then
            (Reply tt,
             {| hosts := hosts w; clients := <[c := Some name]> (clients w); sftps := sftps w;
                next_id := next_id w; local_files := local_files w |})
          else (Throw (SSHException "Authentication failed."), w)
      | None => (Throw (IOError "Name or service not known"), w)
      end
  | _ => (Throw (TypeError "hostname must be a string"), w)
  end.

Definition open_sftp (c : nat) (w : mworld) : reply nat * mworld :=
  match clients w !! c with
  | Some (Some name) =>
      (Reply (next_id w),
       {| hosts := hosts w; clients := clients w; sftps := <[next_id w := name]> (sftps w);
          next_id := S (next_id w); local_files := local_files w |})
  | _ => (Throw (SSHException "SSH session not active"), w)
  end.

Definition close_client (c : nat) (w : mworld) : reply unit * mworld :=
  (Reply tt,
   {| hosts := hosts w; clients := delete c (clients w); sftps := sftps w;
      next_id := next_id w; local_files := local_files w |}).

Definition close_sftp (h : nat) (w : mworld) : reply unit * mworld :=
  (Reply tt,
   {| hosts := hosts w; clients := clients w; sftps := delete h (sftps w);
      next_id := next_id w; local_files := local_files w |}).

Definition path_exists (v : pyval) (w : mworld) : reply bool :=
  match v with
  | PStr p => Reply (bool_decide (is_Some (local_files w !! p)))
  | PInt _ => Reply false
  | _ => Throw (TypeError "stat: path should be string, bytes, os.PathLike or integer")
  end.

(** [int(s)] for a string of decimal digits. *)
Definition int_of_str (s : string) : option Z :=
  match NilEmpty.uint_of_string s with
  | Some d => if String.eqb s EmptyString then None else Some (Z.of_nat (Nat.of_uint d))
  | None => None
  end.

Definition repr_list (l : list string) : string :=
  "[" ++ String.concat ", " (map (fun x => "'" ++ x ++ "'") l) ++ "]".

Definition repr_dict (d : gmap string pyval) : string := "{...}".

#[export] Instance env : Env := {|
  world := mworld;
  ssh_client := nat;
  sftp_client := nat;
  py_int_of_str := int_of_str;
  py_repr_list := repr_list;
  py_repr_dict := repr_dict;
  os_path_exists := path_exists;
  SSHClient_new := new_client;
  SSHClient_set_missing_host_key_policy := fun _ w => (Reply tt, w);
  SSHClient_connect := connect;
  SSHClient_open_sftp := open_sftp;
  SSHClient_close := close_client;
  SFTP_close := close_sftp;
  SFTP_mkdir := mkdir;
  SFTP_lstat := lstat;
  SFTP_stat := lstat;
  SFTP_put := put;
  SFTP_putfo := putfo;
  SFTP_remove := remove
|}.

(** The account [u] with password [p]. *)
Definition login (u p : string) (kw : connect_kwargs) : bool :=
  match kw_username kw, kw_password kw with
  | Some (PStr u'), Some (PStr p') => String.eqb u u' && String.eqb p p'
  | _, _ => false
  end.

Definition empty_world : mworld :=
  {| hosts := ∅; clients := ∅; sftps := ∅; next_id := 0; local_files := ∅ |}.

Definition initial (w : mworld) : state (E := env) :=
  {| remote := w; managers := ∅; storages := ∅; next_ref := 0; calls := []; log := [] |}.

End Mem.

(** ** Vocabulary of the properties *)

Section Vocabulary.
Context `{E : Env}.

(** The configuration fields at their defaults. *)
Definition config_reset (m : manager) : Prop :=
  hostname m = PNone /\ username m = PNone /\ password m = PNone /\
  port m = PInt 22 /\ rsa_key m = PNone /\ basepath m = PNone /\
  currentpath m = PNone.

(** Both handles are set and the library closes them without an error. *)
Definition closes_cleanly (m : manager) (w : world) : Prop :=
  exists h c w1 w2, _sftp m = Bound (Some h) /\ _ssh m = Some c /\
    SFTP_close h w = (Reply tt, w1) /\ SSHClient_close c w1 = (Reply tt, w2).


(** A setting is missing: the key is absent or bound to the empty string. *)
Definition missing (location : gmap string pyval) (k : string) : Prop :=
  location !! k = None \/ location !! k = Some (PStr EmptyString).

(** What a decoding that returns has built. *)
Record decoded (location : gmap string pyval) (w : world) (config : gmap string pyval) : Prop := {
  dec_shape : exists hn un bp proto pw key prt spp sph spport,
    config = <["static_proxy_port" := spport]> (<["static_proxy_hostname" := sph]>
              (<["static_proxy_protocol" := spp]> (<["port" := prt]> (<["rsa_key" := key]>
              (<["password" := pw]> (<["protocol" := proto]> (<["basepath" := bp]>
              (<["username" := un]> (<["hostname" := hn]> ∅))))))))) /\
    location !! "HOSTNAME" = Some hn /\ location !! "USERNAME" = Some un /\
    location !! "BASEPATH" = Some bp /\
    (if eq_str (dict_get location "PASSWORD") EmptyString
     then pw = PNone /\ location !! "RSA_KEY" = Some key /\ os_path_exists key w = Reply true
     else location !! "PASSWORD" = Some pw /\ key = PNone)
}.





(** The keyword arguments [setup] builds from the fields of a manager. *)
Definition kwargs_of (m : manager) : connect_kwargs :=
  {| kw_port := port m;
     kw_username := if truthy (username m) then Some (username m) else None;
     kw_password := if truthy (password m) then Some (password m) else None;
     kw_key_filename := if truthy (rsa_key m) then Some (rsa_key m) else None |}.

Definition quiet {A} (P : call -> Prop) (c : M A) : Prop :=
  forall s o s', c s = (o, s') ->
    managers s' = managers s /\ storages s' = storages s /\
    exists new : list call, calls s' = (calls s ++ new)%list /\ Forall P new.

(** The calls an [upload] may make. *)
Definition upload_call (c : call) : Prop :=
  match c with
  | CallMkdir _ _ | CallLstat _ _ | CallPut _ _ _ | CallPutfo _ _ _ => True
  | _ => False
  end.

(** The file name an [upload] resolves: [destname], or the last component
    of the name of the source. *)
Definition dest_name (sourcefile : pyobj) (destname : pyval) : option string :=
  if truthy destname then
    match destname with PStr d => Some d | _ => None end
  else
    match SSHClientManager.filename_of sourcefile with
    | PV (PStr f) => Some (snd (posixpath.split f))
    | _ => None
    end.

(** The directory an [upload] resolves: [path] under the base path, or
    the current path. *)
Definition dest_dir (m : manager) (path : pyval) : option string :=
  if truthy path then
    match basepath m, path with
    | PStr b, PStr p => Some (posixpath.join b [p])
    | _, _ => None
    end
  else
    match currentpath m with PStr c => Some c | _ => None end.

(** The names of a destination [name.ext]: [name.ext] itself, then
    [name_1.ext], [name_2.ext], ...: the number, in decimal after an
    underscore, comes before the extension. *)
Definition candidate (destpath : string) (k : nat) : string :=
  match k with
  | O => destpath
  | _ => fst (posixpath.splitext destpath) ++ "_" ++ str_of_nat k
         ++ snd (posixpath.splitext destpath)
  end.

(** The library call that transfers [sourcefile] to [destpath]. *)
Definition put_request (h : sftp_client) (sourcefile : pyobj) (destpath : string)
    : option (call * (world -> reply unit * world)) :=
  if SSHClientManager.has_file sourcefile
  then Some (CallPutfo h sourcefile destpath, SFTP_putfo h sourcefile destpath)
  else match SSHClientManager.filename_of sourcefile with
       | PV (PStr l) => Some (CallPut h l destpath, SFTP_put h l destpath)
       | _ => None
       end.

Definition transfer_error (sourcefile : pyobj) (destpath : string) (e : exn) : string :=
  "There were problems uploading " ++ pyobj_str (SSHClientManager.filename_of sourcefile)
  ++ " to " ++ destpath ++ "." ++ SSHClientManager.nl
  ++ match e with IOError msg => msg | _ => EmptyString end.

(** What the transfer gives, from the reply of the library. *)
Definition transferred (sourcefile : pyobj) (destpath : string)
    (c : call) (f : world -> reply unit * world) (s : state) : outcome bool * state :=
  let s1 := add_call c s in
  match f (remote s) with
  | (Reply _, w) => (Ok true, set_remote w s1)
  | (Throw e, w) =>
      if is_IOError e
      then (Ok false, add_log ERROR (transfer_error sourcefile destpath e) (set_remote w s1))
      else (Raise e, set_remote w s1)
  end.

(** [lstat] finds the path. *)
Definition present (h : sftp_client) (q : string) (w : world) : Prop :=
  exists a, SFTP_lstat h q w = Reply a.

(** [lstat] raises for the path, whatever the exception. *)
Definition absent (h : sftp_client) (q : string) (w : world) : Prop :=
  exists e, SFTP_lstat h q w = Throw e.

(** The call that [_put_file] makes on one manager of the dict. *)
Definition upload_on (fuel : nat) (name : string) (content : pyobj) (manager : option nat)
    : M bool :=
  on_manager manager "upload" (fun m =>
    SSHClientManager.upload fuel m content (path_or_none (fst (posixpath.split name)))
      (PStr (snd (posixpath.split name))) true).

(** The uploads of a fan-out that all return: each is started in the
    state the one before has left, after the error record of a failed
    one. *)
Inductive fan_out (up : option nat -> M bool) (msg : string)
    : list (option nat) -> state -> list bool -> state -> Prop :=
| fan_out_nil s : fan_out up msg [] s [] s
| fan_out_cons manager rest s b s1 bs s2 :
    up manager s = (Ok b, s1) ->
    fan_out up msg rest (if b then s1 else add_log ERROR msg s1) bs s2 ->
    fan_out up msg (manager :: rest) s (b :: bs) s2.

(** A transfer on the handle [h]. *)
Definition is_put_on (h : sftp_client) (c : call) : Prop :=
  match c with
  | CallPut h' _ _ | CallPutfo h' _ _ => h' = h
  | _ => False
  end.

(** The exception of the first [stat] that fails, the hosts taken in the
    order of the dict. *)
Fixpoint first_stat_failure (remote_path : string) (w : world) (hs : list sftp_client)
    : option exn :=
  match hs with
  | [] => None
  | h :: hs' =>
      match SFTP_stat h remote_path w with
      | Reply _ => first_stat_failure remote_path w hs'
      | Throw e => Some e
      end
  end.

(** Every entry of the dict refers to a manager that holds an SFTP
    handle; [hs] are these handles, in the order of the dict. *)
Definition connected (s : state) (ms : list (string * option nat)) (hs : list sftp_client)
    : Prop :=
  Forall2 (fun entry h => exists r m, snd entry = Some r /\ managers s !! r = Some m /\
                                      _sftp m = Bound (Some h)) ms hs.

(** The probe-then-create step of the recursive walk. *)
Definition walk_step (self : nat) (currentpath : string) : M unit :=
  try_except
    (bind (SSHClientManager.sftp_lstat self (PStr currentpath)) (fun _ => ret tt))
    is_IOError
    (fun _ => SSHClientManager.sftp_mkdir self (PStr currentpath)).

(** [c] occurs in [s]. *)
Fixpoint has_char (c : ascii) (s : string) : bool :=
  match s with
  | EmptyString => false
  | String a r => Ascii.eqb a c || has_char c r
  end.

(** Every entry of a file system lies under an entry. *)
Definition prefix_closed (fs : gmap (list string) Mem.node) : Prop :=
  forall l x, is_Some (fs !! (l ++ [x])%list) -> is_Some (Mem.node_at fs l).

End Vocabulary.

(** ** Deployments used to run the storages *)
Module Scenario.
#[local] Existing Instance Mem.env.

Definition host_with (fs : gmap (list string) Mem.node) (ro : bool) : Mem.host :=
  {| Mem.files := fs; Mem.home := ["home"; "u"]; Mem.readonly := ro;
     Mem.accepts := Mem.login "u" "p" |}.

Definition world_with (hs : gmap string Mem.host) : Mem.mworld :=
  {| Mem.hosts := hs; Mem.clients := ∅; Mem.sftps := ∅; Mem.next_id := 0;
     Mem.local_files := {[ "pic.jpg" := "new" ]} |}.

(** One host, with [/data/pic.jpg] on it. *)
Definition one_host : Mem.mworld :=
  world_with {[ "h1" := host_with {[ ["data"] := Mem.Dir;
                                     ["data"; "pic.jpg"] := Mem.File "old" ]} false ]}.

(** A manager for [u] on [h1] under [basepath], connected. *)
Definition connect (basepath : string) : M nat :=
  let* m := SSHClientManager.__init__ (PStr "h1") (PStr "u") (PStr "p") (PInt 22) PNone
              (PStr basepath) in
  SSHClientManager.setup m >>
  ret m.

Definition connected_data : state :=
  Eval vm_compute in snd (connect "/data" (Mem.initial one_host)).

(** The state after [mkdir('/data/media/img')]. *)
Definition made_img : state :=
  Eval vm_compute in
  snd (SSHClientManager.mkdir 0 (PStr "/data/media/img") true connected_data).

(** The same manager with a password the host refuses. *)
Definition refused : state :=
  Eval vm_compute in
  snd ((let* m := SSHClientManager.__init__ (PStr "h1") (PStr "u") (PStr "wrong") (PInt 22)
                    PNone (PStr "/data") in
        SSHClientManager.setup m) (Mem.initial one_host)).

(** One host with the directory [a] in the home directory of the account. *)
Definition home_host : Mem.mworld :=
  world_with {[ "h1" := host_with {[ ["home"] := Mem.Dir; ["home"; "u"] := Mem.Dir;
                                     ["home"; "u"; "a"] := Mem.Dir ]} false ]}.

Definition connected_home : state :=
  Eval vm_compute in snd (connect "uploads" (Mem.initial home_host)).

Definition media : gmap (list string) Mem.node :=
  {[ ["data"] := Mem.Dir; ["data"; "media"] := Mem.Dir ]}.

(** Two hosts; on the first, [/data] is a regular file. *)
Definition blocked_first : Mem.mworld :=
  world_with {[ "h1" := host_with {[ ["data"] := Mem.File "not a directory" ]} false;
                "h2" := host_with media false ]}.

(** Two hosts; the first is read-only. *)
Definition readonly_first : Mem.mworld :=
  world_with {[ "h1" := host_with media true; "h2" := host_with media false ]}.

Definition two_hosts : gmap string pyval :=
  {[ "HOSTNAMES" := PList ["h1"; "h2"]; "USERNAME" := PStr "u"; "PASSWORD" := PStr "p";
     "BASEPATH" := PStr "/data/media" ]}.

Definition pic : pyobj :=
  PO {| fo_has_file := true; fo_name := Some (PStr "pic.jpg"); fo_str := "pic.jpg";
        fo_data := "JPEG" |}.

(** A coordinator for the two hosts, just constructed. *)
Definition coordinator (w : Mem.mworld) : state :=
  snd (MultipleSSHStorages___init__ two_hosts (Mem.initial w)).

(** The coordinator with its managers connected. *)
Definition coordinator_connected (w : Mem.mworld) : state :=
  snd (_start_connection 0 (coordinator w)).

Definition fresh_readonly_first : state :=
  Eval vm_compute in coordinator readonly_first.
Definition connected_readonly_first : state :=
  Eval vm_compute in coordinator_connected readonly_first.
Definition connected_blocked_first : state :=
  Eval vm_compute in coordinator_connected blocked_first.

(** The fan-out of [pic.jpg] from the coordinator whose first host is
    read-only: the state after the upload to the first host, and the state
    after the upload to the second. *)
Definition readonly_first_tried : state :=
  Eval vm_compute in snd (upload_on 1 "pic.jpg" pic (Some 1) connected_readonly_first).
Definition readonly_first_done : state :=
  Eval vm_compute in
  snd (upload_on 1 "pic.jpg" pic (Some 2)
         (add_log ERROR "Error writing file pic.jpg" readonly_first_tried)).

Definition one_host_settings : gmap string pyval :=
  {[ "HOSTNAME" := PStr "h1"; "USERNAME" := PStr "u"; "PASSWORD" := PStr "p";
     "RSA_KEY" := PStr "/home/u/.ssh/id_rsa"; "BASEPATH" := PStr "/data" ]}.

Definition django : settings :=
  {| STATICFILES_LOCATION := PStr "static"; MEDIAFILES_LOCATION := PStr "media" |}.

(** An [SSHStorage] constructed from these settings. *)
Definition constructed : state :=
  Eval vm_compute in
  snd (construct SSHStorage django one_host_settings (Mem.initial one_host)).

(** A manager for [u] on [h1], made and never connected. *)
Definition never_connected : state :=
  Eval vm_compute in
  snd (SSHClientManager.__init__ (PStr "h1") (PStr "u") (PStr "p") (PInt 22) PNone
         (PStr "/data") (Mem.initial one_host)).

(** One host, with [/data/pic.jpg] and [/data/pic_1.jpg] on it. *)
Definition two_pics : Mem.mworld :=
  world_with {[ "h1" := host_with {[ ["data"] := Mem.Dir;
                                     ["data"; "pic.jpg"] := Mem.File "old";
                                     ["data"; "pic_1.jpg"] := Mem.File "older" ]} false ]}.

Definition connected_two_pics : state :=
  Eval vm_compute in snd (connect "/data" (Mem.initial two_pics)).

(** What the host [name] holds at the path of components [l]. *)
Definition file_on (name : string) (l : list string) (w : Mem.mworld) : option Mem.node :=
  match Mem.hosts w !! name with
  | Some hd => Mem.files hd !! l
  | None => None
  end.

End Scenario.

(** ** A host that hides its files

  The in-memory hosts again, with one difference: the account may
  write files but may not read their attributes.  [lstat] and [stat]
  answer for a directory and raise for a regular file, as they do for a
  path that is not there. *)
Module DropBox.

Definition lstat (h : nat) (p : string) (w : Mem.mworld) : reply sftp_attr :=
  match Mem.host_of h w with
  | Some (_, hd) =>
      match Mem.node_at (Mem.files hd) (Mem.resolve hd p) with
      | Some Mem.Dir => Reply (Mem.attr_of Mem.Dir)
      | Some (Mem.File _) => Throw (IOError "Permission denied")
      | None => Throw (IOError "No such file")
      end
  | None => Mem.closed
  end.

#[export] Instance env : Env := {|
  world := Mem.mworld;
  ssh_client := nat;
  sftp_client := nat;
  py_int_of_str := Mem.int_of_str;
  py_repr_list := Mem.repr_list;
  py_repr_dict := Mem.repr_dict;
  os_path_exists := Mem.path_exists;
  SSHClient_new := Mem.new_client;
  SSHClient_set_missing_host_key_policy := fun _ w => (Reply tt, w);
  SSHClient_connect := Mem.connect;
  SSHClient_open_sftp := Mem.open_sftp;
  SSHClient_close := Mem.close_client;
  SFTP_close := Mem.close_sftp;
  SFTP_mkdir := Mem.mkdir;
  SFTP_lstat := lstat;
  SFTP_stat := lstat;
  SFTP_put := Mem.put;
  SFTP_putfo := Mem.putfo;
  SFTP_remove := Mem.remove
|}.

Definition initial (w : Mem.mworld) : state (E := env) :=
  {| remote := w; managers := ∅; storages := ∅; next_ref := 0; calls := []; log := [] |}.

(** A manager for [u] on [h1] under [/data], connected; [/data/pic.jpg]
    is on the host. *)
Definition connected_data : state (E := env) :=
  Eval vm_compute in
  snd ((let* m := SSHClientManager.__init__ (PStr "h1") (PStr "u") (PStr "p") (PInt 22) PNone
                    (PStr "/data") in
        SSHClientManager.setup m) (initial Scenario.one_host)).

End DropBox.

(** ** [storage.py]: listing, removal and size; class [SSHStorageFile]

    [delete] and [size] are methods of [SSHStorage] alone, and the
    coordinator inherits them.  [_read] and [SSHStorageFile.read], which
    open a remote file, and the time stamps are not embedded. *)

Section Queries.
Context `{E : Env}.

(** [stat.S_IFMT(mode)]: the bits of [mode] that give the type of the
    file, [mode & 0o170000]. *)
Definition S_IFMT (mode : Z) : Z := Z.land mode 61440.

(** [stat.S_IFDIR], [0o040000]. *)
Definition S_IFDIR : Z := 16384.

Definition _isdir_attr (item : sftp_attr) : bool :=
  match st_mode item with
  | Some mode => Z.eqb (S_IFMT mode) S_IFDIR
  | None => false
  end.

(** [self.ssh_client_manager.sftp.<meth>(...)] *)
Definition on_sftp {A} (self : nat) (meth : string) (k : sftp_client -> M A) : M A :=
  let* manager := ssh_client_manager self in
  let* h := on_manager manager "sftp" SSHClientManager.sftp in
  SSHClientManager.on_handle h meth k.

Definition SSHStorage_delete (self : nat) (name : string) : M unit :=
  let* remote_path := _remote_path self name in
  on_sftp self "remove" (fun c =>
    lib (CallRemove c remote_path) (SFTP_remove c remote_path)).

Definition SSHStorage_size (self : nat) (name : string) : M Z :=
  let* remote_path := _remote_path self name in
  let* a := on_sftp self "stat" (fun c =>
              ask (CallStat c remote_path) (SFTP_stat c remote_path)) in
  ret (st_size a).

(** [sftp.listdir_attr(path)]: the entries of a directory, each with its
    [filename] and its attributes. *)
Variable SFTP_listdir_attr : sftp_client -> string -> world -> reply (list (string * sftp_attr)).

(** The loop of [listdir]: an entry is appended to [dirs] or to
    [files]. *)
Definition sort_item (acc : list string * list string) (item : string * sftp_attr)
    : list string * list string :=
  if _isdir_attr (snd item) then ((fst acc ++ [fst item])%list, snd acc)
  else (fst acc, (snd acc ++ [fst item])%list).

Definition listdir (self : nat) (path : string) : M (list string * list string) :=
  let* remote_path := _remote_path self path in
  let* items := on_sftp self "listdir_attr" (fun c =>
                  fun s => match SFTP_listdir_attr c remote_path (remote s) with
                           | Reply l => (Ok l, s)
                           | Throw e => (Raise e, s)
                           end) in
  ret (fold_left sort_item items ([], [])).

End Queries.

Module SSHStorageFile.
Section Methods.
Context `{E : Env}.

(** A [BytesIO]: the bytes it holds, and whether it has been closed. *)
Record BytesIO := {
  getvalue : string;
  is_closed : bool
}.

(** The fields of an [SSHStorageFile]. *)
Record t := {
  _name : string;
  _storage : nat;
  _mode : string;
  _is_dirty : bool;
  file : BytesIO;
  _size : attr Z
}.

Definition __init__ (name : string) (storage : nat) (mode : string) : t :=
  {| _name := name;
     _storage := storage;
     _mode := mode;
     _is_dirty := false;
     file := {| getvalue := EmptyString; is_closed := false |};
     _size := Bound None |}.

Definition set_size (v : option Z) (self : t) : t :=
  {| _name := _name self; _storage := _storage self; _mode := _mode self;
     _is_dirty := _is_dirty self; file := file self; _size := Bound v |}.

Definition set_file (f : BytesIO) (self : t) : t :=
  {| _name := _name self; _storage := _storage self; _mode := _mode self;
     _is_dirty := _is_dirty self; file := f; _size := _size self |}.

Definition set_is_dirty (b : bool) (self : t) : t :=
  {| _name := _name self; _storage := _storage self; _mode := _mode self;
     _is_dirty := b; file := file self; _size := _size self |}.

(** The [size] property; the object is handed back with the result. *)
Definition size (self : t) : M (option Z * t) :=
  let* self :=
    if negb (hasattr (_size self))
    then let* z := SSHStorage_size (_storage self) (_name self) in ret (set_size (Some z) self)
    else ret self in
  match _size self with
  | Bound v => ret (v, self)
  | Missing => raise (AttributeError "'SSHStorageFile' object has no attribute '_size'")
  end.

(** [write(content)] *)
Definition write (self : t) (content : string) : M t :=
  if negb (has_char "w"%char (_mode self))
  then raise (AttributeError "File was opened for read-only access.")
  else ret (set_is_dirty true (set_file {| getvalue := content; is_closed := false |} self)).

(** [close()] *)
Definition close (fuel : nat) (self : t) : M t :=
  (if _is_dirty self
   then _save fuel (_storage self) (_name self) (PV (PStr (getvalue (file self)))) >> ret tt
   else ret tt) >>
  ret (set_file {| getvalue := getvalue (file self); is_closed := true |} self).

End Methods.
End SSHStorageFile.

(** [SSHStorage._open(name, mode='rb')] *)
Definition _open (self : nat) (name : string) (mode : string) : SSHStorageFile.t :=
  SSHStorageFile.__init__ name self mode.

(** ** Vocabulary of the further properties *)

Section Vocabulary2.
Context `{E : Env}.

(** What [_start_connection] of the coordinator does for a host that has
    no manager: a manager is made and set up, and kept in the dict when
    the connection is there. *)
Definition connect_host (self : nat) (host : string) : M unit :=
  let* st := deref_storage self in
  let config := _config st in
  let* username := getitem config "username" in
  let* basepath := getitem config "basepath" in
  let* password := getitem config "password" in
  let* rsa_key := getitem config "rsa_key" in
  let* port := getitem config "port" in
  let* m := SSHClientManager.__init__ (PStr host) username password port rsa_key basepath in
  let* connected := SSHClientManager.setup m in
  if negb connected then connection_error config
  else update_storage self (fun st =>
         set_ssh_client_managers (dict_set host (Some m) (_ssh_client_managers st)) st).

(** The dict that the loop of [MultipleSSHStorages.__init__] builds. *)
Definition hosts_dict (hosts : list string) (d : list (string * option nat))
    : list (string * option nat) :=
  fold_left (fun d host => dict_set host None d) hosts d.

(** A protocol setting that is kept: a string that, in lower case, is
    ['http://'] or ['https://']. *)
Definition is_protocol (v : pyval) : bool :=
  match v with
  | PStr p => String.eqb (str_lower p) "http://" || String.eqb (str_lower p) "https://"
  | _ => false
  end.

(** A port setting that [int()] accepts. *)
Definition is_number (v : pyval) : bool :=
  match v with
  | PInt _ => true
  | PStr p => match py_int_of_str p with Some _ => true | None => false end
  | _ => false
  end.

(** The Django setting that [StaticStorage] and [MediaStorage] add to
    the base path. *)
Definition location_setting (c : storage_class) (cfg : settings) : option pyval :=
  match c with
  | StaticStorage => Some (STATICFILES_LOCATION cfg)
  | MediaStorage => Some (MEDIAFILES_LOCATION cfg)
  | _ => None
  end.

End Vocabulary2.

(** ** Further deployments *)
Module Scenario2.
#[local] Existing Instance Mem.env.

(** The connected manager of [Scenario.connected_data], closed. *)
Definition closed_data : state :=
  Eval vm_compute in snd (SSHClientManager.close_connection 0 Scenario.connected_data).

(** A manager for [u] on [h1], just made. *)
Definition made : state :=
  Eval vm_compute in
  snd (SSHClientManager.__init__ (PStr "h1") (PStr "u") (PStr "p") (PInt 22) PNone
         (PStr "/data") (Mem.initial Scenario.one_host)).

(** The same with a password that the host refuses. *)
Definition made_wrong : state :=
  Eval vm_compute in
  snd (SSHClientManager.__init__ (PStr "h1") (PStr "u") (PStr "wrong") (PInt 22) PNone
         (PStr "/data") (Mem.initial Scenario.one_host)).

(** The storage of [Scenario.constructed], connected. *)
Definition started : state :=
  Eval vm_compute in snd (_start_connection 0 Scenario.constructed).

Definition wrong_password : gmap string pyval :=
  <["PASSWORD" := PStr "wrong"]> Scenario.one_host_settings.

Definition constructed_wrong : state :=
  Eval vm_compute in
  snd (construct SSHStorage Scenario.django wrong_password (Mem.initial Scenario.one_host)).

(** The storage after a connection that the host has refused. *)
Definition refused_storage : state :=
  Eval vm_compute in snd (_start_connection 0 constructed_wrong).

(** The connected storage after [delete('pic.jpg')]. *)
Definition deleted : state :=
  Eval vm_compute in snd (SSHStorage_delete 0 "pic.jpg" started).

(** A [StaticStorage] for the one host. *)
Definition static_constructed : state :=
  Eval vm_compute in
  snd (construct StaticStorage Scenario.django Scenario.one_host_settings
         (Mem.initial Scenario.one_host)).

(** A [MediaStorage] for the one host. *)
Definition media_constructed : state :=
  Eval vm_compute in
  snd (construct MediaStorage Scenario.django Scenario.one_host_settings
         (Mem.initial Scenario.one_host)).

(** The entries of the directory of a handle: the direct children of the
    path, with their attributes. *)
Definition listdir_attr (h : nat) (p : string) (w : Mem.mworld)
    : reply (list (string * sftp_attr)) :=
  match Mem.host_of h w with
  | Some (_, hd) =>
      let l := Mem.resolve hd p in
      match Mem.node_at (Mem.files hd) l with
      | Some Mem.Dir =>
          Reply (omap (fun '(k, n) =>
                         if bool_decide (removelast k = l)
                         then match last k with
                              | Some name => Some (name, Mem.attr_of n)
                              | None => None
                              end
                         else None)
                      (map_to_list (Mem.files hd)))
      | _ => Throw (IOError "No such file")
      end
  | None => Mem.closed
  end.

(** A host with a directory and a file under [/data]. *)
Definition listed_host : Mem.mworld :=
  Scenario.world_with
    {[ "h1" := Scenario.host_with {[ ["data"] := Mem.Dir;
                                     ["data"; "img"] := Mem.Dir;
                                     ["data"; "pic.jpg"] := Mem.File "old" ]} false ]}.

Definition listed : state :=
  Eval vm_compute in
  snd (_start_connection 0
         (snd (construct SSHStorage Scenario.django Scenario.one_host_settings
                 (Mem.initial listed_host)))).

(** Settings with a protocol in capitals, a port that is no number and
    a static proxy of their own. *)
Definition odd_settings : gmap string pyval :=
  <["PROTOCOL" := PStr "HTTPS://"]> (<["PORT" := PStr "ssh"]>
  (<["STATIC_PROXY_PROTOCOL" := PStr "HTTPS://"]> (<["STATIC_PROXY_PORT" := PStr "8080"]>
  Scenario.one_host_settings))).

Definition odd_config : gmap string pyval :=
  Eval vm_compute in
  match fst (SSHStorage__decode_location odd_settings (Mem.initial Scenario.one_host)) with
  | Ok config => config
  | _ => ∅
  end.

End Scenario2.

(** * Properties *)

(** ** The path functions on examples *)

Example join_ex1 : posixpath.join "/" [EmptyString; "data"; "media"] = "/data/media".
Proof. reflexivity. Qed.
Example join_ex2 : posixpath.join "http://" ["h1:8080"; "static"; "css/a.css"] = "http://h1:8080/static/css/a.css".
Proof. reflexivity. Qed.
Example join_ex3 : posixpath.join "/data" ["/abs"] = "/abs".
Proof. reflexivity. Qed.
Example split_ex1 : posixpath.split "img/pic.jpg" = ("img", "pic.jpg").
Proof. reflexivity. Qed.
Example split_ex2 : posixpath.split "pic.jpg" = (EmptyString, "pic.jpg").
Proof. reflexivity. Qed.
Example split_ex3 : posixpath.split "/pic.jpg" = ("/", "pic.jpg").
Proof. reflexivity. Qed.
Example split_ex4 : posixpath.split "a//b/" = ("a//b", EmptyString).
Proof. reflexivity. Qed.
Example splitext_ex1 : posixpath.splitext "/data/pic.jpg" = ("/data/pic", ".jpg").
Proof. reflexivity. Qed.
Example splitext_ex2 : posixpath.splitext "/da.ta/.bashrc" = ("/da.ta/.bashrc", EmptyString).
Proof. reflexivity. Qed.
Example splitext_ex3 : posixpath.splitext "a.tar.gz" = ("a.tar", ".gz").
Proof. reflexivity. Qed.
Example splitext_ex4 : posixpath.splitext "/x/..a.b" = ("/x/..a", ".b").
Proof. reflexivity. Qed.
Example str_split_ex : str_split sep "/data/media" = [EmptyString; "data"; "media"].
Proof. reflexivity. Qed.
Example str_lower_ex : str_lower "HTTPS://" = "https://".
Proof. reflexivity. Qed.
Example str_of_nat_ex : str_of_nat 12 = "12".
Proof. reflexivity. Qed.

(** ** Running programs *)

Section Run.
Context `{E : Env}.

Lemma bind_Ok {A B} (c : M A) (k : A -> M B) s a s1 :
  c s = (Ok a, s1) -> bind c k s = k a s1.
Proof. intros H. unfold bind. rewrite H. reflexivity. Qed.

Lemma bind_Raise {A B} (c : M A) (k : A -> M B) s e s1 :
  c s = (Raise e, s1) -> bind c k s = (Raise e, s1).
Proof. intros H. unfold bind. rewrite H. reflexivity. Qed.

Lemma bind_OutOfFuel {A B} (c : M A) (k : A -> M B) s s1 :
  c s = (OutOfFuel, s1) -> bind c k s = (OutOfFuel, s1).
Proof. intros H. unfold bind. rewrite H. reflexivity. Qed.

(** A sequence that returns has a first part that returned. *)
Lemma bind_inv_Ok {A B} (c : M A) (k : A -> M B) s b s' :
  bind c k s = (Ok b, s') -> exists a s1, c s = (Ok a, s1) /\ k a s1 = (Ok b, s').
Proof.
  unfold bind. destruct (c s) as [[a|e|] s1]; intros H; try discriminate.
  exists a, s1. split; [reflexivity | exact H].
Qed.

Lemma try_Ok {A} (c : M A) catches handler s a s1 :
  c s = (Ok a, s1) -> try_except c catches handler s = (Ok a, s1).
Proof. intros H. unfold try_except. rewrite H. reflexivity. Qed.

Lemma try_caught {A} (c : M A) catches handler s e s1 :
  c s = (Raise e, s1) -> catches e = true ->
  try_except c catches handler s = handler e s1.
Proof. intros H Hc. unfold try_except. rewrite H, Hc. reflexivity. Qed.

Lemma try_uncaught {A} (c : M A) catches handler s e s1 :
  c s = (Raise e, s1) -> catches e = false ->
  try_except c catches handler s = (Raise e, s1).
Proof. intros H Hc. unfold try_except. rewrite H, Hc. reflexivity. Qed.

Lemma deref_Some self s m :
  managers s !! self = Some m -> deref self s = (Ok m, s).
Proof. intros H. unfold deref. rewrite H. reflexivity. Qed.

Lemma deref_storage_Some self s st :
  storages s !! self = Some st -> deref_storage self s = (Ok st, s).
Proof. intros H. unfold deref_storage. rewrite H. reflexivity. Qed.

Lemma get_sftp_Bound self s m v :
  managers s !! self = Some m -> _sftp m = Bound v ->
  SSHClientManager.get_sftp self s = (Ok v, s).
Proof.
  intros Hm Hv. unfold SSHClientManager.get_sftp.
  rewrite (bind_Ok _ _ _ _ _ (deref_Some _ _ _ Hm)), Hv. reflexivity.
Qed.

End Run.

(** ** [close_connection] *)

Section CloseConnection.
Context `{E : Env}.

Lemma close_connection_cases (self : nat) (s : state) (m : manager) :
  managers s !! self = Some m ->
  exists b s', SSHClientManager.close_connection self s = (Ok b, s') /\
    (b = true ->
       closes_cleanly m (remote s) /\
       managers s' !! self
         = Some (SSHClientManager.set_ssh None
                   (SSHClientManager.set_sftp None (SSHClientManager.reset_config m)))) /\
    (b = false ->
       ~ closes_cleanly m (remote s) /\
       managers s' !! self = Some (SSHClientManager.reset_config m)).
Proof.
  intros Hm.
  unfold SSHClientManager.close_connection, SSHClientManager.get_sftp,
    SSHClientManager.on_handle, try_except, update, deref, lib, raise, ret, bind.
  rewrite Hm. cbn. rewrite lookup_insert_eq. cbn.
  destruct (_sftp m) as [|[h|]] eqn:Hsftp; cbn.
  - eexists false, _. split; [reflexivity|]. cbn. rewrite lookup_insert_eq.
    split; [discriminate|]. intros _. split; [|reflexivity].
    intros (h & c & w1 & w2 & H1 & _); congruence.
  - destruct (SFTP_close h (remote s)) as [[[]|e] w1] eqn:Hc1; cbn.
    + rewrite lookup_insert_eq. cbn.
      destruct (_ssh m) as [c|] eqn:Hssh; cbn.
      * destruct (SSHClient_close c w1) as [[[]|e] w2] eqn:Hc2; cbn.
        -- repeat (rewrite lookup_insert_eq; cbn).
           eexists true, _. split; [reflexivity|]. cbn. rewrite lookup_insert_eq.
           split; [|discriminate]. intros _. split; [|reflexivity].
           exists h, c, w1, w2. auto.
        -- eexists false, _. split; [reflexivity|]. cbn. rewrite lookup_insert_eq.
           split; [discriminate|]. intros _. split; [|reflexivity].
           intros (h' & c' & w1' & w2' & H1 & H2 & H3 & H4). congruence.
      * eexists false, _. split; [reflexivity|]. cbn. rewrite lookup_insert_eq.
        split; [discriminate|]. intros _. split; [|reflexivity].
        intros (h' & c' & w1' & w2' & H1 & H2 & H3 & H4). congruence.
    + eexists false, _. split; [reflexivity|]. cbn. rewrite lookup_insert_eq.
      split; [discriminate|]. intros _. split; [|reflexivity].
      intros (h' & c' & w1' & w2' & H1 & H2 & H3 & H4). congruence.
  - eexists false, _. split; [reflexivity|]. cbn. rewrite lookup_insert_eq.
    split; [discriminate|]. intros _. split; [|reflexivity].
    intros (h' & c' & w1' & w2' & H1 & H2 & H3 & H4). congruence.
Qed.

Lemma reset_config_reset (m : manager) : config_reset (SSHClientManager.reset_config m).
Proof. repeat split. Qed.




(** C9: when [close_connection] answers [False], the configuration fields
    are cleared all the same, and the handle fields are left as they
    were: a handle that was set is not reset to [None], and a handle
    that was [None] is [None] still. *)
Theorem close_connection_false_state (self : nat) (s s' : state) (m : manager) :
  managers s !! self = Some m ->
  SSHClientManager.close_connection self s = (Ok false, s') ->
  exists m', managers s' !! self = Some m' /\
    m' = SSHClientManager.reset_config m /\ config_reset m' /\
    _sftp m' = _sftp m /\ _ssh m' = _ssh m /\
    (forall h, _sftp m = Bound (Some h) -> _sftp m' <> Bound None) /\
    (forall c, _ssh m = Some c -> _ssh m' <> None) /\
    (_sftp m = Bound None -> _sftp m' = Bound None) /\
    (_ssh m = None -> _ssh m' = None).
Proof.
  intros Hm Hrun.
  destruct (close_connection_cases self s m Hm) as (b & s1 & Hrun1 & _ & Hf).
  rewrite Hrun in Hrun1. injection Hrun1 as <- <-.
  destruct (Hf eq_refl) as [_ Hm'].
  eexists. split; [exact Hm'|]. split; [reflexivity|].
  split; [apply reset_config_reset|]. split; [reflexivity|]. split; [reflexivity|].
  split; [|split; [|split]]; cbn; try (intros x Hx; rewrite Hx; discriminate);
    intros H; exact H.
Qed.

End CloseConnection.

(** ** The lazy [sftp] accessor *)

Section SftpAccessor.
Context `{E : Env}.

(** With the attribute bound, [None] included, the accessor hands out
    what is bound and calls nothing. *)
Lemma sftp_bound (self : nat) (s : state) (m : manager) (v : option sftp_client) :
  managers s !! self = Some m -> _sftp m = Bound v ->
  SSHClientManager.sftp self s = (Ok v, s).
Proof.
  intros Hm Hv. unfold SSHClientManager.sftp.
  rewrite (bind_Ok _ _ _ _ _ (deref_Some _ _ _ Hm)), Hv. cbn [hasattr negb].
  rewrite (bind_Ok _ _ s tt s) by reflexivity.
  apply (get_sftp_Bound _ _ _ _ Hm Hv).
Qed.

(** C5: on a manager that has just been constructed and never connected,
    reading [sftp] answers [None]; [setup] is not run and the state is as
    it was. *)
Theorem sftp_accessor_never_sets_up
    (hostname username password port rsa_key basepath : pyval) (s : state) :
  let r := SSHClientManager.__init__ hostname username password port rsa_key basepath s in
  exists self, fst r = Ok self /\
    SSHClientManager.sftp self (snd r) = (Ok None, snd r) /\
    calls (snd r) = calls s.
Proof.
  cbn. eexists. split; [reflexivity|]. split; [|reflexivity].
  eapply sftp_bound; [cbn; apply lookup_insert_eq | reflexivity].
Qed.

(** The same after a [close_connection] that went through. *)
Lemma sftp_after_close (self : nat) (s s' : state) :
  SSHClientManager.close_connection self s = (Ok true, s') ->
  SSHClientManager.sftp self s' = (Ok None, s').
Proof.
  intros Hrun.
  destruct (managers s !! self) as [m|] eqn:Hm.
  - destruct (close_connection_cases self s m Hm) as (b & s1 & Hrun1 & Ht & _).
    rewrite Hrun in Hrun1. injection Hrun1 as <- <-.
    destruct (Ht eq_refl) as [_ Hm'].
    eapply sftp_bound; [exact Hm' | reflexivity].
  - unfold SSHClientManager.close_connection, try_except, update, bind in Hrun.
    rewrite Hm in Hrun. discriminate.
Qed.

End SftpAccessor.

(** ** Decoding the settings *)

Section Decode.
Context `{E : Env}.

Lemma eq_str_true v s : eq_str v s = true <-> v = PStr s.
Proof.
  destruct v; cbn; try (split; [discriminate | intros; discriminate]).
  rewrite String.eqb_eq. split; [intros -> | intros [= ->]]; reflexivity.
Qed.

Lemma missing_get location k : missing location k <-> eq_str (dict_get location k) EmptyString = true.
Proof.
  unfold missing, dict_get. rewrite eq_str_true.
  destruct (location !! k) as [v|]; cbn.
  - split; [intros [H|H]; congruence | intros ->; right; reflexivity].
  - split; [reflexivity | left; reflexivity].
Qed.

Lemma not_missing_get location k :
  eq_str (dict_get location k) EmptyString = false -> exists v, location !! k = Some v /\ v <> PStr EmptyString.
Proof.
  unfold dict_get. destruct (location !! k) as [v|]; cbn.
  - intros H. exists v. split; [reflexivity|]. intros ->. discriminate.
  - discriminate.
Qed.

Lemma fail_config_run {A} msg s :
  fail_config (A := A) msg s = (Raise (ImproperlyConfigured msg), add_log CRITICAL msg s).
Proof. reflexivity. Qed.

Lemma getitem_inv (d : gmap string pyval) k s v s' :
  getitem d k s = (Ok v, s') -> d !! k = Some v /\ s' = s.
Proof.
  unfold getitem. destruct (d !! k); cbn; [|discriminate].
  intros [= -> ->]. auto.
Qed.

Lemma guard_inv (b : bool) msg s (u : unit) s' :
  (if b then fail_config msg else ret tt) s = (Ok u, s') -> b = false /\ s' = s.
Proof. destruct b; cbn; [discriminate|]. intros [= _ ->]. auto. Qed.

Lemma not_a_protocol_state v s b s' : not_a_protocol v s = (Ok b, s') -> s' = s.
Proof.
  unfold not_a_protocol. destruct (eq_str v EmptyString); [intros [= _ ->]; reflexivity|].
  destruct v; cbn; try discriminate.
  destruct (negb _); cbn; intros [= _ ->]; reflexivity.
Qed.

Lemma py_lower_state v s l s' : py_lower v s = (Ok l, s') -> s' = s.
Proof. destruct v; cbn; try discriminate. intros [= _ ->]; reflexivity. Qed.

Lemma py_int_state v s z s' : py_int v s = (Ok z, s') -> s' = s.
Proof.
  destruct v; cbn; try discriminate.
  - destruct (py_int_of_str s0); cbn; [|discriminate]. intros [= _ ->]; reflexivity.
  - intros [= _ ->]; reflexivity.
Qed.

Lemma decode_Ok location s config s' :
  SSHStorage__decode_location location s = (Ok config, s') ->
  s' = s /\ decoded location (remote s) config.
Proof.
  unfold SSHStorage__decode_location. intros H.
  apply bind_inv_Ok in H as (? & t & H1 & H). apply guard_inv in H1 as [G1 ->].
  apply bind_inv_Ok in H as (? & t & H1 & H). apply guard_inv in H1 as [G2 ->].
  apply bind_inv_Ok in H as (? & t & H1 & H). apply guard_inv in H1 as [G3 ->].
  apply bind_inv_Ok in H as (? & t & H1 & H). apply guard_inv in H1 as [G4 ->].
  apply bind_inv_Ok in H as (hn & t & H1 & H). apply getitem_inv in H1 as [L1 ->].
  apply bind_inv_Ok in H as (un & t & H1 & H). apply getitem_inv in H1 as [L2 ->].
  apply bind_inv_Ok in H as (bp & t & H1 & H). apply getitem_inv in H1 as [L3 ->].
  apply bind_inv_Ok in H as (b1 & t & H1 & H). apply not_a_protocol_state in H1 as ->.
  apply bind_inv_Ok in H as (c1 & t & H1 & H).
  assert (exists proto, c1 = <["protocol" := proto]> (<["basepath" := bp]>
            (<["username" := un]> (<["hostname" := hn]> ∅))) /\ t = s) as (proto & -> & ->).
  { destruct b1.
    - injection H1 as <- <-. eauto.
    - apply bind_inv_Ok in H1 as (l & t0 & H0 & H1). apply py_lower_state in H0 as ->.
      injection H1 as <- <-. eauto. }
  clear H1.
  apply bind_inv_Ok in H as (c2 & t & H1 & H).
  assert (exists pw key, c2 = <["rsa_key" := key]> (<["password" := pw]>
            (<["protocol" := proto]> (<["basepath" := bp]>
            (<["username" := un]> (<["hostname" := hn]> ∅))))) /\ t = s /\
            (if eq_str (dict_get location "PASSWORD") EmptyString
             then pw = PNone /\ location !! "RSA_KEY" = Some key /\
                  os_path_exists key (remote s) = Reply true
             else location !! "PASSWORD" = Some pw /\ key = PNone))
    as (pw & key & -> & -> & Hcred).
  { destruct (eq_str (dict_get location "PASSWORD") EmptyString).
    - apply bind_inv_Ok in H1 as (key & t0 & H0 & H1). apply getitem_inv in H0 as [L4 ->].
      apply bind_inv_Ok in H1 as (found & t0 & H0 & H1).
      unfold lib_exists in H0.
      destruct (os_path_exists key (remote s)) as [b|] eqn:Hex; [|discriminate].
      injection H0 as <- <-.
      destruct b; cbn in H1; [|discriminate].
      injection H1 as <- <-. eauto 10.
    - apply bind_inv_Ok in H1 as (pw & t0 & H0 & H1). apply getitem_inv in H0 as [L4 ->].
      injection H1 as <- <-. eauto 10. }
  clear H1.
  apply bind_inv_Ok in H as (c3 & t & H1 & H).
  assert (exists prt, c3 = <["port" := prt]> (<["rsa_key" := key]> (<["password" := pw]>
            (<["protocol" := proto]> (<["basepath" := bp]>
            (<["username" := un]> (<["hostname" := hn]> ∅)))))) /\ t = s) as (prt & -> & ->).
  { destruct (eq_str (dict_get location "PORT") EmptyString).
    - injection H1 as <- <-. eauto.
    - unfold try_except in H1.
      destruct (bind (getitem location "PORT") _ s) as [[c|e|] s1] eqn:Hb.
      + injection H1 as <- <-.
        apply bind_inv_Ok in Hb as (v & t0 & H0 & Hb). apply getitem_inv in H0 as [_ ->].
        apply bind_inv_Ok in Hb as (z & t0 & H0 & Hb). apply py_int_state in H0 as ->.
        injection Hb as <- <-. eauto.
      + destruct (is_ValueError e); [|discriminate].
        injection H1 as <- <-.
        assert (s1 = s) as ->; [|eauto].
        unfold bind, getitem in Hb. destruct (location !! "PORT") as [v|]; cbn in Hb.
        * destruct v; cbn in Hb; try (injection Hb as _ <-; reflexivity).
          destruct (py_int_of_str s0); cbn in Hb; injection Hb as _ <-; reflexivity.
        * injection Hb as _ <-; reflexivity.
      + discriminate. }
  clear H1.
  apply bind_inv_Ok in H as (b2 & t & H1 & H). apply not_a_protocol_state in H1 as ->.
  apply bind_inv_Ok in H as (c4 & t & H1 & H).
  assert (exists spp, c4 = <["static_proxy_protocol" := spp]> (<["port" := prt]>
            (<["rsa_key" := key]> (<["password" := pw]>
            (<["protocol" := proto]> (<["basepath" := bp]>
            (<["username" := un]> (<["hostname" := hn]> ∅))))))) /\ t = s) as (spp & -> & ->).
  { destruct b2.
    - apply bind_inv_Ok in H1 as (v & t0 & H0 & H1). apply getitem_inv in H0 as [_ ->].
      injection H1 as <- <-. eauto.
    - injection H1 as <- <-. eauto. }
  clear H1.
  apply bind_inv_Ok in H as (c5 & t & H1 & H).
  assert (exists sph, c5 = <["static_proxy_hostname" := sph]>
            (<["static_proxy_protocol" := spp]> (<["port" := prt]>
            (<["rsa_key" := key]> (<["password" := pw]>
            (<["protocol" := proto]> (<["basepath" := bp]>
            (<["username" := un]> (<["hostname" := hn]> ∅)))))))) /\ t = s) as (sph & -> & ->).
  { destruct (eq_str (dict_get location "STATIC_PROXY_HOSTNAME") EmptyString).
    - apply bind_inv_Ok in H1 as (v & t0 & H0 & H1). apply getitem_inv in H0 as [_ ->].
      injection H1 as <- <-. eauto.
    - injection H1 as <- <-. eauto. }
  clear H1.
  apply bind_inv_Ok in H as (c6 & t & H1 & H).
  injection H as <- <-.
  assert (exists spport, c6 = <["static_proxy_port" := spport]>
            (<["static_proxy_hostname" := sph]>
            (<["static_proxy_protocol" := spp]> (<["port" := prt]>
            (<["rsa_key" := key]> (<["password" := pw]>
            (<["protocol" := proto]> (<["basepath" := bp]>
            (<["username" := un]> (<["hostname" := hn]> ∅))))))))) /\ t = s)
    as (spport & -> & ->).
  { destruct (eq_str (dict_get location "STATIC_PROXY_PORT") EmptyString).
    - injection H1 as <- <-. eauto.
    - unfold try_except in H1.
      destruct (bind (py_int (dict_get location "STATIC_PROXY_PORT")) _ s)
        as [[c|e|] s1] eqn:Hb.
      + injection H1 as <- <-.
        apply bind_inv_Ok in Hb as (z & t0 & H0 & Hb). apply py_int_state in H0 as ->.
        injection Hb as <- <-. eauto.
      + destruct (is_ValueError e); [|discriminate].
        injection H1 as <- <-.
        assert (s1 = s) as ->; [|eauto].
        unfold bind in Hb.
        destruct (dict_get location "STATIC_PROXY_PORT") as [|s0|z|l]; cbn in Hb;
          try (injection Hb as _ <-; reflexivity).
        destruct (py_int_of_str s0); cbn in Hb; injection Hb as _ <-; reflexivity.
      + discriminate. }
  clear H1.
  split; [reflexivity|]. constructor.
  exists hn, un, bp, proto, pw, key, prt, spp, sph, spport. auto 10.
Qed.

End Decode.

(** ** Programs without a loop return or raise *)

Section FuelFree.
Context `{E : Env}.

























End FuelFree.

(** ** Construction of a storage *)

Section Construction.
Context `{E : Env}.


Lemma dict_get_insert_ne (d : gmap string pyval) k k' v :
  k <> k' -> dict_get (<[k := v]> d) k' = dict_get d k'.
Proof. intros H. unfold dict_get. rewrite lookup_insert_ne by exact H. reflexivity. Qed.




Lemma decode_multiple_Ok location s config s' :
  MultipleSSHStorages__decode_location location s = (Ok config, s') ->
  s' = s /\ exists c0 hosts,
    decoded (<["HOSTNAME" := PStr "localhost"]> location) (remote s) c0 /\
    location !! "HOSTNAMES" = Some hosts /\
    config = <["hostnames" := hosts]> c0.
Proof.
  unfold MultipleSSHStorages__decode_location. intros H.
  apply bind_inv_Ok in H as (? & t & H1 & H). apply guard_inv in H1 as [G1 ->].
  apply bind_inv_Ok in H as (c0 & t & H1 & H). apply decode_Ok in H1 as [-> Hd].
  apply bind_inv_Ok in H as (hosts & t & H1 & H). apply getitem_inv in H1 as [L ->].
  injection H as <- <-. split; [reflexivity|].
  exists c0, hosts. split; [exact Hd|]. split; [|reflexivity].
  rewrite lookup_insert_ne in L by discriminate. exact L.
Qed.

(** Whatever the class, a decoding that returns took its credentials from
    the settings this way. *)
Lemma decode_location_credentials c location s config s' :
  _decode_location c location s = (Ok config, s') ->
  s' = s /\
  if eq_str (dict_get location "PASSWORD") EmptyString
  then config !! "password" = Some PNone /\
       exists key, location !! "RSA_KEY" = Some key /\ config !! "rsa_key" = Some key /\
                   os_path_exists key (remote s) = Reply true
  else config !! "password" = location !! "PASSWORD" /\ config !! "rsa_key" = Some PNone.
Proof.
  intros H.
  assert (Hd : s' = s /\ exists loc' c0,
             decoded loc' (remote s) c0 /\
             dict_get loc' "PASSWORD" = dict_get location "PASSWORD" /\
             loc' !! "PASSWORD" = location !! "PASSWORD" /\
             loc' !! "RSA_KEY" = location !! "RSA_KEY" /\
             config !! "password" = c0 !! "password" /\
             config !! "rsa_key" = c0 !! "rsa_key").
  { destruct c; cbn [_decode_location] in H;
      try (apply decode_Ok in H as [-> Hd]; split; [reflexivity|];
           exists location, config; auto 10).
    apply decode_multiple_Ok in H as (-> & c0 & hosts & Hd & _ & ->).
    split; [reflexivity|].
    exists (<["HOSTNAME" := PStr "localhost"]> location), c0.
    split; [exact Hd|].
    rewrite dict_get_insert_ne by discriminate.
    rewrite !lookup_insert_ne by discriminate. auto. }
  destruct Hd as (-> & loc' & c0 & [Hd] & Eg & Ep & Ek & -> & ->).
  split; [reflexivity|].
  destruct Hd as (hn & un & bp & proto & pw & key & prt & spp & sph & spport &
                  -> & _ & _ & _ & Hcred).
  rewrite Eg in Hcred.
  destruct (eq_str (dict_get location "PASSWORD") EmptyString).
  - destruct Hcred as (-> & Hk & Hex). rewrite Ek in Hk.
    split; [reflexivity|]. exists key. auto.
  - destruct Hcred as (Hp & ->). rewrite <- Ep, Hp. split; reflexivity.
Qed.




Lemma getitem_Some (d : gmap string pyval) k v s :
  d !! k = Some v -> getitem d k s = (Ok v, s).
Proof. intros H. unfold getitem. rewrite H. reflexivity. Qed.



End Construction.

(** ** [url] *)

Section Url.
Context `{E : Env}.

Lemma decoded_keys location w config :
  decoded location w config ->
  config !! "location" = None /\
  is_Some (config !! "static_proxy_hostname") /\
  is_Some (config !! "static_proxy_port") /\
  is_Some (config !! "static_proxy_protocol") /\
  is_Some (config !! "basepath").
Proof.
  intros [(hn & un & bp & proto & pw & key & prt & spp & sph & spport & -> & _)].
  repeat split; simplify_map_eq; eauto.
Qed.

(** Without a ['location'] entry, [url] raises [KeyError]. *)
Lemma url_KeyError self name s st :
  storages s !! self = Some st ->
  _config st !! "location" = None ->
  is_Some (_config st !! "static_proxy_hostname") ->
  is_Some (_config st !! "static_proxy_port") ->
  is_Some (_config st !! "static_proxy_protocol") ->
  url self name s = (Raise (KeyError "location"), s).
Proof.
  intros Hst Hloc [h Hh] [p Hp] [a Ha].
  unfold url.
  rewrite (bind_Ok _ _ _ _ _ (deref_storage_Some _ _ _ Hst)).
  unfold getitem. rewrite Hh, Hp, Ha, Hloc.
  unfold bind, ret, raise. destruct (negb (eq_str p "80")); reflexivity.
Qed.

Lemma new_storage_run st s :
  new_storage st s
  = (Ok (next_ref s), set_next_ref (S (next_ref s))
                        (set_storages (<[next_ref s := st]> (storages s)) s)).
Proof. reflexivity. Qed.

Lemma init_inv c location s self s' :
  SSHStorage___init__ c location s = (Ok self, s') ->
  exists config,
    _decode_location c location s = (Ok config, s) /\
    self = next_ref s /\
    s' = set_next_ref (S (next_ref s))
           (set_storages (<[next_ref s :=
              {| cls := c; _config := config; _ssh_client_manager := None;
                 _ssh_client_managers := [] |}]> (storages s)) s).
Proof.
  unfold SSHStorage___init__. intros H.
  apply bind_inv_Ok in H as (config & t & H1 & H).
  destruct (decode_location_credentials _ _ _ _ _ H1) as [-> _].
  rewrite new_storage_run in H. injection H as <- <-.
  exists config. auto.
Qed.

Lemma update_storage_run self f s st :
  storages s !! self = Some st ->
  update_storage self f s = (Ok tt, set_storages (<[self := f st]> (storages s)) s).
Proof. intros H. unfold update_storage. rewrite H. reflexivity. Qed.

Lemma update_storage_inv self f s u s' :
  update_storage self f s = (Ok u, s') ->
  exists st, storages s !! self = Some st /\
             s' = set_storages (<[self := f st]> (storages s)) s.
Proof.
  unfold update_storage. destruct (storages s !! self) as [st|]; [|discriminate].
  intros [= _ <-]. eauto.
Qed.

Lemma deref_storage_inv self s st s' :
  deref_storage self s = (Ok st, s') -> storages s !! self = Some st /\ s' = s.
Proof.
  unfold deref_storage. destruct (storages s !! self); [|discriminate].
  intros [= -> ->]. auto.
Qed.

(** The hosts loop of [MultipleSSHStorages.__init__] rewrites the dict of
    managers and nothing else. *)
Lemma init_hosts_loop self hosts : forall s u s',
  for_each hosts (fun host =>
    update_storage self (fun st =>
      set_ssh_client_managers (dict_set host None (_ssh_client_managers st)) st)) s
  = (Ok u, s') ->
  forall st, storages s !! self = Some st ->
  exists ms, storages s' !! self = Some (set_ssh_client_managers ms st) /\
             managers s' = managers s /\ calls s' = calls s /\ remote s' = remote s.
Proof.
  induction hosts as [|host hosts IH]; intros s u s' H st Hst.
  - injection H as _ <-. exists (_ssh_client_managers st).
    destruct st; cbn. auto.
  - cbn [for_each] in H. apply bind_inv_Ok in H as (? & t & H1 & H).
    rewrite (update_storage_run _ _ _ _ Hst) in H1. injection H1 as _ <-.
    edestruct (IH _ _ _ H) as (ms & Hs' & Hm & Hc & Hr).
    { cbn. apply lookup_insert_eq. }
    exists ms. cbn in *. auto.
Qed.

Lemma os_path_join_state a b s r s' : os_path_join a b s = (Ok r, s') -> s' = s.
Proof.
  destruct a, b; cbn; try discriminate. intros [= _ <-]. reflexivity.
Qed.

Lemma add_to_basepath_inv self location s u s' :
  _add_to_basepath self location s = (Ok u, s') ->
  exists st bp, storages s !! self = Some st /\
    storages s' !! self
      = Some (set_config (<["basepath" := bp]> (<["location" := location]> (_config st))) st) /\
    calls s' = calls s.
Proof.
  unfold _add_to_basepath. intros H.
  apply bind_inv_Ok in H as (? & t & H1 & H).
  apply update_storage_inv in H1 as (st & Hst & ->).
  apply bind_inv_Ok in H as (st1 & t & H1 & H).
  apply deref_storage_inv in H1 as [Hst1 ->].
  cbn in Hst1. rewrite lookup_insert_eq in Hst1. injection Hst1 as <-.
  apply bind_inv_Ok in H as (p & t & H1 & H). apply getitem_inv in H1 as [_ ->].
  apply bind_inv_Ok in H as (p' & t & H1 & H). apply os_path_join_state in H1 as ->.
  apply update_storage_inv in H as (st2 & Hst2 & ->).
  cbn in Hst2. rewrite lookup_insert_eq in Hst2. injection Hst2 as <-.
  exists st, p'. split; [exact Hst|]. cbn. rewrite lookup_insert_eq. split; reflexivity.
Qed.

(** C10: a storage constructed as [SSHStorage] or [MultipleSSHStorages]
    has no ['location'] entry in its configuration, and on it every call
    of [url] raises [KeyError]; a storage constructed as [StaticStorage]
    or [MediaStorage] has the entry, put there by [_add_to_basepath], and
    on it [url] does not raise that [KeyError]. *)
Theorem url_needs_location
    (c : storage_class) (cfg : settings) (location : gmap string pyval)
    (s s' : state) (self : nat) :
  construct c cfg location s = (Ok self, s') ->
  exists st, storages s' !! self = Some st /\
    match c with
    | SSHStorage | MultipleSSHStorages =>
        _config st !! "location" = None /\
        forall name t st', storages t !! self = Some st' -> _config st' = _config st ->
                           url self name t = (Raise (KeyError "location"), t)
    | StaticStorage =>
        _config st !! "location" = Some (STATICFILES_LOCATION cfg) /\
        forall name, fst (url self name s') <> Raise (KeyError "location")
    | MediaStorage =>
        _config st !! "location" = Some (MEDIAFILES_LOCATION cfg) /\
        forall name, fst (url self name s') <> Raise (KeyError "location")
    end.
Proof.
  intros H.
  assert (Hbase : forall config loc' w, decoded loc' w config ->
            forall st, _config st = config -> _config st !! "location" = None /\
            forall name t st', storages t !! self = Some st' -> _config st' = _config st ->
                               url self name t = (Raise (KeyError "location"), t)).
  { intros config loc' w Hd st Hc. apply decoded_keys in Hd as (K1 & K2 & K3 & K4 & _).
    subst config. split; [exact K1|].
    intros name t st' Hst' Heq. eapply url_KeyError; [exact Hst'| | | |]; rewrite Heq; assumption. }
  assert (Hloc : forall l self s0 s1 (u : unit) config loc' w,
            decoded loc' w config ->
            storages s0 !! self = Some {| cls := c; _config := config;
                _ssh_client_manager := None; _ssh_client_managers := [] |} ->
            _add_to_basepath self l s0 = (Ok u, s1) ->
            exists st, storages s1 !! self = Some st /\ _config st !! "location" = Some l /\
              forall name, fst (url self name s1) <> Raise (KeyError "location")).
  { clear. intros l self s0 s1 u config loc' w Hd Hst Hrun.
    apply add_to_basepath_inv in Hrun as (st & bp & Hst0 & Hst1 & _).
    rewrite Hst in Hst0. injection Hst0 as <-. cbn in Hst1.
    eexists. split; [exact Hst1|]. cbn. split; [simplify_map_eq; reflexivity|].
    intros name. unfold url.
    rewrite (bind_Ok _ _ _ _ _ (deref_storage_Some _ _ _ Hst1)). cbn [_config set_config].
    apply decoded_keys in Hd as (_ & [h Hh] & [p Hp] & [a Ha] & _).
    unfold getitem. rewrite !lookup_insert_ne by discriminate.
    rewrite lookup_insert_eq. rewrite Hh, Hp, Ha.
    unfold bind, ret, raise, as_str.
    destruct (negb (eq_str p "80")); cbn;
      repeat (match goal with |- context [match ?v with PNone => _ | _ => _ end] =>
                destruct v end; cbn); discriminate. }
  destruct c; cbn [construct] in H.
  - apply init_inv in H as (config & Hdec & -> & ->).
    cbn [_decode_location] in Hdec. apply decode_Ok in Hdec as [_ Hd].
    eexists. split; [cbn; apply lookup_insert_eq|].
    eapply Hbase; [exact Hd | reflexivity].
  - unfold MultipleSSHStorages___init__ in H.
    apply bind_inv_Ok in H as (r & t & H1 & H).
    apply init_inv in H1 as (config & Hdec & -> & ->).
    cbn [_decode_location] in Hdec.
    apply decode_multiple_Ok in Hdec as (_ & c0 & hosts & Hd & _ & ->).
    apply bind_inv_Ok in H as (? & t & H1 & H).
    apply update_storage_inv in H1 as (st0 & Hst0 & ->).
    cbn in Hst0. rewrite lookup_insert_eq in Hst0. injection Hst0 as <-.
    apply bind_inv_Ok in H as (st1 & t & H1 & H).
    apply deref_storage_inv in H1 as [Hst1 ->].
    apply bind_inv_Ok in H as (v & t & H1 & H). apply getitem_inv in H1 as [_ ->].
    apply bind_inv_Ok in H as (hs & t & H1 & H).
    assert (t = set_storages (<[next_ref s := set_ssh_client_managers []
              {| cls := MultipleSSHStorages; _config := <["hostnames" := hosts]> c0;
                 _ssh_client_manager := None; _ssh_client_managers := [] |}]>
              (storages (set_next_ref (S (next_ref s)) (set_storages
                 (<[next_ref s := {| cls := MultipleSSHStorages;
                      _config := <["hostnames" := hosts]> c0;
                      _ssh_client_manager := None; _ssh_client_managers := [] |}]>
                    (storages s)) s))))
              (set_next_ref (S (next_ref s)) (set_storages
                 (<[next_ref s := {| cls := MultipleSSHStorages;
                      _config := <["hostnames" := hosts]> c0;
                      _ssh_client_manager := None; _ssh_client_managers := [] |}]>
                    (storages s)) s))) as ->.
    { destruct v; cbn in H1; try discriminate; injection H1 as _ <-; reflexivity. }
    clear H1.
    apply bind_inv_Ok in H as (? & t & H1 & H). injection H as <- <-.
    eapply init_hosts_loop in H1 as (ms & Hs' & _); [|exact Hst1].
    eexists. split; [exact Hs'|].
    apply decoded_keys in Hd as (K1 & K2 & K3 & K4 & _).
    cbn in Hst1. rewrite lookup_insert_eq in Hst1. injection Hst1 as <-.
    cbn. split; [rewrite lookup_insert_ne by discriminate; exact K1|].
    intros name t0 st' Hst' Heq.
    eapply url_KeyError; [exact Hst'| | | |]; rewrite Heq;
      rewrite lookup_insert_ne by discriminate; assumption.
  - unfold StaticStorage___init__ in H.
    apply bind_inv_Ok in H as (r & t & H1 & H).
    apply init_inv in H1 as (config & Hdec & -> & ->).
    cbn [_decode_location] in Hdec. apply decode_Ok in Hdec as [_ Hd].
    apply bind_inv_Ok in H as (? & t & H1 & H). injection H as <- <-.
    eapply Hloc in H1 as (st & Hst & Hl & Hu); [| exact Hd | cbn; apply lookup_insert_eq].
    exists st. auto.
  - unfold MediaStorage___init__ in H.
    apply bind_inv_Ok in H as (r & t & H1 & H).
    apply init_inv in H1 as (config & Hdec & -> & ->).
    cbn [_decode_location] in Hdec. apply decode_Ok in Hdec as [_ Hd].
    apply bind_inv_Ok in H as (? & t & H1 & H). injection H as <- <-.
    eapply Hloc in H1 as (st & Hst & Hl & Hu); [| exact Hd | cbn; apply lookup_insert_eq].
    exists st. auto.
Qed.

End Url.

(** ** The credentials a connection is opened with *)

Section Credentials.
Context `{E : Env}.






End Credentials.

(** ** Programs that leave the objects alone

  [quiet P c]: running [c] changes no manager and no storage, and every
  call it makes to the library satisfies [P]. *)

Section Quiet.
Context `{E : Env}.

Lemma quiet_same {A} P (c : M A) :
  (forall s, exists o, c s = (o, s)) -> quiet P c.
Proof.
  intros H s o s' Hrun. destruct (H s) as [o' Ho]. rewrite Ho in Hrun.
  injection Hrun as _ <-. repeat split. exists []. rewrite app_nil_r. auto.
Qed.

Lemma quiet_ret {A} P (a : A) : quiet P (ret a).
Proof. apply quiet_same. intros s. eexists. reflexivity. Qed.

Lemma quiet_raise {A} P e : quiet P (raise (A := A) e).
Proof. apply quiet_same. intros s. eexists. reflexivity. Qed.

Lemma quiet_out_of_fuel {A} P : quiet P (out_of_fuel (A := A)).
Proof. apply quiet_same. intros s. eexists. reflexivity. Qed.

Lemma quiet_deref P self : quiet P (deref self).
Proof.
  apply quiet_same. intros s. unfold deref.
  destruct (managers s !! self); eexists; reflexivity.
Qed.

Lemma quiet_deref_storage P self : quiet P (deref_storage self).
Proof.
  apply quiet_same. intros s. unfold deref_storage.
  destruct (storages s !! self); eexists; reflexivity.
Qed.

Lemma quiet_as_str P v : quiet P (as_str v).
Proof. destruct v; cbn; first [apply quiet_ret | apply quiet_raise]. Qed.

Lemma quiet_logger P l msg : quiet P (logger l msg).
Proof.
  intros s o s' H. injection H as _ <-. cbn. repeat split.
  exists []. rewrite app_nil_r. auto.
Qed.

Lemma quiet_bind {A B} P (c : M A) (k : A -> M B) :
  quiet P c -> (forall a, quiet P (k a)) -> quiet P (bind c k).
Proof.
  intros Hc Hk s o s' H. unfold bind in H.
  destruct (c s) as [[a|e|] s1] eqn:Hcs.
  - destruct (Hc _ _ _ Hcs) as (M1 & S1 & n1 & C1 & F1).
    destruct (Hk a _ _ _ H) as (M2 & S2 & n2 & C2 & F2).
    split; [congruence|]. split; [congruence|].
    exists (n1 ++ n2)%list. rewrite C2, C1, app_assoc. split; [reflexivity|].
    apply Forall_app; auto.
  - injection H as <- <-. exact (Hc _ _ _ Hcs).
  - injection H as <- <-. exact (Hc _ _ _ Hcs).
Qed.

Lemma quiet_try {A} P (c : M A) catches handler :
  quiet P c -> (forall e, quiet P (handler e)) -> quiet P (try_except c catches handler).
Proof.
  intros Hc Hh s o s' H. unfold try_except in H.
  destruct (c s) as [[a|e|] s1] eqn:Hcs.
  - injection H as <- <-. exact (Hc _ _ _ Hcs).
  - destruct (catches e).
    + destruct (Hc _ _ _ Hcs) as (M1 & S1 & n1 & C1 & F1).
      destruct (Hh e _ _ _ H) as (M2 & S2 & n2 & C2 & F2).
      split; [congruence|]. split; [congruence|].
      exists (n1 ++ n2)%list. rewrite C2, C1, app_assoc. split; [reflexivity|].
      apply Forall_app; auto.
    + injection H as <- <-. exact (Hc _ _ _ Hcs).
  - injection H as <- <-. exact (Hc _ _ _ Hcs).
Qed.

Lemma quiet_for_each {A} P (l : list A) (body : A -> M unit) :
  (forall x, quiet P (body x)) -> quiet P (for_each l body).
Proof.
  intros Hb. induction l as [|x l IH]; cbn [for_each].
  - apply quiet_ret.
  - apply quiet_bind; [apply Hb | intros _; exact IH].
Qed.

Lemma quiet_lib {A} (P : call -> Prop) c (f : world -> reply A * world) :
  P c -> quiet P (lib c f).
Proof.
  intros Hc s o s' H. unfold lib in H. cbn in H.
  destruct (f (remote s)) as [[a|e] w]; injection H as _ <-; cbn;
    (repeat split; exists [c]; split; [reflexivity | constructor; auto]).
Qed.

Lemma quiet_ask {A} (P : call -> Prop) c (f : world -> reply A) :
  P c -> quiet P (ask c f).
Proof.
  intros Hc s o s' H. unfold ask in H. cbn in H.
  destruct (f (remote s)) as [a|e]; injection H as _ <-; cbn;
    (repeat split; exists [c]; split; [reflexivity | constructor; auto]).
Qed.

Lemma quiet_on_handle {H A} P (h : option H) meth (k : H -> M A) :
  (forall c, quiet P (k c)) -> quiet P (SSHClientManager.on_handle h meth k).
Proof. intros Hk. destruct h; cbn; [apply Hk | apply quiet_raise]. Qed.

Lemma quiet_get_sftp P self : quiet P (SSHClientManager.get_sftp self).
Proof.
  unfold SSHClientManager.get_sftp. apply quiet_bind; [apply quiet_deref|].
  intros m. destruct (_sftp m); [apply quiet_raise | apply quiet_ret].
Qed.

Lemma quiet_sftp_mkdir self path : quiet upload_call (SSHClientManager.sftp_mkdir self path).
Proof.
  unfold SSHClientManager.sftp_mkdir.
  apply quiet_bind; [apply quiet_get_sftp|]. intros h.
  apply quiet_on_handle. intros c.
  apply quiet_bind; [apply quiet_as_str|]. intros p. apply quiet_lib. exact I.
Qed.

Lemma quiet_sftp_lstat self path : quiet upload_call (SSHClientManager.sftp_lstat self path).
Proof.
  unfold SSHClientManager.sftp_lstat.
  apply quiet_bind; [apply quiet_get_sftp|]. intros h.
  apply quiet_on_handle. intros c.
  apply quiet_bind; [apply quiet_as_str|]. intros p. apply quiet_ask. exact I.
Qed.

Lemma quiet_mkdir self path recursive : quiet upload_call (SSHClientManager.mkdir self path recursive).
Proof.
  unfold SSHClientManager.mkdir.
  apply quiet_bind; [|intros _; apply quiet_ret].
  apply quiet_try; [apply quiet_sftp_mkdir|]. intros e.
  destruct recursive; [|apply quiet_raise].
  apply quiet_bind.
  - destruct path; first [apply quiet_ret | apply quiet_raise].
  - intros p. apply quiet_for_each. intros q.
    apply quiet_try.
    + apply quiet_bind; [apply quiet_sftp_lstat | intros _; apply quiet_ret].
    + intros _. apply quiet_sftp_mkdir.
Qed.

Lemma quiet_probe fuel self p e ow : forall k d,
  quiet upload_call (SSHClientManager.probe fuel self p e ow k d).
Proof.
  induction fuel as [|fuel IH]; intros k d; cbn [SSHClientManager.probe].
  - apply quiet_out_of_fuel.
  - apply quiet_bind.
    + apply quiet_try; [|intros _; apply quiet_ret].
      apply quiet_bind; [apply quiet_sftp_lstat|]. intros _.
      destruct ow; apply quiet_ret.
    + intros [[k' d']|]; [apply IH | apply quiet_ret].
Qed.

Lemma quiet_os_path_join P a b : quiet P (os_path_join a b).
Proof.
  unfold os_path_join. apply quiet_bind; [apply quiet_as_str|]. intros a'.
  apply quiet_bind; [apply quiet_as_str|]. intros b'. apply quiet_ret.
Qed.

Lemma quiet_resolve_path P self path : quiet P (SSHClientManager.resolve_path self path).
Proof.
  unfold SSHClientManager.resolve_path. apply quiet_bind; [apply quiet_deref|].
  intros m. destruct (negb (truthy path)); [apply quiet_ret | apply quiet_os_path_join].
Qed.

Lemma quiet_transfer self src d : quiet upload_call (SSHClientManager.transfer self src d).
Proof.
  unfold SSHClientManager.transfer.
  apply quiet_try.
  - apply quiet_bind; [|intros _; apply quiet_ret].
    destruct (SSHClientManager.has_file src).
    + unfold SSHClientManager.sftp_putfo.
      apply quiet_bind; [apply quiet_get_sftp|]. intros h.
      apply quiet_on_handle. intros c.
      apply quiet_bind; [apply quiet_as_str|]. intros q. apply quiet_lib. exact I.
    + unfold SSHClientManager.sftp_put.
      apply quiet_bind; [apply quiet_get_sftp|]. intros h.
      apply quiet_on_handle. intros c.
      apply quiet_bind.
      { destruct (SSHClientManager.filename_of src); [apply quiet_as_str | apply quiet_raise]. }
      intros l. apply quiet_bind; [apply quiet_as_str|]. intros q. apply quiet_lib. exact I.
  - intros ioe. apply quiet_bind; [apply quiet_logger | intros _; apply quiet_ret].
Qed.

Lemma quiet_upload fuel self src path destname ow :
  quiet upload_call (SSHClientManager.upload fuel self src path destname ow).
Proof.
  unfold SSHClientManager.upload.
  apply quiet_bind.
  { destruct (negb (truthy destname)); [|apply quiet_ret].
    apply quiet_bind; [|intros ?; apply quiet_ret].
    unfold os_path_split. destruct (SSHClientManager.filename_of src) as [[]|];
      first [apply quiet_ret | apply quiet_raise]. }
  intros dn. apply quiet_bind; [apply quiet_resolve_path|]. intros dir.
  apply quiet_bind; [apply quiet_mkdir|]. intros _.
  apply quiet_bind; [apply quiet_os_path_join|]. intros d0.
  apply quiet_bind; [apply quiet_as_str|]. intros d.
  destruct (posixpath.splitext d) as [p e].
  apply quiet_bind; [apply quiet_probe|]. intros d'.
  apply quiet_transfer.
Qed.

End Quiet.

(** ** [upload] *)

Section Upload.
Context `{E : Env}.

Lemma sftp_lstat_run self s m h q :
  managers s !! self = Some m -> _sftp m = Bound (Some h) ->
  SSHClientManager.sftp_lstat self (PStr q) s
  = match SFTP_lstat h q (remote s) with
    | Reply a => (Ok a, add_call (CallLstat h q) s)
    | Throw e => (Raise e, add_call (CallLstat h q) s)
    end.
Proof.
  intros Hm Hh. unfold SSHClientManager.sftp_lstat.
  rewrite (bind_Ok _ _ _ _ _ (get_sftp_Bound _ _ _ _ Hm Hh)). reflexivity.
Qed.

Lemma sftp_mkdir_run self s m h q :
  managers s !! self = Some m -> _sftp m = Bound (Some h) ->
  SSHClientManager.sftp_mkdir self (PStr q) s
  = match SFTP_mkdir h q (remote s) with
    | (Reply a, w) => (Ok a, set_remote w (add_call (CallMkdir h q) s))
    | (Throw e, w) => (Raise e, set_remote w (add_call (CallMkdir h q) s))
    end.
Proof.
  intros Hm Hh. unfold SSHClientManager.sftp_mkdir.
  rewrite (bind_Ok _ _ _ _ _ (get_sftp_Bound _ _ _ _ Hm Hh)). reflexivity.
Qed.

Lemma transfer_run self s m h src d c f :
  managers s !! self = Some m -> _sftp m = Bound (Some h) ->
  put_request h src d = Some (c, f) ->
  SSHClientManager.transfer self src d s = transferred src d c f s.
Proof.
  intros Hm Hh Hreq. unfold put_request in Hreq.
  unfold SSHClientManager.transfer, transferred, transfer_error,
    SSHClientManager.sftp_putfo, SSHClientManager.sftp_put, SSHClientManager.get_sftp,
    SSHClientManager.on_handle, try_except, as_str, deref, lib, logger, raise, ret, bind.
  destruct (SSHClientManager.has_file src).
  - injection Hreq as <- <-. cbn. rewrite Hm. cbn. rewrite Hh. cbn.
    destruct (SFTP_putfo h src d (remote s)) as [[[]|e] w]; [reflexivity|].
    destruct (is_IOError e); reflexivity.
  - destruct (SSHClientManager.filename_of src) as [[| l | |]|]; try discriminate.
    injection Hreq as <- <-. cbn. rewrite Hm. cbn. rewrite Hh. cbn.
    destruct (SFTP_put h l d (remote s)) as [[[]|e] w]; [reflexivity|].
    destruct (is_IOError e); reflexivity.
Qed.

Lemma bind_ext {A B} (c : M A) (k k' : A -> M B) s :
  (forall a s1, k a s1 = k' a s1) -> bind c k s = bind c k' s.
Proof. intros H. unfold bind. destruct (c s) as [[a|e|] s1]; auto. Qed.

Lemma resolve_path_run self s m path dir :
  managers s !! self = Some m -> dest_dir m path = Some dir ->
  SSHClientManager.resolve_path self path s = (Ok (PStr dir), s).
Proof.
  intros Hm Hd. unfold SSHClientManager.resolve_path, dest_dir in *.
  rewrite (bind_Ok _ _ _ _ _ (deref_Some _ _ _ Hm)).
  destruct (truthy path); cbn [negb].
  - destruct (basepath m) as [|b| |]; try discriminate.
    destruct path as [|p| |]; try discriminate.
    injection Hd as <-. reflexivity.
  - destruct (currentpath m) as [|c| |]; try discriminate.
    injection Hd as <-. reflexivity.
Qed.

(** [upload], once the directory and the name are resolved. *)
Lemma upload_resolved fuel self src path destname ow s m dn dir :
  managers s !! self = Some m ->
  dest_name src destname = Some dn -> dest_dir m path = Some dir ->
  SSHClientManager.upload fuel self src path destname ow s
  = bind (SSHClientManager.mkdir self (PStr dir) true) (fun _ =>
      let d := posixpath.join dir [dn] in
      bind (SSHClientManager.probe fuel self (fst (posixpath.splitext d))
              (snd (posixpath.splitext d)) ow 0 d)
           (fun d' => SSHClientManager.transfer self src d')) s.
Proof.
  intros Hm Hn Hd. unfold SSHClientManager.upload.
  rewrite (bind_Ok _ _ s (PStr dn) s).
  2:{ unfold dest_name in Hn. destruct (truthy destname); cbn [negb].
      - destruct destname; try discriminate. injection Hn as <-. reflexivity.
      - destruct (SSHClientManager.filename_of src) as [[|f| |]|]; try discriminate.
        injection Hn as <-. reflexivity. }
  rewrite (bind_Ok _ _ _ _ _ (resolve_path_run _ _ _ _ _ Hm Hd)).
  apply bind_ext. intros _ s1. cbn zeta.
  rewrite (bind_Ok _ _ s1 (PStr (posixpath.join dir [dn])) s1) by reflexivity.
  rewrite (bind_Ok _ _ s1 (posixpath.join dir [dn]) s1) by reflexivity.
  destruct (posixpath.splitext (posixpath.join dir [dn])). reflexivity.
Qed.

(** With [overwrite] set, the loop is left after one probe, whatever the
    probe answers, with the destination it started from. *)
Lemma probe_overwrite fuel self s m h p e k d :
  managers s !! self = Some m -> _sftp m = Bound (Some h) ->
  SSHClientManager.probe (S fuel) self p e true k d s
  = (Ok d, add_call (CallLstat h d) s).
Proof.
  intros Hm Hh. cbn [SSHClientManager.probe].
  unfold try_except, bind at 1 2.
  rewrite (sftp_lstat_run _ _ _ _ _ Hm Hh).
  destruct (SFTP_lstat h d (remote s)); reflexivity.
Qed.

Lemma add_calls_add_call c cs s :
  add_calls cs (add_call c s) = add_calls (c :: cs) s.
Proof. unfold add_calls, add_call. cbn. rewrite <- app_assoc. reflexivity. Qed.

(** Without [overwrite], the loop probes the candidates in turn and is
    left with the first one that is not there. *)
Lemma probe_first_absent self m h d : forall n fuel k s,
  managers s !! self = Some m -> _sftp m = Bound (Some h) ->
  (forall j, j < n -> present h (candidate d (k + j)) (remote s)) ->
  absent h (candidate d (k + n)) (remote s) ->
  n < fuel ->
  SSHClientManager.probe fuel self (fst (posixpath.splitext d)) (snd (posixpath.splitext d))
    false k (candidate d k) s
  = (Ok (candidate d (k + n)),
     add_calls (map (fun j => CallLstat h (candidate d j)) (seq k (S n))) s).
Proof.
  induction n as [|n IH]; intros fuel k s Hm Hh Hpres Habs Hfuel.
  - destruct fuel as [|fuel]; [lia|]. cbn [SSHClientManager.probe].
    unfold try_except, bind at 1 2.
    rewrite (sftp_lstat_run _ _ _ _ _ Hm Hh).
    destruct Habs as [e He]. rewrite Nat.add_0_r in *. rewrite He. reflexivity.
  - destruct fuel as [|fuel]; [lia|]. cbn [SSHClientManager.probe].
    unfold try_except, bind at 1 2.
    rewrite (sftp_lstat_run _ _ _ _ _ Hm Hh).
    destruct (Hpres 0) as [a Ha]; [lia|]. rewrite Nat.add_0_r in Ha. rewrite Ha.
    cbn [ret]. unfold ret.
    change (SSHClientManager.suffixed (fst (posixpath.splitext d)) (S k)
              (snd (posixpath.splitext d))) with (candidate d (S k)).
    rewrite (IH fuel (S k)); try assumption.
    + rewrite add_calls_add_call. replace (S k + n) with (k + S n) by lia. reflexivity.
    + intros j Hj. replace (S k + j) with (k + S j) by lia. apply Hpres. lia.
    + replace (S k + n) with (k + S n) by lia. exact Habs.
    + lia.
Qed.

Lemma mkdir_keeps_managers self path recursive s o s1 :
  SSHClientManager.mkdir self path recursive s = (o, s1) -> managers s1 = managers s.
Proof. intros H. apply (quiet_mkdir self path recursive s o s1 H). Qed.

(** C4: with [overwrite] set, [upload] probes the destination once with
    [lstat] and, whatever the probe answers, transfers to the exact
    destination: the resolved directory joined with the resolved name.  It
    answers [True] when the library accepts the transfer, [False], with
    the error logged, when the library fails with an [IOError]. *)
Theorem upload_overwrite_exact_path
    (fuel self : nat) (src : pyobj) (path destname : pyval) (s s1 : state)
    (m : manager) (h : sftp_client) (dn dir : string) (v : pyval)
    (c : call) (f : world -> reply unit * world) :
  managers s !! self = Some m -> _sftp m = Bound (Some h) ->
  dest_name src destname = Some dn -> dest_dir m path = Some dir ->
  SSHClientManager.mkdir self (PStr dir) true s = (Ok v, s1) ->
  put_request h src (posixpath.join dir [dn]) = Some (c, f) ->
  SSHClientManager.upload (S fuel) self src path destname true s
  = transferred src (posixpath.join dir [dn]) c f
      (add_call (CallLstat h (posixpath.join dir [dn])) s1) /\
  (c = CallPutfo h src (posixpath.join dir [dn]) \/
   exists l, c = CallPut h l (posixpath.join dir [dn])) /\
  forall o s', SSHClientManager.upload (S fuel) self src path destname true s = (o, s') ->
    calls s' = (calls s1 ++ [CallLstat h (posixpath.join dir [dn]); c])%list /\
    remote s' = snd (f (remote s1)) /\
    (o = Ok true <-> fst (f (remote s1)) = Reply tt).
Proof.
  intros Hm Hh Hn Hd Hmk Hreq.
  assert (Hm1 : managers s1 !! self = Some m).
  { rewrite (mkdir_keeps_managers _ _ _ _ _ _ Hmk). exact Hm. }
  assert (Heq : SSHClientManager.upload (S fuel) self src path destname true s
                = transferred src (posixpath.join dir [dn]) c f
                    (add_call (CallLstat h (posixpath.join dir [dn])) s1)).
  { rewrite (upload_resolved _ _ _ _ _ _ _ _ _ _ Hm Hn Hd).
    rewrite (bind_Ok _ _ _ _ _ Hmk). cbn zeta.
    rewrite (bind_Ok _ _ _ _ _ (probe_overwrite _ _ _ _ _ _ _ _ _ Hm1 Hh)).
    apply (transfer_run _ _ m h); assumption. }
  split; [exact Heq|]. split.
  - unfold put_request in Hreq. destruct (SSHClientManager.has_file src).
    + injection Hreq as <- _. left. reflexivity.
    + destruct (SSHClientManager.filename_of src) as [[|l| |]|]; try discriminate.
      injection Hreq as <- _. right. exists l. reflexivity.
  - intros o s' Hrun. rewrite Heq in Hrun. unfold transferred in Hrun. cbn in Hrun.
    destruct (f (remote s1)) as [[[]|e] w]; cbn.
    + injection Hrun as <- <-. cbn. rewrite <- app_assoc. repeat split; auto.
    + destruct (is_IOError e); injection Hrun as <- <-; cbn; rewrite <- app_assoc;
        (repeat split; auto; discriminate).
Qed.

(** C3: without [overwrite], [upload] asks [lstat] for the destination
    [name.ext] and then for [name_1.ext], [name_2.ext], ..., in this
    order, and transfers to the first of these names for which [lstat]
    raises, whatever the exception: with [name.ext], [name_1.ext], ...,
    [name_(N-1).ext] found and [name_N.ext] not, the file goes to
    [name_N.ext].  The library is asked for these [N + 1] probes and the
    one transfer and nothing else, so that no path that [lstat] finds is
    written to. *)
Theorem upload_keeps_existing_files
    (fuel self : nat) (src : pyobj) (path destname : pyval) (s s1 : state)
    (m : manager) (h : sftp_client) (dn dir : string) (v : pyval) (N : nat)
    (c : call) (f : world -> reply unit * world) :
  managers s !! self = Some m -> _sftp m = Bound (Some h) ->
  dest_name src destname = Some dn -> dest_dir m path = Some dir ->
  SSHClientManager.mkdir self (PStr dir) true s = (Ok v, s1) ->
  (forall j, j < N -> present h (candidate (posixpath.join dir [dn]) j) (remote s1)) ->
  absent h (candidate (posixpath.join dir [dn]) N) (remote s1) ->
  N < fuel ->
  put_request h src (candidate (posixpath.join dir [dn]) N) = Some (c, f) ->
  SSHClientManager.upload fuel self src path destname false s
  = transferred src (candidate (posixpath.join dir [dn]) N) c f
      (add_calls (map (fun j => CallLstat h (candidate (posixpath.join dir [dn]) j))
                      (seq 0 (S N))) s1) /\
  (c = CallPutfo h src (candidate (posixpath.join dir [dn]) N) \/
   exists l, c = CallPut h l (candidate (posixpath.join dir [dn]) N)) /\
  (0 < N ->
   candidate (posixpath.join dir [dn]) N
   = fst (posixpath.splitext (posixpath.join dir [dn])) ++ "_" ++ str_of_nat N
     ++ snd (posixpath.splitext (posixpath.join dir [dn]))) /\
  (forall q, present h q (remote s1) -> q <> candidate (posixpath.join dir [dn]) N) /\
  forall o s', SSHClientManager.upload fuel self src path destname false s = (o, s') ->
    calls s' = (calls s1
                ++ map (fun j => CallLstat h (candidate (posixpath.join dir [dn]) j))
                       (seq 0 (S N))
                ++ [c])%list /\
    remote s' = snd (f (remote s1)) /\
    (o = Ok true <-> fst (f (remote s1)) = Reply tt) /\
    forall c', In c' (calls s') -> ~ In c' (calls s1) ->
      (exists j, j <= N /\ c' = CallLstat h (candidate (posixpath.join dir [dn]) j)) \/ c' = c.
Proof.
  intros Hm Hh Hn Hd Hmk Hpres Habs Hfuel Hreq.
  assert (Hm1 : managers s1 !! self = Some m).
  { rewrite (mkdir_keeps_managers _ _ _ _ _ _ Hmk). exact Hm. }
  assert (Heq : SSHClientManager.upload fuel self src path destname false s
                = transferred src (candidate (posixpath.join dir [dn]) N) c f
                    (add_calls (map (fun j => CallLstat h (candidate (posixpath.join dir [dn]) j))
                                    (seq 0 (S N))) s1)).
  { rewrite (upload_resolved _ _ _ _ _ _ _ _ _ _ Hm Hn Hd).
    rewrite (bind_Ok _ _ _ _ _ Hmk). cbn zeta.
    rewrite (bind_Ok _ _ _ _ _
               (probe_first_absent self m h (posixpath.join dir [dn]) N fuel 0 s1
                  Hm1 Hh Hpres Habs Hfuel)).
    apply (transfer_run _ _ m h); assumption. }
  split; [exact Heq|]. split; [|split; [|split]].
  - unfold put_request in Hreq. destruct (SSHClientManager.has_file src).
    + injection Hreq as <- _. left. reflexivity.
    + destruct (SSHClientManager.filename_of src) as [[|l| |]|]; try discriminate.
      injection Hreq as <- _. right. exists l. reflexivity.
  - intros HN. destruct N; [lia | reflexivity].
  - intros q [a Ha] ->. destruct Habs as [e He]. congruence.
  - intros o s' Hrun. rewrite Heq in Hrun. unfold transferred in Hrun.
    assert (Hcalls : calls s' = (calls s1 ++ map (fun j => CallLstat h
               (candidate (posixpath.join dir [dn]) j)) (seq 0 (S N)) ++ [c])%list
            /\ remote s' = snd (f (remote s1))
            /\ (o = Ok true <-> fst (f (remote s1)) = Reply tt)).
    { cbn [remote add_calls] in Hrun.
      destruct (f (remote s1)) as [[[]|e] w]; cbn [fst snd].
      - injection Hrun as <- <-. cbn. rewrite <- app_assoc. repeat split; auto.
      - destruct (is_IOError e); injection Hrun as <- <-; cbn; rewrite <- app_assoc;
          (repeat split; auto; discriminate). }
    destruct Hcalls as (Hc & Hr & Ho). split; [exact Hc|].
    split; [exact Hr|]. split; [exact Ho|].
    intros c' Hin Hnot. rewrite Hc in Hin.
    apply in_app_or in Hin as [Hin|Hin]; [contradiction|].
    apply in_app_or in Hin as [Hin|Hin].
    + left. apply in_map_iff in Hin as (j & <- & Hj). apply in_seq in Hj.
      exists j. split; [lia | reflexivity].
    + right. destruct Hin as [<-|[]]. reflexivity.
Qed.

End Upload.

(** ** The multi-host coordinator *)

Section Coordinator.
Context `{E : Env}.

Lemma put_file_unfold fuel self name content s st :
  storages s !! self = Some st ->
  MultipleSSHStorages__put_file fuel self name content s
  = for_each (map snd (_ssh_client_managers st)) (fun manager =>
      bind (upload_on fuel name content manager) (fun result =>
        if negb result then logger ERROR ("Error writing file " ++ name) else ret tt)) s.
Proof.
  intros Hst. unfold MultipleSSHStorages__put_file, upload_on.
  destruct (posixpath.split name) as [path destname].
  rewrite (bind_Ok _ _ _ _ _ (deref_storage_Some _ _ _ Hst)). reflexivity.
Qed.

Lemma quiet_upload_on fuel name content manager :
  quiet upload_call (upload_on fuel name content manager).
Proof.
  unfold upload_on, on_manager. destruct manager; [apply quiet_upload | apply quiet_raise].
Qed.

Lemma quiet_put_file_loop fuel name content ms :
  quiet upload_call (for_each ms (fun manager =>
      bind (upload_on fuel name content manager) (fun result =>
        if negb result then logger ERROR ("Error writing file " ++ name) else ret tt))).
Proof.
  apply quiet_for_each. intros manager.
  apply quiet_bind; [apply quiet_upload_on|].
  intros b. destruct (negb b); [apply quiet_logger | apply quiet_ret].
Qed.

Lemma fan_out_returns fuel name content ms : forall s bs s',
  fan_out (upload_on fuel name content) ("Error writing file " ++ name) ms s bs s' ->
  for_each ms (fun manager =>
      bind (upload_on fuel name content manager) (fun result =>
        if negb result then logger ERROR ("Error writing file " ++ name) else ret tt)) s
  = (Ok tt, s') /\ length bs = length ms.
Proof.
  induction ms as [|manager ms IH]; intros s bs s' H; inversion H; subst.
  - split; reflexivity.
  - cbn [for_each].
    match goal with Hup : upload_on _ _ _ _ _ = _, Hrest : fan_out _ _ _ _ _ _ |- _ =>
      unfold bind at 1 2; rewrite Hup;
      destruct (IH _ _ _ Hrest) as [Hrun Hlen] end.
    split; [|cbn; congruence].
    destruct b; cbn [negb]; exact Hrun.
Qed.

Lemma transfer_inv_Ok self src d s b s' :
  SSHClientManager.transfer self src d s = (Ok b, s') ->
  exists m h c, managers s !! self = Some m /\ _sftp m = Bound (Some h) /\
    is_put_on h c /\ calls s' = (calls s ++ [c])%list.
Proof.
  unfold SSHClientManager.transfer,
    SSHClientManager.sftp_putfo, SSHClientManager.sftp_put, SSHClientManager.get_sftp,
    SSHClientManager.on_handle, try_except, as_str, deref, lib, logger, raise, ret, bind.
  destruct (managers s !! self) as [m|] eqn:Hm.
  2:{ destruct (SSHClientManager.has_file src); cbn; rewrite ?Hm; cbn; intros ?; discriminate. }
  destruct (_sftp m) as [|[h|]] eqn:Hh.
  1,3: destruct (SSHClientManager.has_file src); cbn; rewrite ?Hm; cbn; rewrite ?Hh; cbn;
       intros ?; discriminate.
  destruct (SSHClientManager.has_file src); cbn; rewrite Hm; cbn; rewrite Hh; cbn.
  - destruct (SFTP_putfo h src d (remote s)) as [[[]|e] w].
    + intros [= <- <-]. exists m, h, (CallPutfo h src d). cbn. auto.
    + destruct (is_IOError e); [|intros ?; discriminate].
      intros [= <- <-]. exists m, h, (CallPutfo h src d). cbn. auto.
  - destruct (SSHClientManager.filename_of src) as [[| l | |]|]; cbn; try (intros ?; discriminate).
    destruct (SFTP_put h l d (remote s)) as [[[]|e] w].
    + intros [= <- <-]. exists m, h, (CallPut h l d). cbn. auto.
    + destruct (is_IOError e); [|intros ?; discriminate].
      intros [= <- <-]. exists m, h, (CallPut h l d). cbn. auto.
Qed.

(** An [upload] that returns has ended with a transfer on the handle of
    its manager. *)
Lemma upload_inv_Ok fuel self src path destname ow s b s' :
  SSHClientManager.upload fuel self src path destname ow s = (Ok b, s') ->
  exists m h c new, managers s !! self = Some m /\ _sftp m = Bound (Some h) /\
    is_put_on h c /\ calls s' = (calls s ++ new ++ [c])%list.
Proof.
  intros H. unfold SSHClientManager.upload in H.
  apply bind_inv_Ok in H as (dn & t1 & H1 & H).
  assert (Q1 : managers t1 = managers s /\ exists n, calls t1 = (calls s ++ n)%list).
  { assert (Hq : quiet upload_call
              (if negb (truthy destname)
               then bind (os_path_split (SSHClientManager.filename_of src))
                         (fun ht => ret (PStr (snd ht)))
               else ret destname)).
    { destruct (negb (truthy destname)); [|apply quiet_ret].
      apply quiet_bind; [|intros ?; apply quiet_ret].
      unfold os_path_split. destruct (SSHClientManager.filename_of src) as [[]|];
        first [apply quiet_ret | apply quiet_raise]. }
    destruct (Hq _ _ _ H1) as (M1 & _ & n & C1 & _). eauto. }
  clear H1. destruct Q1 as (M1 & n1 & C1).
  apply bind_inv_Ok in H as (dir & t2 & H1 & H).
  destruct (quiet_resolve_path upload_call _ _ _ _ _ H1) as (M2 & _ & n2 & C2 & _). clear H1.
  apply bind_inv_Ok in H as (? & t3 & H1 & H).
  destruct (quiet_mkdir _ _ _ _ _ _ H1) as (M3 & _ & n3 & C3 & _). clear H1.
  apply bind_inv_Ok in H as (d0 & t4 & H1 & H).
  destruct (quiet_os_path_join upload_call _ _ _ _ _ H1) as (M4 & _ & n4 & C4 & _). clear H1.
  apply bind_inv_Ok in H as (d & t5 & H1 & H).
  destruct (quiet_as_str upload_call _ _ _ _ H1) as (M5 & _ & n5 & C5 & _). clear H1.
  destruct (posixpath.splitext d) as [p e].
  apply bind_inv_Ok in H as (d' & t6 & H1 & H).
  destruct (quiet_probe _ _ _ _ _ _ _ _ _ _ H1) as (M6 & _ & n6 & C6 & _). clear H1.
  apply transfer_inv_Ok in H as (m & h & c & Hm & Hh & Hc & C7).
  exists m, h, c, (n1 ++ n2 ++ n3 ++ n4 ++ n5 ++ n6)%list.
  split; [congruence|]. split; [exact Hh|]. split; [exact Hc|].
  rewrite C7, C6, C5, C4, C3, C2, C1. rewrite <- !app_assoc. reflexivity.
Qed.

Lemma fan_out_attempts fuel name content ms : forall s bs s',
  fan_out (upload_on fuel name content) ("Error writing file " ++ name) ms s bs s' ->
  managers s' = managers s /\
  exists new, calls s' = (calls s ++ new)%list /\
    forall r, In (Some r) ms ->
      exists m h c, managers s !! r = Some m /\ _sftp m = Bound (Some h) /\
                    is_put_on h c /\ In c new.
Proof.
  induction ms as [|manager ms IH]; intros s bs s' H; inversion H; subst.
  - split; [reflexivity|]. exists []. rewrite app_nil_r. split; [reflexivity|].
    intros r [].
  - match goal with Hup : upload_on _ _ _ _ _ = _, Hrest : fan_out _ _ _ _ _ _ |- _ =>
      destruct (IH _ _ _ Hrest) as (Ms & new2 & Cs & Hall);
      pose proof (quiet_upload_on _ _ _ _ _ _ _ Hup) as (M1 & _ & new1 & C1 & _);
      rename Hup into Hup' end.
    assert (Ms1 : managers s' = managers s).
    { rewrite Ms. destruct b; cbn; exact M1. }
    split; [exact Ms1|].
    exists (new1 ++ new2)%list. split.
    { rewrite Cs. destruct b; cbn; rewrite C1, app_assoc; reflexivity. }
    intros r [->|Hin].
    + unfold upload_on, on_manager in Hup'.
      apply upload_inv_Ok in Hup' as (m & h & c & n & Hm & Hh & Hc & Cc).
      exists m, h, c. split; [exact Hm|]. split; [exact Hh|]. split; [exact Hc|].
      apply in_or_app. left.
      rewrite C1 in Cc. apply app_inv_head in Cc. rewrite Cc.
      apply in_or_app. right. left. reflexivity.
    + destruct (Hall r Hin) as (m & h & c & Hm & Hh & Hc & Hc').
      exists m, h, c. split.
      { assert (managers (if b then s1 else add_log ERROR ("Error writing file " ++ name) s1)
                = managers s) as <- by (destruct b; cbn; exact M1). exact Hm. }
      split; [exact Hh|]. split; [exact Hc|]. apply in_or_app. right. exact Hc'.
Qed.

(** C2: in the fan-out of [_put_file], a manager whose [upload] answers
    [False] is logged and passed over: when the uploads all return, each
    in the state the one before has left, [_put_file] returns without an
    exception, and every manager of the dict has made its transfer, those
    after a failed one too.  Whatever happens, the fan-out calls nothing
    but [mkdir], [lstat], [put] and [putfo]: nothing that was transferred
    is taken back. *)
Theorem put_file_fan_out
    (fuel self : nat) (name : string) (content : pyobj) (s : state) (st : storage) :
  storages s !! self = Some st ->
  cls st = MultipleSSHStorages ->
  (forall bs s',
     fan_out (upload_on fuel name content) ("Error writing file " ++ name)
             (map snd (_ssh_client_managers st)) s bs s' ->
     _put_file fuel self name content s = (Ok tt, s') /\
     length bs = length (_ssh_client_managers st) /\
     exists new, calls s' = (calls s ++ new)%list /\
       forall host r, In (host, Some r) (_ssh_client_managers st) ->
         exists m h c, managers s !! r = Some m /\ _sftp m = Bound (Some h) /\
                       is_put_on h c /\ In c new) /\
  (forall o s',
     _put_file fuel self name content s = (o, s') ->
     exists new, calls s' = (calls s ++ new)%list /\ Forall upload_call new).
Proof.
  intros Hst Hcls.
  assert (Heq : _put_file fuel self name content s
                = MultipleSSHStorages__put_file fuel self name content s).
  { unfold _put_file. rewrite (bind_Ok _ _ _ _ _ (deref_storage_Some _ _ _ Hst)), Hcls.
    reflexivity. }
  rewrite Heq, (put_file_unfold _ _ _ _ _ _ Hst). split.
  - intros bs s' Hfan.
    destruct (fan_out_returns _ _ _ _ _ _ _ Hfan) as [Hrun Hlen].
    split; [exact Hrun|]. split; [rewrite Hlen; apply length_map|].
    destruct (fan_out_attempts _ _ _ _ _ _ _ Hfan) as (_ & new & Hc & Hall).
    exists new. split; [exact Hc|].
    intros host r Hin. apply Hall.
    apply in_map_iff. exists (host, Some r). auto.
  - intros o s' Hrun.
    destruct (quiet_put_file_loop _ _ _ _ _ _ _ Hrun) as (_ & _ & new & Hc & HF).
    exists new. auto.
Qed.

End Coordinator.

(** ** [exists] on the coordinator *)

Section Exists.
Context `{E : Env}.

Lemma manager_stat_run r s m h rp :
  managers s !! r = Some m -> _sftp m = Bound (Some h) ->
  manager_stat (Some r) rp s
  = match SFTP_stat h rp (remote s) with
    | Reply a => (Ok a, add_call (CallStat h rp) s)
    | Throw e => (Raise e, add_call (CallStat h rp) s)
    end.
Proof.
  intros Hm Hh. unfold manager_stat, on_manager.
  rewrite (bind_Ok _ _ _ _ _ (sftp_bound _ _ _ _ Hm Hh)). reflexivity.
Qed.

Lemma connected_add_call c s ms hs : connected s ms hs -> connected (add_call c s) ms hs.
Proof. intros H. exact H. Qed.

Lemma stat_loop rp ms : forall hs s,
  connected s ms hs ->
  exists s', remote s' = remote s /\
    for_each (map snd ms) (fun manager => bind (manager_stat manager rp) (fun _ => ret tt)) s
    = (match first_stat_failure rp (remote s) hs with
       | None => Ok tt
       | Some e => Raise e
       end, s').
Proof.
  induction ms as [|[host manager] ms IH]; intros hs s Hc; inversion Hc; subst.
  - exists s. split; reflexivity.
  - match goal with H : exists r m, _ |- _ => destruct H as (r & m & Hr & Hm & Hh) end.
    cbn in Hr. subst manager. cbn [map snd for_each first_stat_failure].
    unfold bind at 1 2. rewrite (manager_stat_run _ _ _ _ _ Hm Hh).
    destruct (SFTP_stat y rp (remote s)) as [a|e].
    + match goal with H : Forall2 _ ms _ |- _ =>
        destruct (IH _ (add_call (CallStat y rp) s) H) as (s' & Hr' & Hrun) end.
      exists s'. split; [exact Hr'|]. exact Hrun.
    + eexists. split; [|reflexivity]. reflexivity.
Qed.

Lemma first_stat_failure_None rp w hs :
  first_stat_failure rp w hs = None <-> (forall h, In h hs -> exists a, SFTP_stat h rp w = Reply a).
Proof.
  induction hs as [|h hs IH]; cbn.
  - split; [intros _ h [] | reflexivity].
  - destruct (SFTP_stat h rp w) as [a|e] eqn:Hs.
    + rewrite IH. split.
      * intros H h' [<-|Hin]; [eauto | auto].
      * intros H h' Hin. apply H. right. exact Hin.
    + split; [discriminate|]. intros H. destruct (H h) as [a Ha]; [left; reflexivity|].
      congruence.
Qed.

Lemma first_stat_failure_Some rp w hs e :
  first_stat_failure rp w hs = Some e -> exists h, In h hs /\ SFTP_stat h rp w = Throw e.
Proof.
  induction hs as [|h hs IH]; cbn; [discriminate|].
  destruct (SFTP_stat h rp w) as [a|e'] eqn:Hs.
  - intros H. destruct (IH H) as (h' & Hin & Hh'). eauto.
  - intros [= ->]. eauto.
Qed.

(** [exists] where the coordinator is connected: when every host of the
    dict has a manager that holds an SFTP handle, [exists] answers [True]
    if and only if [stat] succeeds on every host, and it answers [False]
    when a [stat] fails and the failures are [IOError]s; a first failure
    that is no [IOError] is raised. *)
Theorem exists_on_connected_hosts
    (self : nat) (name : string) (s : state) (st : storage) (b : string)
    (hs : list sftp_client) :
  storages s !! self = Some st ->
  cls st = MultipleSSHStorages ->
  _config st !! "basepath" = Some (PStr b) ->
  connected s (_ssh_client_managers st) hs ->
  exists s',
    exists_ self name s
    = (match first_stat_failure (posixpath.join b [name]) (remote s) hs with
       | None => Ok true
       | Some e => if is_IOError e then Ok false else Raise e
       end, s') /\
    (fst (exists_ self name s) = Ok true <->
     forall h, In h hs -> exists a, SFTP_stat h (posixpath.join b [name]) (remote s) = Reply a) /\
    ((exists h e, In h hs /\ SFTP_stat h (posixpath.join b [name]) (remote s) = Throw e) ->
     (forall h e, In h hs -> SFTP_stat h (posixpath.join b [name]) (remote s) = Throw e ->
                  is_IOError e = true) ->
     fst (exists_ self name s) = Ok false).
Proof.
  intros Hst Hcls Hb Hc.
  destruct (stat_loop (posixpath.join b [name]) _ _ _ Hc) as (s' & Hr & Hloop).
  assert (Hrun : exists s'', exists_ self name s
            = (match first_stat_failure (posixpath.join b [name]) (remote s) hs with
               | None => Ok true
               | Some e => if is_IOError e then Ok false else Raise e
               end, s'')).
  { unfold exists_. rewrite (bind_Ok _ _ _ _ _ (deref_storage_Some _ _ _ Hst)), Hcls.
    unfold MultipleSSHStorages_exists.
    rewrite (bind_Ok _ _ s (posixpath.join b [name]) s).
    2:{ unfold _remote_path.
        rewrite (bind_Ok _ _ _ _ _ (deref_storage_Some _ _ _ Hst)).
        unfold getitem. rewrite Hb. reflexivity. }
    unfold try_except.
    rewrite (bind_Ok _ _ _ _ _ (deref_storage_Some _ _ _ Hst)).
    unfold bind at 1. rewrite Hloop.
    destruct (first_stat_failure _ _ hs) as [e|].
    - destruct (is_IOError e); eexists; reflexivity.
    - eexists; reflexivity. }
  destruct Hrun as (s'' & Hrun). exists s''. split; [exact Hrun|].
  rewrite Hrun. cbn [fst]. split.
  - rewrite <- first_stat_failure_None.
    destruct (first_stat_failure _ _ hs) as [e|]; [|tauto].
    destruct (is_IOError e); split; discriminate.
  - intros (h & e & Hin & He) Hio.
    destruct (first_stat_failure _ _ hs) as [e'|] eqn:Hf.
    + apply first_stat_failure_Some in Hf as (h' & Hin' & He').
      rewrite (Hio _ _ Hin' He'). reflexivity.
    + rewrite first_stat_failure_None in Hf. destruct (Hf h Hin) as [a Ha]. congruence.
Qed.

(** The loop of [exists] stops at the first host that has no manager. *)
Lemma stat_loop_unconnected rp host post : forall pre hs s,
  connected s pre hs ->
  (forall h, In h hs -> exists a, SFTP_stat h rp (remote s) = Reply a) ->
  for_each (map snd (pre ++ (host, None) :: post)%list)
    (fun manager => bind (manager_stat manager rp) (fun _ => ret tt)) s
  = (Raise (AttributeError "'NoneType' object has no attribute 'sftp'"),
     fold_left (fun s' h => add_call (CallStat h rp) s') hs s).
Proof.
  induction pre as [|[host' manager] pre IH]; intros hs s Hc Hall; inversion Hc; subst.
  - reflexivity.
  - match goal with H : exists r m, _ |- _ => destruct H as (r & m & Hr & Hm & Hh) end.
    cbn in Hr. subst manager. cbn [app map snd for_each fold_left].
    unfold bind at 1 2. rewrite (manager_stat_run _ _ _ _ _ Hm Hh).
    destruct (Hall y) as [a Ha]; [left; reflexivity|]. rewrite Ha.
    match goal with H : Forall2 _ pre _ |- _ =>
      apply (IH _ (add_call (CallStat y rp) s) H) end.
    intros h Hin. apply Hall. right. exact Hin.
Qed.

(** C1: [exists] on a coordinator does not connect.  Where a host of the
    dict has no manager, as every host has after the construction, and
    the hosts before it answer [stat], [exists] raises [AttributeError]:
    it does not answer [False], it opens no connection, and the hosts
    after it are not asked. *)
Theorem exists_coordinator_never_connects
    (self : nat) (name : string) (s : state) (st : storage) (b : string)
    (pre post : list (string * option nat)) (host : string) (hs : list sftp_client) :
  storages s !! self = Some st ->
  cls st = MultipleSSHStorages ->
  _config st !! "basepath" = Some (PStr b) ->
  _ssh_client_managers st = (pre ++ (host, None) :: post)%list ->
  connected s pre hs ->
  (forall h, In h hs -> exists a, SFTP_stat h (posixpath.join b [name]) (remote s) = Reply a) ->
  exists_ self name s
  = (Raise (AttributeError "'NoneType' object has no attribute 'sftp'"),
     fold_left (fun s' h => add_call (CallStat h (posixpath.join b [name])) s') hs s).
Proof.
  intros Hst Hcls Hb Hms Hc Hall.
  unfold exists_. rewrite (bind_Ok _ _ _ _ _ (deref_storage_Some _ _ _ Hst)), Hcls.
  unfold MultipleSSHStorages_exists.
  rewrite (bind_Ok _ _ s (posixpath.join b [name]) s).
  2:{ unfold _remote_path.
      rewrite (bind_Ok _ _ _ _ _ (deref_storage_Some _ _ _ Hst)).
      unfold getitem. rewrite Hb. reflexivity. }
  unfold try_except.
  rewrite (bind_Ok _ _ _ _ _ (deref_storage_Some _ _ _ Hst)).
  unfold bind at 1. rewrite Hms, (stat_loop_unconnected _ _ _ _ _ _ Hc Hall).
  reflexivity.
Qed.

End Exists.

(** ** [mkdir] *)

Section Mkdir.
Context `{E : Env}.

Lemma mkdir_unfold self p recursive s :
  SSHClientManager.mkdir self (PStr p) recursive s
  = bind (try_except (SSHClientManager.sftp_mkdir self (PStr p)) is_IOError
            (fun e => if recursive
                      then for_each (SSHClientManager.walk_paths p) (walk_step self)
                      else raise e))
         (fun _ => ret (PStr p)) s.
Proof.
  reflexivity.
Qed.

(** With every path of the walk in place, the walk probes and creates
    nothing. *)
Lemma walk_all_present self m h qs : forall s,
  managers s !! self = Some m -> _sftp m = Bound (Some h) ->
  (forall q, In q qs -> present h q (remote s)) ->
  for_each qs (walk_step self) s = (Ok tt, add_calls (map (CallLstat h) qs) s).
Proof.
  induction qs as [|q qs IH]; intros s Hm Hh Hp.
  - cbn. unfold ret, add_calls. cbn. rewrite app_nil_r. destruct s; reflexivity.
  - cbn [for_each map]. unfold walk_step at 1, try_except, bind at 1 2.
    rewrite (sftp_lstat_run _ _ _ _ _ Hm Hh).
    destruct (Hp q) as [a Ha]; [left; reflexivity|]. rewrite Ha. cbn [ret]. unfold ret.
    rewrite IH; try assumption.
    + rewrite add_calls_add_call. reflexivity.
    + intros q' Hq'. apply Hp. right. exact Hq'.
Qed.

Section Laws.
Variable h : sftp_client.
(** Creating a directory fails with an [IOError] or not at all. *)
Hypothesis mkdir_IOError : forall p w e w',
  SFTP_mkdir h p w = (Throw e, w') -> is_IOError e = true.
(** A directory that has been created is there. *)
Hypothesis mkdir_creates : forall p w w',
  SFTP_mkdir h p w = (Reply tt, w') -> present h p w'.
(** What is there stays there when a directory is created, or fails
    to be. *)
Hypothesis mkdir_keeps : forall p w r w' q,
  SFTP_mkdir h p w = (r, w') -> present h q w -> present h q w'.

(** A walk that went through has left every one of its paths in
    place. *)
Lemma walk_leaves_present self m qs : forall s s',
  managers s !! self = Some m -> _sftp m = Bound (Some h) ->
  for_each qs (walk_step self) s = (Ok tt, s') ->
  (forall q, present h q (remote s) -> present h q (remote s')) /\
  (forall q, In q qs -> present h q (remote s')).
Proof.
  induction qs as [|q0 qs IH]; intros s s' Hm Hh Hrun.
  - injection Hrun as <-. split; [auto | intros q []].
  - cbn [for_each] in Hrun. apply bind_inv_Ok in Hrun as (? & t & H1 & Hrun).
    assert (Hstep : managers t = managers s /\
                    (forall q, present h q (remote s) -> present h q (remote t)) /\
                    present h q0 (remote t)).
    { unfold walk_step, try_except, bind in H1.
      rewrite (sftp_lstat_run _ _ _ _ _ Hm Hh) in H1.
      destruct (SFTP_lstat h q0 (remote s)) as [a|e] eqn:Hl.
      - injection H1 as _ <-. cbn. split; [reflexivity|]. split; [auto|]. exists a. exact Hl.
      - cbn in H1. destruct (is_IOError e); [|discriminate].
        rewrite (sftp_mkdir_run _ _ m h) in H1 by assumption. cbn in H1.
        destruct (SFTP_mkdir h q0 (remote s)) as [[[]|e'] w'] eqn:Hmk; [|discriminate].
        injection H1 as _ <-. cbn. split; [reflexivity|]. split.
        + intros q Hq. eapply mkdir_keeps; eassumption.
        + eapply mkdir_creates; eassumption. }
    destruct Hstep as (Mt & Hkeep & Hq0).
    destruct (IH t s') as [Hk Hall]; [congruence | assumption | exact Hrun |].
    split.
    + intros q Hq. auto.
    + intros q [<-|Hin]; auto.
Qed.

(** C7: once [mkdir(path, recursive=True)] has returned, calling it
    again with the same path does not fail: the second call finds the
    directory there, walks the path from the root and, every component
    being in place, creates nothing.  This holds for a path whose
    components as walked from the root are the ancestors it was created
    under.  With [recursive=False], the [IOError] of the creation is
    raised. *)
Theorem mkdir_twice
    (self : nat) (p : string) (s s1 : state) (m : manager) (v : pyval) :
  managers s !! self = Some m -> _sftp m = Bound (Some h) ->
  (forall w', SFTP_mkdir h p (remote s) = (Reply tt, w') ->
              forall q, In q (SSHClientManager.walk_paths p) -> present h q w') ->
  SSHClientManager.mkdir self (PStr p) true s = (Ok v, s1) ->
  (exists s2, SSHClientManager.mkdir self (PStr p) true s1 = (Ok (PStr p), s2)) /\
  (forall e w', SFTP_mkdir h p (remote s1) = (Throw e, w') ->
     SSHClientManager.mkdir self (PStr p) true s1
     = (Ok (PStr p),
        add_calls (map (CallLstat h) (SSHClientManager.walk_paths p))
          (set_remote w' (add_call (CallMkdir h p) s1)))) /\
  (forall t e w', managers t !! self = Some m ->
     SFTP_mkdir h p (remote t) = (Throw e, w') ->
     SSHClientManager.mkdir self (PStr p) false t
     = (Raise e, set_remote w' (add_call (CallMkdir h p) t))).
Proof.
  intros Hm Hh Hanc Hrun.
  assert (Hm1 : managers s1 !! self = Some m).
  { rewrite (mkdir_keeps_managers _ _ _ _ _ _ Hrun). exact Hm. }
  assert (Hall : forall q, In q (SSHClientManager.walk_paths p) -> present h q (remote s1)).
  { rewrite mkdir_unfold in Hrun.
    apply bind_inv_Ok in Hrun as (u & t & H1 & Hrun). injection Hrun as _ <-.
    destruct u. unfold try_except in H1. rewrite (sftp_mkdir_run _ _ m h) in H1 by assumption.
    destruct (SFTP_mkdir h p (remote s)) as [[[]|e] w'] eqn:Hmk.
    - injection H1 as <-. cbn. apply Hanc. reflexivity.
    - destruct (is_IOError e); [|discriminate].
      eapply walk_leaves_present in H1 as [_ Hall]; [exact Hall | exact Hm | exact Hh]. }
  assert (Hsecond : forall e w', SFTP_mkdir h p (remote s1) = (Throw e, w') ->
            SSHClientManager.mkdir self (PStr p) true s1
            = (Ok (PStr p),
               add_calls (map (CallLstat h) (SSHClientManager.walk_paths p))
                 (set_remote w' (add_call (CallMkdir h p) s1)))).
  { intros e w' Hmk. rewrite mkdir_unfold. unfold try_except, bind at 1.
    rewrite (sftp_mkdir_run _ _ m h) by assumption. rewrite Hmk.
    rewrite (mkdir_IOError _ _ _ _ Hmk).
    rewrite (walk_all_present self m h); [reflexivity | exact Hm1 | exact Hh |].
    intros q Hq. cbn. eapply mkdir_keeps; [exact Hmk | apply Hall, Hq]. }
  split; [|split; [exact Hsecond|]].
  - destruct (SFTP_mkdir h p (remote s1)) as [[[]|e] w'] eqn:Hmk.
    + eexists. rewrite mkdir_unfold. unfold try_except, bind at 1.
      rewrite (sftp_mkdir_run _ _ m h) by assumption. rewrite Hmk. reflexivity.
    + eexists. apply (Hsecond e w' eq_refl).
  - intros t e w' Hmt Hmk. rewrite mkdir_unfold. unfold try_except, bind at 1.
    rewrite (sftp_mkdir_run _ _ m h) by assumption. rewrite Hmk.
    destruct (is_IOError e); reflexivity.
Qed.

End Laws.

End Mkdir.

(** ** The in-memory hosts *)

Section MemLaws.
#[local] Existing Instance Mem.env.

Lemma Mem_host_of_insert h w name hd hd' :
  Mem.host_of h w = Some (name, hd) ->
  Mem.host_of h (Mem.set_hosts (<[name := hd']> (Mem.hosts w)) w) = Some (name, hd').
Proof.
  unfold Mem.host_of. cbn.
  destruct (Mem.sftps w !! h) as [n|]; [|discriminate].
  destruct (Mem.hosts w !! n) as [hd0|] eqn:Hn; [|discriminate].
  intros [= -> ->]. rewrite lookup_insert_eq. reflexivity.
Qed.

Lemma Mem_mkdir_IOError h p w e w' :
  Mem.mkdir h p w = (Throw e, w') -> is_IOError e = true.
Proof.
  unfold Mem.mkdir, Mem.closed.
  destruct (Mem.host_of h w) as [[name hd]|]; [|intros [= <- _]; reflexivity].
  destruct (Mem.readonly hd); [intros [= <- _]; reflexivity|].
  destruct (Mem.node_at (Mem.files hd) (Mem.resolve hd p)); [intros [= <- _]; reflexivity|].
  destruct (Mem.node_at (Mem.files hd) (removelast (Mem.resolve hd p))) as [[|c]|];
    intros [= <- _]; reflexivity.
Qed.

Lemma Mem_mkdir_inv h p w w' :
  Mem.mkdir h p w = (Reply tt, w') ->
  exists name hd, Mem.host_of h w = Some (name, hd) /\
    w' = Mem.set_hosts (<[name := Mem.set_files (<[Mem.resolve hd p := Mem.Dir]> (Mem.files hd)) hd]>
                          (Mem.hosts w)) w.
Proof.
  unfold Mem.mkdir, Mem.closed.
  destruct (Mem.host_of h w) as [[name hd]|]; [|discriminate].
  destruct (Mem.readonly hd); [discriminate|].
  destruct (Mem.node_at (Mem.files hd) (Mem.resolve hd p)); [discriminate|].
  destruct (Mem.node_at (Mem.files hd) (removelast (Mem.resolve hd p))) as [[|c]|];
    try discriminate.
  intros [= <-]. eauto.
Qed.

Lemma Mem_mkdir_failed h p w e w' : Mem.mkdir h p w = (Throw e, w') -> w' = w.
Proof.
  unfold Mem.mkdir, Mem.closed.
  destruct (Mem.host_of h w) as [[name hd]|]; [|intros [= _ <-]; reflexivity].
  destruct (Mem.readonly hd); [intros [= _ <-]; reflexivity|].
  destruct (Mem.node_at (Mem.files hd) (Mem.resolve hd p)); [intros [= _ <-]; reflexivity|].
  destruct (Mem.node_at (Mem.files hd) (removelast (Mem.resolve hd p))) as [[|c]|];
    intros [= _ <-]; reflexivity.
Qed.

Lemma Mem_present_iff h q w :
  present h q w <->
  exists name hd, Mem.host_of h w = Some (name, hd) /\
                  is_Some (Mem.node_at (Mem.files hd) (Mem.resolve hd q)).
Proof.
  unfold present. cbn. unfold Mem.lstat, Mem.closed.
  destruct (Mem.host_of h w) as [[name hd]|].
  - destruct (Mem.node_at (Mem.files hd) (Mem.resolve hd q)) as [n|] eqn:Hn.
    + split.
      * intros _. exists name, hd. split; [reflexivity|]. rewrite Hn. eauto.
      * intros _. eauto.
    + split; [intros [a Ha]; discriminate|].
      intros (n' & hd' & [= <- <-] & [x Hx]). congruence.
  - split; [intros [a Ha]; discriminate | intros (n' & hd' & Hd & _); discriminate].
Qed.

Lemma Mem_node_at_insert fs l l' :
  is_Some (Mem.node_at fs l') -> is_Some (Mem.node_at (<[l := Mem.Dir]> fs) l').
Proof.
  unfold Mem.node_at. destruct l' as [|x l']; [auto|].
  intros Hs. destruct (decide (l = x :: l')) as [->|Hne].
  - rewrite lookup_insert_eq. eauto.
  - rewrite lookup_insert_ne by exact Hne. exact Hs.
Qed.

Lemma Mem_mkdir_creates h p w w' :
  Mem.mkdir h p w = (Reply tt, w') -> present h p w'.
Proof.
  intros H. apply Mem_mkdir_inv in H as (name & hd & Hh & ->).
  apply Mem_present_iff. eexists _, _. split; [apply (Mem_host_of_insert _ _ _ _ _ Hh)|].
  cbn. unfold Mem.resolve. cbn.
  change (if startswith sep p then Mem.components p else (Mem.home hd ++ Mem.components p)%list)
    with (Mem.resolve hd p).
  unfold Mem.node_at. destruct (Mem.resolve hd p) eqn:Hr; [eauto|].
  rewrite lookup_insert_eq. eauto.
Qed.

Lemma Mem_mkdir_keeps h p w r w' q :
  Mem.mkdir h p w = (r, w') -> present h q w -> present h q w'.
Proof.
  intros H Hq. destruct r as [[]|e].
  - apply Mem_mkdir_inv in H as (name & hd & Hh & ->).
    apply Mem_present_iff in Hq as (name' & hd' & Hh' & Hs).
    rewrite Hh in Hh'. injection Hh' as <- <-.
    apply Mem_present_iff. eexists _, _. split; [apply (Mem_host_of_insert _ _ _ _ _ Hh)|].
    cbn. apply Mem_node_at_insert. exact Hs.
  - apply Mem_mkdir_failed in H as ->. exact Hq.
Qed.

End MemLaws.

(** ** Absolute paths on the in-memory hosts *)

Section MemPaths.
#[local] Existing Instance Mem.env.

Lemma append_nil_l (s : string) : EmptyString ++ s = s.
Proof. reflexivity. Qed.

Lemma append_cons (x : ascii) (a b : string) : String x a ++ b = String x (a ++ b).
Proof. reflexivity. Qed.

Lemma str_split_nonempty c s : str_split c s <> [].
Proof. destruct s as [|a r]; cbn; [discriminate|]. destruct (Ascii.eqb a c); [discriminate|].
       destruct (str_split c r); discriminate. Qed.

Lemma str_split_app_sep c a b :
  str_split c (a ++ String c b) = (str_split c a ++ str_split c b)%list.
Proof.
  induction a as [|x a IH]; rewrite ?append_nil_l, ?append_cons; cbn [str_split].
  - rewrite Ascii.eqb_refl. reflexivity.
  - destruct (Ascii.eqb x c); [rewrite IH; reflexivity|].
    rewrite IH. destruct (str_split c a) as [|y ys] eqn:Hs.
    + exfalso. exact (str_split_nonempty _ _ Hs).
    + reflexivity.
Qed.

Lemma str_split_no_sep c s : has_char c s = false -> str_split c s = [s].
Proof.
  induction s as [|a r IH]; cbn; [reflexivity|].
  destruct (Ascii.eqb a c); cbn; [discriminate|]. intros H. rewrite (IH H). reflexivity.
Qed.

Lemma str_split_parts c s : Forall (fun x => has_char c x = false) (str_split c s).
Proof.
  induction s as [|a r IH]; cbn.
  - constructor; [reflexivity | constructor].
  - destruct (Ascii.eqb a c) eqn:Ha.
    + constructor; [reflexivity | exact IH].
    + destruct (str_split c r) as [|y ys]; [constructor; [cbn; rewrite Ha; reflexivity|constructor]|].
      inversion IH; subst. constructor; [cbn; rewrite Ha; assumption | assumption].
Qed.

Lemma endswith_inv c s : endswith c s = true -> exists a, s = a ++ String c EmptyString.
Proof.
  induction s as [|x r IH]; cbn; [discriminate|].
  destruct r as [|y r'].
  - intros H. apply Ascii.eqb_eq in H as ->. exists EmptyString. reflexivity.
  - intros H. destruct (IH H) as [a Ha]. exists (String x a). rewrite append_cons.
    rewrite <- Ha. reflexivity.
Qed.

Lemma string_app_assoc (a b c : string) : (a ++ b) ++ c = a ++ (b ++ c).
Proof.
  induction a as [|x a IH]; rewrite ?append_nil_l, ?append_cons;
    [reflexivity | rewrite IH; reflexivity].
Qed.

Lemma components_app_sep a b :
  Mem.components (a ++ String sep b) = (Mem.components a ++ Mem.components b)%list.
Proof. unfold Mem.components. rewrite str_split_app_sep, filter_app. reflexivity. Qed.

Lemma components_no_sep x :
  has_char sep x = false -> Mem.components x = filter (λ y, y ≠ EmptyString) [x].
Proof. intros H. unfold Mem.components. rewrite (str_split_no_sep _ _ H). reflexivity. Qed.

Lemma components_empty : Mem.components EmptyString = [].
Proof. reflexivity. Qed.

Lemma startswith_no_sep x : has_char sep x = false -> startswith sep x = false.
Proof. destruct x as [|a r]; cbn; [reflexivity|]. destruct (Ascii.eqb a sep); [discriminate|reflexivity]. Qed.

Lemma startswith_app c a b : startswith c a = true -> startswith c (a ++ b) = true.
Proof. destruct a; rewrite ?append_cons; cbn [startswith]; [discriminate | auto]. Qed.

Lemma join2_components acc x :
  startswith sep acc = true -> has_char sep x = false ->
  startswith sep (posixpath.join2 acc x) = true /\
  Mem.components (posixpath.join2 acc x)
  = (Mem.components acc ++ filter (λ y, y ≠ EmptyString) [x])%list.
Proof.
  intros Hacc Hx. unfold posixpath.join2.
  rewrite (startswith_no_sep _ Hx).
  assert (Hne : String.eqb acc EmptyString = false) by (destruct acc; [discriminate | reflexivity]).
  rewrite Hne. cbn [orb].
  destruct (endswith sep acc) eqn:He.
  - split; [apply startswith_app, Hacc|].
    destruct (endswith_inv _ _ He) as [a ->].
    rewrite string_app_assoc, append_cons, append_nil_l.
    rewrite !components_app_sep, components_empty, app_nil_r.
    rewrite (components_no_sep _ Hx). reflexivity.
  - split; [apply startswith_app, Hacc|].
    rewrite components_app_sep, (components_no_sep _ Hx). reflexivity.
Qed.

Lemma join_components l : forall acc,
  Forall (fun x => has_char sep x = false) l -> startswith sep acc = true ->
  startswith sep (fold_left posixpath.join2 l acc) = true /\
  Mem.components (fold_left posixpath.join2 l acc)
  = (Mem.components acc ++ filter (λ y, y ≠ EmptyString) l)%list.
Proof.
  induction l as [|x l IH]; intros acc Hl Hacc; cbn [fold_left].
  - rewrite filter_nil, app_nil_r. auto.
  - inversion Hl; subst.
    destruct (join2_components acc x Hacc) as [Hs Hc]; [assumption|].
    destruct (IH _ ltac:(assumption) Hs) as [Hs' Hc'].
    split; [exact Hs'|]. rewrite Hc', Hc, <- app_assoc. f_equal.
    change (x :: l) with ([x] ++ l)%list. rewrite filter_app. reflexivity.
Qed.

(** The paths of the walk are absolute, and their components are the
    leading components of the path walked. *)
Lemma walk_paths_prefix p q :
  In q (SSHClientManager.walk_paths p) ->
  startswith sep q = true /\ Mem.components q `prefix_of` Mem.components p.
Proof.
  unfold SSHClientManager.walk_paths. intros Hin.
  apply in_map_iff in Hin as (pp & <- & _).
  unfold posixpath.join.
  destruct (join_components (take (pp + 1) (str_split sep p)) "/") as [Hs Hc].
  - apply Forall_take, str_split_parts.
  - reflexivity.
  - split; [exact Hs|]. rewrite Hc. cbn [app].
    change (Mem.components "/") with (@nil string). cbn [app].
    unfold Mem.components.
    rewrite <- (take_drop (pp + 1) (str_split sep p)) at 2.
    rewrite filter_app. apply prefix_app_r. reflexivity.
Qed.

Lemma prefix_closed_prefix fs l l' :
  prefix_closed fs -> l' `prefix_of` l -> is_Some (Mem.node_at fs l) ->
  is_Some (Mem.node_at fs l').
Proof.
  intros Hfs [k ->]. revert l'.
  induction k as [|x k IH] using rev_ind; intros l' Hs.
  - rewrite app_nil_r in Hs. exact Hs.
  - apply IH. rewrite app_assoc in Hs.
    apply Hfs with x. unfold Mem.node_at in Hs.
    destruct ((l' ++ k) ++ [x])%list eqn:Hl; [|exact Hs].
    destruct (l' ++ k)%list; discriminate.
Qed.

Lemma removelast_snoc {A} (l : list A) x : removelast (l ++ [x]) = l.
Proof. apply removelast_last. Qed.

(** On a host where every entry lies under an entry, an absolute
    directory that could be created has every path of its walk in
    place. *)
Lemma Mem_mkdir_ancestors h p w w' :
  (forall name hd, Mem.host_of h w = Some (name, hd) -> prefix_closed (Mem.files hd)) ->
  startswith sep p = true ->
  Mem.mkdir h p w = (Reply tt, w') ->
  forall q, In q (SSHClientManager.walk_paths p) -> present h q w'.
Proof.
  intros Hfs Hp Hmk q Hq.
  destruct (walk_paths_prefix _ _ Hq) as [Hqs Hpre].
  unfold Mem.mkdir in Hmk.
  destruct (Mem.host_of h w) as [[name hd]|] eqn:Hh; [|discriminate].
  specialize (Hfs name hd eq_refl).
  destruct (Mem.readonly hd); [discriminate|].
  unfold Mem.resolve in Hmk. rewrite Hp in Hmk.
  destruct (Mem.node_at (Mem.files hd) (Mem.components p)) eqn:Hn; [discriminate|].
  destruct (Mem.node_at (Mem.files hd) (removelast (Mem.components p))) as [[|c]|] eqn:Hpar;
    try discriminate.
  injection Hmk as <-.
  apply Mem_present_iff. eexists _, _. split; [apply (Mem_host_of_insert _ _ _ _ _ Hh)|].
  cbn. unfold Mem.resolve. cbn. rewrite Hqs.
  destruct Hpre as [k Hk].
  destruct k as [|x k _] using rev_ind.
  - rewrite app_nil_r in Hk. rewrite <- Hk.
    unfold Mem.node_at. destruct (Mem.components p); [eauto|].
    rewrite lookup_insert_eq. eauto.
  - apply Mem_node_at_insert.
    apply (prefix_closed_prefix _ (removelast (Mem.components p))); [exact Hfs| |rewrite Hpar; eauto].
    rewrite Hk, app_assoc, removelast_snoc. apply prefix_app_r. reflexivity.
Qed.

End MemPaths.

(** ** The storages on the in-memory hosts *)

Section Runs.
#[local] Existing Instance Mem.env.

Lemma exists_coordinator_never_connects_witness :
  exists_ 0 "pic.jpg" Scenario.fresh_readonly_first
  = (Raise (AttributeError "'NoneType' object has no attribute 'sftp'"),
     Scenario.fresh_readonly_first).
Proof.
  eapply (exists_coordinator_never_connects 0 "pic.jpg" Scenario.fresh_readonly_first _
           "/data/media" [] [("h2", None)] "h1" []).
  - reflexivity.
  - reflexivity.
  - reflexivity.
  - reflexivity.
  - constructor.
  - intros h [].
Defined.

Lemma exists_on_connected_hosts_witness :
  fst (exists_ 0 "pic.jpg" Scenario.connected_readonly_first) = Ok false.
Proof.
  epose proof (exists_on_connected_hosts 0 "pic.jpg"
                 Scenario.connected_readonly_first _ "/data/media" [1; 3]) as H.
  edestruct H as (s' & Hrun & _ & Hfalse); clear H.
  - reflexivity.
  - reflexivity.
  - reflexivity.
  - unfold connected. cbn [_ssh_client_managers].
    constructor; [|constructor; [|constructor]].
    + eexists _, _. split; [reflexivity|]. split; reflexivity.
    + eexists _, _. split; [reflexivity|]. split; reflexivity.
  - apply Hfalse.
    + exists 1, (IOError "No such file"). split; [left; reflexivity | vm_compute; reflexivity].
    + intros h e [<-|[<-|[]]]; vm_compute; intros [= <-]; reflexivity.
Defined.

(** C2: when the directory cannot be created on the first host, the
    [IOError] of its manager's [upload] leaves [_put_file]; the second
    host is not served. *)
Lemma put_file_raises_past_coordinator :
  fst (_put_file 1 0 "pic.jpg" Scenario.pic Scenario.connected_blocked_first)
  = Raise (IOError "No such file") /\
  Forall (fun c => ~ is_put_on 3 c)
    (calls (snd (_put_file 1 0 "pic.jpg" Scenario.pic Scenario.connected_blocked_first))).
Proof.
  split; [vm_compute; reflexivity|].
  repeat (constructor; [cbn; intros H; try discriminate H; exact H |]). constructor.
Qed.

Lemma put_file_fan_out_witness :
  _put_file 1 0 "pic.jpg" Scenario.pic Scenario.connected_readonly_first
  = (Ok tt, Scenario.readonly_first_done) /\
  exists c, is_put_on 3 c /\ In c (calls Scenario.readonly_first_done).
Proof.
  epose proof (put_file_fan_out 1 0 "pic.jpg" Scenario.pic
                 Scenario.connected_readonly_first _) as H.
  edestruct H as (Hfan & _); clear H.
  - reflexivity.
  - reflexivity.
  - destruct (Hfan [false; true] Scenario.readonly_first_done)
      as (Hrun & _ & new & Hcalls & Hall).
    + cbn [_ssh_client_managers map snd].
      apply (fan_out_cons _ _ (Some 1) [Some 2] Scenario.connected_readonly_first false
               Scenario.readonly_first_tried [true] Scenario.readonly_first_done).
      * reflexivity.
      * apply (fan_out_cons _ _ (Some 2) []
                 (add_log ERROR ("Error writing file " ++ "pic.jpg") Scenario.readonly_first_tried)
                 true Scenario.readonly_first_done [] Scenario.readonly_first_done).
        -- reflexivity.
        -- apply fan_out_nil.
    + split; [exact Hrun|].
      destruct (Hall "h2" 2) as (m & h & c & Hm & Hh & Hc & Hin).
      { right. left. reflexivity. }
      injection Hm as <-. injection Hh as <-.
      exists c. split; [exact Hc|]. rewrite Hcalls.
      apply in_or_app. right. exact Hin.
Defined.

Lemma upload_keeps_existing_files_witness :
  (fst (SSHClientManager.upload 10 0 (PV (PStr "pic.jpg")) PNone PNone false
          Scenario.connected_data) = Ok true /\
   calls (snd (SSHClientManager.upload 10 0 (PV (PStr "pic.jpg")) PNone PNone false
                 Scenario.connected_data))
   = (calls Scenario.connected_data
      ++ [CallMkdir 1 "/data"; CallLstat 1 "/data";
          CallLstat 1 "/data/pic.jpg"; CallLstat 1 "/data/pic_1.jpg";
          CallPut 1 "pic.jpg" "/data/pic_1.jpg"])%list /\
   Scenario.file_on "h1" ["data"; "pic.jpg"]
     (remote (snd (SSHClientManager.upload 10 0 (PV (PStr "pic.jpg")) PNone PNone false
                     Scenario.connected_data))) = Some (Mem.File "old") /\
   Scenario.file_on "h1" ["data"; "pic_1.jpg"]
     (remote (snd (SSHClientManager.upload 10 0 (PV (PStr "pic.jpg")) PNone PNone false
                     Scenario.connected_data))) = Some (Mem.File "new")) /\
  (fst (SSHClientManager.upload 10 0 (PV (PStr "pic.jpg")) PNone PNone false
          Scenario.connected_two_pics) = Ok true /\
   exists old,
     calls (snd (SSHClientManager.upload 10 0 (PV (PStr "pic.jpg")) PNone PNone false
                   Scenario.connected_two_pics))
     = (old ++ [CallLstat 1 "/data/pic.jpg"; CallLstat 1 "/data/pic_1.jpg";
                CallLstat 1 "/data/pic_2.jpg"; CallPut 1 "pic.jpg" "/data/pic_2.jpg"])%list).
Proof.
  split.
  - epose proof (upload_keeps_existing_files 10 0 (PV (PStr "pic.jpg")) PNone PNone
                   Scenario.connected_data _ _ 1 "pic.jpg" "/data" _ 1 _ _) as H.
    edestruct H as (_ & _ & _ & _ & Hall); clear H.
    + reflexivity.
    + reflexivity.
    + reflexivity.
    + reflexivity.
    + reflexivity.
    + intros j Hj. assert (j = 0) as -> by lia. eexists. vm_compute. reflexivity.
    + eexists. vm_compute. reflexivity.
    + lia.
    + reflexivity.
    + edestruct (Hall _ _ (surjective_pairing _)) as (Hc & Hr & Ho & _).
      split; [apply Ho; vm_compute; reflexivity|].
      split; [rewrite Hc; reflexivity|].
      rewrite Hr. split; reflexivity.
  - epose proof (upload_keeps_existing_files 10 0 (PV (PStr "pic.jpg")) PNone PNone
                   Scenario.connected_two_pics _ _ 1 "pic.jpg" "/data" _ 2 _ _) as H.
    edestruct H as (_ & _ & _ & _ & Hall); clear H.
    + reflexivity.
    + reflexivity.
    + reflexivity.
    + reflexivity.
    + reflexivity.
    + intros j Hj. assert (j = 0 \/ j = 1) as [-> | ->] by lia;
        eexists; vm_compute; reflexivity.
    + eexists. vm_compute. reflexivity.
    + lia.
    + reflexivity.
    + edestruct (Hall _ _ (surjective_pairing _)) as (Hc & _ & Ho & _).
      split; [apply Ho; vm_compute; reflexivity|].
      eexists. rewrite Hc. reflexivity.
Defined.

(** C4: with [overwrite] set, [upload] still probes its destination with
    [lstat] before it writes. *)
Lemma upload_overwrite_probes_destination :
  fst (SSHClientManager.upload 1 0 (PV (PStr "pic.jpg")) PNone PNone true
         Scenario.connected_data) = Ok true /\
  In (CallLstat 1 "/data/pic.jpg")
     (calls (snd (SSHClientManager.upload 1 0 (PV (PStr "pic.jpg")) PNone PNone true
                    Scenario.connected_data))).
Proof.
  split; [vm_compute; reflexivity|].
  cbn. do 6 right. left. reflexivity.
Qed.

Lemma upload_overwrite_exact_path_witness :
  fst (SSHClientManager.upload 1 0 (PV (PStr "pic.jpg")) PNone PNone true
         Scenario.connected_data) = Ok true.
Proof.
  epose proof (upload_overwrite_exact_path 0 0 (PV (PStr "pic.jpg")) PNone PNone
                 Scenario.connected_data _ _ 1 "pic.jpg" "/data" _ _ _) as H.
  edestruct H as (_ & _ & Hall); clear H.
  - reflexivity.
  - reflexivity.
  - reflexivity.
  - reflexivity.
  - reflexivity.
  - reflexivity.
  - edestruct (Hall _ _ (surjective_pairing _)) as (_ & _ & Ho).
    apply Ho. vm_compute. reflexivity.
Defined.


Lemma close_connection_false_state_witness :
  fst (SSHClientManager.close_connection 0 Scenario.refused) = Ok false /\
  exists m m',
    managers Scenario.refused !! 0 = Some m /\ _ssh m = Some 0 /\ _sftp m = Bound None /\
    hostname m = PStr "h1" /\
    managers (snd (SSHClientManager.close_connection 0 Scenario.refused)) !! 0 = Some m' /\
    hostname m' = PNone /\ _ssh m' = Some 0 /\ _sftp m' = Bound None.
Proof.
  split; [reflexivity|].
  epose proof (close_connection_false_state 0 Scenario.refused _ _) as H.
  edestruct H as (m' & Hm' & -> & _ & _ & _ & _ & _); clear H.
  - reflexivity.
  - reflexivity.
  - eexists _, _. split; [reflexivity|]. split; [reflexivity|]. split; [reflexivity|].
    split; [reflexivity|]. split; [exact Hm'|]. repeat split; reflexivity.
Defined.

(** C9: on a manager that was never connected, [close_connection]
    answers [False] and both handle fields are [None] afterwards, as
    they were before; after a connection that the host refused, the
    SFTP handle is [None] and the session handle is not. *)
Lemma close_connection_false_handles_none :
  (fst (SSHClientManager.close_connection 0 Scenario.never_connected) = Ok false /\
   exists m', managers (snd (SSHClientManager.close_connection 0 Scenario.never_connected)) !! 0
              = Some m' /\ _sftp m' = Bound None /\ _ssh m' = None) /\
  (fst (SSHClientManager.close_connection 0 Scenario.refused) = Ok false /\
   exists m', managers (snd (SSHClientManager.close_connection 0 Scenario.refused)) !! 0
              = Some m' /\ _sftp m' = Bound None /\ _ssh m' = Some 0).
Proof.
  split; (split; [reflexivity|]); eexists; (split; [reflexivity|]); split; reflexivity.
Qed.

(** C7: for the nested path [a/b] under the home directory of the
    account, the first call creates the directory; the second finds it in
    place, walks from the root, where [/a/b] is not, and fails. *)
Lemma mkdir_twice_relative_path_fails :
  fst (SSHClientManager.mkdir 0 (PStr "a/b") true Scenario.connected_home) = Ok (PStr "a/b") /\
  fst (SSHClientManager.mkdir 0 (PStr "a/b") true
         (snd (SSHClientManager.mkdir 0 (PStr "a/b") true Scenario.connected_home)))
  = Raise (IOError "No such file").
Proof. split; vm_compute; reflexivity. Qed.

Lemma mkdir_twice_witness :
  SSHClientManager.mkdir 0 (PStr "/data/media/img") true Scenario.connected_data
  = (Ok (PStr "/data/media/img"), Scenario.made_img) /\
  exists s2, SSHClientManager.mkdir 0 (PStr "/data/media/img") true Scenario.made_img
             = (Ok (PStr "/data/media/img"), s2).
Proof.
  assert (Hfirst : SSHClientManager.mkdir 0 (PStr "/data/media/img") true Scenario.connected_data
                   = (Ok (PStr "/data/media/img"), Scenario.made_img)) by reflexivity.
  split; [exact Hfirst|].
  epose proof (mkdir_twice 1 (Mem_mkdir_IOError 1) (Mem_mkdir_creates 1) (Mem_mkdir_keeps 1)
                 0 "/data/media/img" Scenario.connected_data Scenario.made_img _ _) as H.
  edestruct H as (Hsecond & _); clear H.
  - reflexivity.
  - reflexivity.
  - intros w' Hw'. vm_compute in Hw'. discriminate Hw'.
  - exact Hfirst.
  - exact Hsecond.
Defined.



Lemma url_needs_location_witness :
  construct SSHStorage Scenario.django Scenario.one_host_settings
    (Mem.initial Scenario.one_host) = (Ok 0, Scenario.constructed) /\
  url 0 "css/site.css" Scenario.constructed
  = (Raise (KeyError "location"), Scenario.constructed).
Proof.
  assert (Hrun : construct SSHStorage Scenario.django Scenario.one_host_settings
                   (Mem.initial Scenario.one_host) = (Ok 0, Scenario.constructed))
    by reflexivity.
  split; [exact Hrun|].
  destruct (url_needs_location SSHStorage Scenario.django Scenario.one_host_settings
              (Mem.initial Scenario.one_host) Scenario.constructed 0 Hrun)
    as (st & Hst & _ & Hurl).
  exact (Hurl "css/site.css" Scenario.constructed st Hst eq_refl).
Defined.

End Runs.

Section HiddenFiles.
#[local] Existing Instance DropBox.env.

(** C3: on a host that lets the account write but raises for the
    [lstat] of a regular file, [/data/pic.jpg] is there, the probe of it
    raises, the loop takes the name as unused, and the upload without
    [overwrite] replaces the file. *)
Lemma upload_overwrites_hidden_file :
  Scenario.file_on "h1" ["data"; "pic.jpg"] (remote DropBox.connected_data)
  = Some (Mem.File "old") /\
  fst (SSHClientManager.upload 10 0 (PV (PStr "pic.jpg")) PNone PNone false
         DropBox.connected_data) = Ok true /\
  calls (snd (SSHClientManager.upload 10 0 (PV (PStr "pic.jpg")) PNone PNone false
                DropBox.connected_data))
  = (calls DropBox.connected_data
     ++ [CallMkdir 1 "/data"; CallLstat 1 "/data"; CallLstat 1 "/data/pic.jpg";
         CallPut 1 "pic.jpg" "/data/pic.jpg"])%list /\
  Scenario.file_on "h1" ["data"; "pic.jpg"]
    (remote (snd (SSHClientManager.upload 10 0 (PV (PStr "pic.jpg")) PNone PNone false
                    DropBox.connected_data))) = Some (Mem.File "new").
Proof. repeat split; reflexivity. Qed.

End HiddenFiles.

(** * Further properties *)

(** ** The life of a manager: [check], [setup] and [close_connection] *)

Section ManagerLife.
Context `{E : Env}.

Lemma check_run self s m :
  managers s !! self = Some m ->
  SSHClientManager.check self s
  = (if truthy (username m) && (truthy (password m) || truthy (rsa_key m))
     then Ok tt else Raise SSHClientManagerException, s).
Proof.
  intros Hm. unfold SSHClientManager.check.
  rewrite (bind_Ok _ _ _ _ _ (deref_Some _ _ _ Hm)).
  destruct (truthy (username m)), (truthy (password m)), (truthy (rsa_key m)); reflexivity.
Qed.

Lemma drop_if_invalid_valid r s m :
  managers s !! r = Some m ->
  truthy (username m) = true -> truthy (password m) || truthy (rsa_key m) = true ->
  drop_if_invalid (Some r) s = (Ok (Some r), s).
Proof.
  intros Hm Hu Hp. unfold drop_if_invalid, try_except, bind.
  rewrite (check_run _ _ _ Hm), Hu, Hp. reflexivity.
Qed.

(** What [setup] leaves, whatever its outcome. *)
Lemma setup_inv self s m o s' :
  managers s !! self = Some m ->
  SSHClientManager.setup self s = (o, s') ->
  storages s' = storages s /\ next_ref s' = next_ref s /\ log s' = log s /\
  exists c,
    (o = Ok true /\
     exists h, managers s' = <[self := SSHClientManager.set_sftp (Some h)
                                         (SSHClientManager.set_ssh (Some c) m)]> (managers s) /\
               calls s' = (calls s ++ [CallSSHClient c; CallSetPolicy c;
                                       CallConnect c (hostname m) (kwargs_of m);
                                       CallOpenSftp c])%list) \/
    (o <> Ok true /\ o <> OutOfFuel /\
     managers s' = <[self := SSHClientManager.set_ssh (Some c) m]> (managers s) /\
     exists new, calls s' = (calls s ++ CallSSHClient c :: new)%list /\
                 Forall (fun x => x = CallSetPolicy c \/
                                  x = CallConnect c (hostname m) (kwargs_of m) \/
                                  x = CallOpenSftp c) new).
Proof.
  intros Hm.
  unfold SSHClientManager.setup, SSHClientManager.set_missing_host_key_policy,
    SSHClientManager.connect, SSHClientManager.on_handle, try_except, update, deref, lib,
    raise, ret, bind.
  destruct (SSHClient_new (remote s)) as [c0 w0] eqn:Hnew. cbn.
  rewrite Hm. cbn. rewrite lookup_insert_eq. cbn.
  destruct (SSHClient_set_missing_host_key_policy c0 w0) as [[[]|e] w1]; cbn.
  2:{ intros [= <- <-]. cbn. repeat split. exists c0. right.
      split; [discriminate|]. split; [discriminate|]. rewrite ?insert_insert_eq.
      split; [reflexivity|]. exists [CallSetPolicy c0]. rewrite <- app_assoc. cbn.
      split; [reflexivity|]. repeat (apply List.Forall_cons; [auto|]); apply List.Forall_nil. }
  repeat (rewrite lookup_insert_eq; cbn).
  match goal with |- context [SSHClient_connect c0 ?a ?b ?w] =>
    destruct (SSHClient_connect c0 a b w) as [[[]|e] w2] eqn:Hcon end; cbn.
  - repeat (rewrite lookup_insert_eq; cbn).
    destruct (SSHClient_open_sftp c0 w2) as [[h|e] w3]; cbn.
    + repeat (rewrite lookup_insert_eq; cbn).
      intros [= <- <-]. cbn. repeat split. exists c0. left. split; [reflexivity|].
      exists h. rewrite !insert_insert_eq. split; [reflexivity|].
      rewrite <- !app_assoc. reflexivity.
    + destruct (is_SSHException e); cbn; intros [= <- <-]; cbn; repeat split;
        exists c0; right; (split; [discriminate|]); (split; [discriminate|]);
        rewrite ?insert_insert_eq; (split; [reflexivity|]);
        exists [CallSetPolicy c0; CallConnect c0 (hostname m) (kwargs_of m); CallOpenSftp c0];
        rewrite <- !app_assoc; cbn; (split; [reflexivity|]); repeat (apply List.Forall_cons; [auto|]); apply List.Forall_nil.
  - destruct (is_SSHException e); cbn; intros [= <- <-]; cbn; repeat split;
      exists c0; right; (split; [discriminate|]); (split; [discriminate|]);
      rewrite ?insert_insert_eq; (split; [reflexivity|]);
      exists [CallSetPolicy c0; CallConnect c0 (hostname m) (kwargs_of m)];
      rewrite <- !app_assoc; cbn; (split; [reflexivity|]); repeat (apply List.Forall_cons; [auto|]); apply List.Forall_nil.
Qed.

Lemma close_connection_total r s :
  exists b s1, SSHClientManager.close_connection r s = (Ok b, s1) /\
    forall m, managers s !! r = Some m ->
      exists m', managers s1 !! r = Some m' /\ config_reset m'.
Proof.
  destruct (managers s !! r) as [m|] eqn:Hm.
  - destruct (close_connection_cases r s m Hm) as (b & s1 & Hrun & Ht & Hf).
    exists b, s1. split; [exact Hrun|]. intros m0 [= <-].
    destruct b; [destruct (Ht eq_refl) as [_ H] | destruct (Hf eq_refl) as [_ H]];
      eexists; (split; [exact H | repeat split]).
  - exists false, s. split; [|discriminate].
    unfold SSHClientManager.close_connection, try_except, update, bind.
    rewrite Hm. reflexivity.
Qed.

(** X1: a manager that [close_connection] has been called on, whatever it
    answered, fails [check], so that [_start_connection] drops it. *)
Theorem closed_manager_fails_check (self : nat) (s s1 : state) (m : manager) (b : bool) :
  managers s !! self = Some m ->
  SSHClientManager.close_connection self s = (Ok b, s1) ->
  SSHClientManager.check self s1 = (Raise SSHClientManagerException, s1) /\
  exists s2, drop_if_invalid (Some self) s1 = (Ok None, s2).
Proof.
  intros Hm Hrun.
  destruct (close_connection_cases self s m Hm) as (b' & s' & Hrun' & Ht & Hf).
  rewrite Hrun in Hrun'. injection Hrun' as <- <-.
  assert (Hm1 : exists m1, managers s1 !! self = Some m1 /\ username m1 = PNone).
  { destruct b; [destruct (Ht eq_refl) as [_ H] | destruct (Hf eq_refl) as [_ H]];
      eexists; (split; [exact H | reflexivity]). }
  destruct Hm1 as (m1 & Hm1 & Hu).
  assert (Hcheck : SSHClientManager.check self s1 = (Raise SSHClientManagerException, s1)).
  { rewrite (check_run _ _ _ Hm1), Hu. reflexivity. }
  split; [exact Hcheck|].
  unfold drop_if_invalid, try_except, bind at 1. rewrite Hcheck. cbn.
  destruct (close_connection_cases self s1 m1 Hm1) as (b2 & s2 & Hrun2 & _).
  unfold bind. rewrite Hrun2. cbn. eauto.
Qed.

(** X2: when [setup] answers [True], the manager holds the client and
    the SFTP handle opened on it, the [sftp] accessor hands out that
    handle, and the library has been called four times: a client made,
    its host key policy set, the connection opened to the host of the
    manager with the credentials that are set, the SFTP session
    opened. *)
Theorem setup_true_sets_handles (self : nat) (s s' : state) (m : manager) :
  managers s !! self = Some m ->
  SSHClientManager.setup self s = (Ok true, s') ->
  exists c h,
    managers s' !! self = Some (SSHClientManager.set_sftp (Some h)
                                  (SSHClientManager.set_ssh (Some c) m)) /\
    SSHClientManager.sftp self s' = (Ok (Some h), s') /\
    calls s' = (calls s ++ [CallSSHClient c; CallSetPolicy c;
                            CallConnect c (hostname m) (kwargs_of m);
                            CallOpenSftp c])%list.
Proof.
  intros Hm Hrun.
  destruct (setup_inv _ _ _ _ _ Hm Hrun) as (_ & _ & _ & c & [(_ & h & Hms & Hc)|(Hne & _)]);
    [|congruence].
  exists c, h.
  assert (H : managers s' !! self = Some (SSHClientManager.set_sftp (Some h)
                                            (SSHClientManager.set_ssh (Some c) m)))
    by (rewrite Hms; apply lookup_insert_eq).
  split; [exact H|]. split; [|exact Hc].
  eapply sftp_bound; [exact H | reflexivity].
Qed.

(** X3: when [setup] does not answer [True] (it answers [False] or
    raises), the manager keeps the client that was made, which is not
    closed, and its SFTP handle is the one it had before. *)
Theorem setup_failure_keeps_client (self : nat) (s s' : state) (m : manager)
    (o : outcome bool) :
  managers s !! self = Some m ->
  SSHClientManager.setup self s = (o, s') ->
  o <> Ok true ->
  exists c m', managers s' !! self = Some m' /\
    _ssh m' = Some c /\ _sftp m' = _sftp m /\
    In (CallSSHClient c) (calls s') /\
    (forall x, In x (calls s') -> ~ In x (calls s) -> x <> CallSSHClose c) /\
    (_sftp m = Bound None -> SSHClientManager.sftp self s' = (Ok None, s')).
Proof.
  intros Hm Hrun Ho.
  destruct (setup_inv _ _ _ _ _ Hm Hrun) as (_ & _ & _ & c & [(Heq & _)|(_ & _ & Hms & new & Hc & Hnew)]);
    [congruence|].
  exists c, (SSHClientManager.set_ssh (Some c) m).
  assert (H : managers s' !! self = Some (SSHClientManager.set_ssh (Some c) m))
    by (rewrite Hms; apply lookup_insert_eq).
  split; [exact H|]. split; [reflexivity|]. split; [reflexivity|].
  split; [rewrite Hc; apply in_or_app; right; left; reflexivity|].
  split.
  - intros x Hx Hold ->. rewrite Hc in Hx. apply in_app_or in Hx as [Hx|[Hx|Hx]];
      [contradiction | discriminate |].
    rewrite List.Forall_forall in Hnew.
    destruct (Hnew _ Hx) as [G|[G|G]]; discriminate.
  - intros Hb. eapply sftp_bound; [exact H | exact Hb].
Qed.

End ManagerLife.

(** ** The connection of a single-host storage *)

Section SingleHost.
Context `{E : Env}.

Lemma set_storages_same self s st r :
  storages s !! self = Some st -> _ssh_client_manager st = r ->
  set_storages (<[self := set_ssh_client_manager r st]> (storages s)) s = s.
Proof.
  intros Hst Hr.
  assert (set_ssh_client_manager r st = st) as -> by (destruct st; cbn in *; subst; reflexivity).
  rewrite insert_id by exact Hst. destruct s; reflexivity.
Qed.

Lemma start_connection_single self s st :
  storages s !! self = Some st -> cls st <> MultipleSSHStorages ->
  _start_connection self s = SSHStorage__start_connection self s.
Proof.
  intros Hst Hc. unfold _start_connection.
  rewrite (bind_Ok _ _ _ _ _ (deref_storage_Some _ _ _ Hst)).
  destruct (cls st); [reflexivity | contradiction | reflexivity | reflexivity].
Qed.

(** A manager that passes [check] is kept as it is. *)
Lemma start_connection_valid self s st r m :
  storages s !! self = Some st -> cls st <> MultipleSSHStorages ->
  _ssh_client_manager st = Some r ->
  managers s !! r = Some m ->
  truthy (username m) = true -> truthy (password m) || truthy (rsa_key m) = true ->
  _start_connection self s = (Ok tt, s).
Proof.
  intros Hst Hc Hr Hm Hu Hp.
  rewrite (start_connection_single _ _ _ Hst Hc). unfold SSHStorage__start_connection.
  rewrite (bind_Ok _ _ _ _ _ (deref_storage_Some _ _ _ Hst)), Hr.
  rewrite (bind_Ok _ _ _ _ _ (drop_if_invalid_valid _ _ _ Hm Hu Hp)).
  rewrite (bind_Ok _ _ _ _ _ (update_storage_run _ _ _ _ Hst)).
  rewrite (set_storages_same _ _ _ _ Hst Hr).
  rewrite (bind_Ok _ _ _ _ _ (deref_storage_Some _ _ _ Hst)), Hr. reflexivity.
Qed.

(** X4: [_start_connection] keeps the manager of a single-host storage
    when the manager has a user name and a password or a key file: it
    returns at once and leaves the state as it is, without a call to the
    library, whether or not the manager holds a client or an SFTP
    handle. *)
Theorem start_connection_keeps_manager
    (self : nat) (s : state) (st : storage) (r : nat) (m : manager) :
  storages s !! self = Some st -> cls st <> MultipleSSHStorages ->
  _ssh_client_manager st = Some r ->
  managers s !! r = Some m ->
  truthy (username m) = true -> truthy (password m) || truthy (rsa_key m) = true ->
  _start_connection self s = (Ok tt, s) /\
  ssh_client_manager self s = (Ok (Some r), s).
Proof.
  intros Hst Hc Hr Hm Hu Hp.
  split; [exact (start_connection_valid _ _ _ _ _ Hst Hc Hr Hm Hu Hp)|].
  unfold ssh_client_manager.
  rewrite (bind_Ok _ _ _ _ _ (deref_storage_Some _ _ _ Hst)), Hr.
  rewrite (bind_Ok _ _ s tt s) by reflexivity.
  rewrite (bind_Ok _ _ _ _ _ (deref_storage_Some _ _ _ Hst)), Hr. reflexivity.
Qed.

Lemma remote_path_run self s st b name :
  storages s !! self = Some st -> _config st !! "basepath" = Some (PStr b) ->
  _remote_path self name s = (Ok (posixpath.join b [name]), s).
Proof.
  intros Hst Hb. unfold _remote_path.
  rewrite (bind_Ok _ _ _ _ _ (deref_storage_Some _ _ _ Hst)).
  rewrite (bind_Ok _ _ _ _ _ (getitem_Some _ _ _ _ Hb)). reflexivity.
Qed.

Lemma ssh_client_manager_set self s st r :
  storages s !! self = Some st -> _ssh_client_manager st = Some r ->
  ssh_client_manager self s = (Ok (Some r), s).
Proof.
  intros Hst Hr. unfold ssh_client_manager.
  rewrite (bind_Ok _ _ _ _ _ (deref_storage_Some _ _ _ Hst)), Hr.
  rewrite (bind_Ok _ _ s tt s) by reflexivity.
  rewrite (bind_Ok _ _ _ _ _ (deref_storage_Some _ _ _ Hst)), Hr. reflexivity.
Qed.

Lemma exists_single self s st name :
  storages s !! self = Some st -> cls st <> MultipleSSHStorages ->
  exists_ self name s = SSHStorage_exists self name s.
Proof.
  intros Hst Hc. unfold exists_.
  rewrite (bind_Ok _ _ _ _ _ (deref_storage_Some _ _ _ Hst)).
  destruct (cls st); [reflexivity | contradiction | reflexivity | reflexivity].
Qed.

(** A storage whose manager holds no SFTP handle. *)
Lemma stale_manager self s1 st st1 r m bp :
  storages s1 !! self = Some st1 -> cls st <> MultipleSSHStorages ->
  st1 = set_ssh_client_manager (Some r) st ->
  managers s1 !! r = Some m -> _sftp m = Bound None ->
  truthy (username m) = true -> truthy (password m) || truthy (rsa_key m) = true ->
  _config st !! "basepath" = Some bp ->
  exists r m,
    storages s1 !! self = Some (set_ssh_client_manager (Some r) st) /\
    managers s1 !! r = Some m /\ _sftp m = Bound None /\
    _start_connection self s1 = (Ok tt, s1) /\
    forall b name, bp = PStr b ->
      exists_ self name s1
      = (Raise (AttributeError "'NoneType' object has no attribute 'stat'"), s1).
Proof.
  intros Hst Hc -> Hm Hsftp Hu Hp Hb.
  exists r, m. split; [exact Hst|]. split; [exact Hm|]. split; [exact Hsftp|].
  split.
  - eapply start_connection_valid; [exact Hst | exact Hc | reflexivity | exact Hm | exact Hu | exact Hp].
  - intros b name ->.
    rewrite (exists_single _ _ _ _ Hst Hc). unfold SSHStorage_exists.
    rewrite (bind_Ok _ _ _ _ _ (remote_path_run _ _ _ _ _ Hst Hb)).
    unfold try_except.
    rewrite (bind_Ok _ _ _ _ _ (ssh_client_manager_set _ _ _ _ Hst eq_refl)).
    assert (Hstat : manager_stat (Some r) (posixpath.join b [name]) s1
                    = (Raise (AttributeError "'NoneType' object has no attribute 'stat'"), s1)).
    { unfold manager_stat, on_manager.
      rewrite (bind_Ok _ _ _ _ _ (sftp_bound _ _ _ _ Hm Hsftp)). reflexivity. }
    rewrite (bind_Raise _ _ _ _ _ Hstat). reflexivity.
Qed.

(** X5: a connection that fails is not tried again.  When
    [_start_connection] raises on a single-host storage that had no
    manager, the storage is left with the manager whose [setup] failed,
    which holds no SFTP handle; with a user name and a password or a key
    file set, the next [_start_connection] returns without a call to the
    library, and [exists] raises [AttributeError]. *)
Theorem failed_connection_not_retried
    (self : nat) (s s1 : state) (st : storage) (e : exn)
    (hn un bp pw key prt : pyval) :
  storages s !! self = Some st -> cls st <> MultipleSSHStorages ->
  _ssh_client_manager st = None ->
  _config st !! "hostname" = Some hn -> _config st !! "username" = Some un ->
  _config st !! "basepath" = Some bp -> _config st !! "password" = Some pw ->
  _config st !! "rsa_key" = Some key -> _config st !! "port" = Some prt ->
  truthy un = true -> truthy pw || truthy key = true ->
  _start_connection self s = (Raise e, s1) ->
  exists r m,
    storages s1 !! self = Some (set_ssh_client_manager (Some r) st) /\
    managers s1 !! r = Some m /\ _sftp m = Bound None /\
    _start_connection self s1 = (Ok tt, s1) /\
    forall b name, bp = PStr b ->
      exists_ self name s1
      = (Raise (AttributeError "'NoneType' object has no attribute 'stat'"), s1).
Proof.
  intros Hst Hc Hnone L1 L2 L3 L4 L5 L6 Hu Hp.
  rewrite (start_connection_single _ _ _ Hst Hc). unfold SSHStorage__start_connection.
  rewrite (bind_Ok _ _ _ _ _ (deref_storage_Some _ _ _ Hst)), Hnone.
  cbn [drop_if_invalid]. rewrite (bind_Ok _ _ s None s) by reflexivity.
  rewrite (bind_Ok _ _ _ _ _ (update_storage_run _ _ _ _ Hst)).
  rewrite (set_storages_same _ _ _ _ Hst Hnone).
  rewrite (bind_Ok _ _ _ _ _ (deref_storage_Some _ _ _ Hst)), Hnone.
  rewrite (bind_Ok _ _ _ _ _ (getitem_Some _ _ _ _ L1)).
  rewrite (bind_Ok _ _ _ _ _ (getitem_Some _ _ _ _ L2)).
  rewrite (bind_Ok _ _ _ _ _ (getitem_Some _ _ _ _ L3)).
  rewrite (bind_Ok _ _ _ _ _ (getitem_Some _ _ _ _ L4)).
  rewrite (bind_Ok _ _ _ _ _ (getitem_Some _ _ _ _ L5)).
  rewrite (bind_Ok _ _ _ _ _ (getitem_Some _ _ _ _ L6)).
  match goal with |- context [bind (SSHClientManager.__init__ ?a ?b ?d ?e ?f ?g) _ ?t] =>
    rewrite (bind_Ok _ _ t _ _ (eq_refl (SSHClientManager.__init__ a b d e f g t))) end.
  match goal with |- context [bind (update_storage self ?f) _ ?t] =>
    rewrite (bind_Ok _ _ t tt _ (update_storage_run self f t st ltac:(exact Hst))) end.
  match goal with |- context [bind (SSHClientManager.setup ?r) _ ?t] =>
    pose proof (fun o s' => setup_inv r t _ o s' ltac:(cbn; apply lookup_insert_eq)) as Hsetup;
    unfold bind at 1; destruct (SSHClientManager.setup r t) as [[b|e'|] s4] eqn:Hrun end.
  - destruct (Hsetup _ _ eq_refl) as (Hs & _ & _ & c & Hcase).
    destruct b; cbn [negb]; [discriminate|].
    destruct Hcase as [(Heq & _)|(_ & _ & Hms & _)]; [discriminate|].
    unfold connection_error, logger, raise, bind. intros [= <- <-].
    eapply stale_manager;
      [ cbn; rewrite Hs; cbn; apply lookup_insert_eq | exact Hc | reflexivity
      | cbn; rewrite Hms; apply lookup_insert_eq | reflexivity | exact Hu | exact Hp | exact L3 ].
  - destruct (Hsetup _ _ eq_refl) as (Hs & _ & _ & c & Hcase).
    destruct Hcase as [(Heq & _)|(_ & _ & Hms & _)]; [discriminate|].
    intros [= <- <-].
    eapply stale_manager;
      [ rewrite Hs; cbn; apply lookup_insert_eq | exact Hc | reflexivity
      | rewrite Hms; apply lookup_insert_eq | reflexivity | exact Hu | exact Hp | exact L3 ].
  - discriminate.
Qed.

(** X6: [exists] on a single-host storage whose manager holds an SFTP
    handle makes one call, [stat] on the name joined to the base path;
    it answers [True] when [stat] answers, [False] when [stat] raises
    [IOError], and lets any other exception through. *)
Theorem exists_single_host
    (self : nat) (name : string) (s : state) (st : storage) (r : nat) (m : manager)
    (h : sftp_client) (b : string) :
  storages s !! self = Some st -> cls st <> MultipleSSHStorages ->
  _ssh_client_manager st = Some r ->
  managers s !! r = Some m -> _sftp m = Bound (Some h) ->
  _config st !! "basepath" = Some (PStr b) ->
  exists_ self name s
  = (match SFTP_stat h (posixpath.join b [name]) (remote s) with
     | Reply _ => Ok true
     | Throw e => if is_IOError e then Ok false else Raise e
     end, add_call (CallStat h (posixpath.join b [name])) s).
Proof.
  intros Hst Hc Hr Hm Hh Hb.
  rewrite (exists_single _ _ _ _ Hst Hc). unfold SSHStorage_exists.
  rewrite (bind_Ok _ _ _ _ _ (remote_path_run _ _ _ _ _ Hst Hb)).
  unfold try_except.
  rewrite (bind_Ok _ _ _ _ _ (ssh_client_manager_set _ _ _ _ Hst Hr)).
  unfold bind. rewrite (manager_stat_run _ _ _ _ _ Hm Hh).
  destruct (SFTP_stat h (posixpath.join b [name]) (remote s)) as [a|e]; [reflexivity|].
  destruct (is_IOError e); reflexivity.
Qed.



Lemma close_connection_storages r s o s' :
  SSHClientManager.close_connection r s = (o, s') -> storages s' = storages s.
Proof.
  unfold SSHClientManager.close_connection, SSHClientManager.get_sftp,
    SSHClientManager.on_handle, try_except, update, deref, lib, raise, ret, bind.
  destruct (managers s !! r) as [m|]; cbn; [|intros [= _ <-]; reflexivity].
  rewrite lookup_insert_eq. cbn.
  destruct (_sftp m) as [|[h|]]; cbn; try (intros [= _ <-]; reflexivity).
  destruct (SFTP_close h (remote s)) as [[[]|e] w1]; cbn; [|intros [= _ <-]; reflexivity].
  rewrite lookup_insert_eq. cbn.
  destruct (_ssh m) as [c|]; cbn; [|intros [= _ <-]; reflexivity].
  destruct (SSHClient_close c w1) as [[[]|e] w2]; cbn; [|intros [= _ <-]; reflexivity].
  repeat (rewrite lookup_insert_eq; cbn). intros [= _ <-]. reflexivity.
Qed.

(** X8: [disconnect] on a storage does not raise, whatever closing the
    connection does; afterwards the storage has no manager, the manager
    it had has its configuration fields reset, and a second [disconnect]
    changes nothing. *)
Theorem disconnect_drops_manager (self : nat) (s : state) (st : storage) :
  storages s !! self = Some st ->
  exists s',
    disconnect self s = (Ok tt, s') /\
    storages s' !! self = Some (set_ssh_client_manager None st) /\
    disconnect self s' = (Ok tt, s') /\
    forall r m, _ssh_client_manager st = Some r -> managers s !! r = Some m ->
      exists m', managers s' !! r = Some m' /\ config_reset m'.
Proof.
  intros Hst. unfold disconnect at 1.
  rewrite (bind_Ok _ _ _ _ _ (deref_storage_Some _ _ _ Hst)).
  assert (Hagain : forall s', storages s' !! self = Some (set_ssh_client_manager None st) ->
            disconnect self s' = (Ok tt, s')).
  { intros s' H. unfold disconnect.
    rewrite (bind_Ok _ _ _ _ _ (deref_storage_Some _ _ _ H)). reflexivity. }
  destruct (_ssh_client_manager st) as [r|] eqn:Hr.
  - destruct (close_connection_total r s) as (b & s1 & Hrun & Hm').
    pose proof (close_connection_storages _ _ _ _ Hrun) as Hs.
    rewrite (bind_Ok _ _ _ _ _ Hrun).
    rewrite (update_storage_run self _ s1 st) by (rewrite Hs; exact Hst).
    eexists. split; [reflexivity|].
    assert (H : storages (set_storages (<[self := set_ssh_client_manager None st]> (storages s1)) s1)
                !! self = Some (set_ssh_client_manager None st)) by (cbn; apply lookup_insert_eq).
    split; [exact H|]. split; [exact (Hagain _ H)|].
    intros r0 m [= <-] Hm. destruct (Hm' m Hm) as (m' & Hm1 & Hreset).
    exists m'. split; [exact Hm1 | exact Hreset].
  - exists s. split; [reflexivity|].
    assert (H : storages s !! self = Some (set_ssh_client_manager None st)).
    { rewrite Hst. f_equal. destruct st; cbn in *; subst; reflexivity. }
    split; [exact H|]. split; [exact (Hagain _ H)|]. intros r m [=].
Qed.

End SingleHost.

(** ** The coordinator: its dict of managers and its connections *)

Section Coordinator2.
Context `{E : Env}.

Lemma dict_set_keys {V} k (v : V) d :
  map fst (dict_set k v d)
  = if bool_decide (k ∈ map fst d) then map fst d else (map fst d ++ [k])%list.
Proof.
  induction d as [|[k' v'] d IH]; cbn; [reflexivity|].
  destruct (String.eqb k' k) eqn:Hk.
  - apply String.eqb_eq in Hk as ->. cbn.
    rewrite bool_decide_eq_true_2 by (left). reflexivity.
  - apply String.eqb_neq in Hk. cbn. rewrite IH.
    destruct (bool_decide (k ∈ map fst d)) eqn:Hin.
    + apply bool_decide_eq_true_1 in Hin.
      rewrite bool_decide_eq_true_2 by (right; exact Hin). reflexivity.
    + apply bool_decide_eq_false_1 in Hin.
      rewrite bool_decide_eq_false_2; [reflexivity|].
      intros [->|H]%elem_of_cons; [congruence | contradiction].
Qed.

Lemma dict_set_values {V} (P : V -> Prop) k (v : V) d :
  P v -> Forall (fun e => P (snd e)) d -> Forall (fun e => P (snd e)) (dict_set k v d).
Proof.
  intros Hv. induction 1 as [|[k' v'] d Hx Hd IH]; cbn.
  - repeat constructor. exact Hv.
  - destruct (String.eqb k' k); constructor; auto.
Qed.

Lemma dict_set_NoDup {V} k (v : V) d :
  NoDup (map fst d) -> NoDup (map fst (dict_set k v d)).
Proof.
  intros Hd. rewrite dict_set_keys.
  destruct (bool_decide (k ∈ map fst d)) eqn:Hin; [exact Hd|].
  apply bool_decide_eq_false_1 in Hin.
  apply NoDup_app. split; [exact Hd|]. split.
  - intros x Hx [->|H]%elem_of_cons; [contradiction|]. inversion H.
  - apply NoDup_singleton.
Qed.

(** Replacing the value of a key that is in the dict. *)
Lemma dict_set_middle {V} k (v v0 : V) done rest :
  k ∉ map fst done ->
  dict_set k v (done ++ (k, v0) :: rest) = (done ++ (k, v) :: rest)%list.
Proof.
  induction done as [|[k' v'] done IH]; cbn; intros Hk.
  - rewrite String.eqb_refl. reflexivity.
  - destruct (String.eqb k' k) eqn:Hkk.
    + apply String.eqb_eq in Hkk as ->. exfalso. apply Hk. left.
    + rewrite IH; [reflexivity|]. intros H. apply Hk. right. exact H.
Qed.

Lemma hosts_dict_spec hosts : forall d,
  NoDup (map fst d) -> Forall (fun e => snd e = None) d ->
  NoDup (map fst (hosts_dict hosts d)) /\
  Forall (fun e => snd e = None) (hosts_dict hosts d) /\
  forall k, k ∈ map fst (hosts_dict hosts d) <-> k ∈ map fst d \/ k ∈ hosts.
Proof.
  induction hosts as [|h hosts IH]; intros d Hd Hn; cbn.
  - split; [exact Hd|]. split; [exact Hn|]. intros k. split; [auto|].
    intros [H|H]; [exact H | inversion H].
  - destruct (IH (dict_set h None d)) as (H1 & H2 & H3).
    + apply dict_set_NoDup, Hd.
    + apply (dict_set_values (fun v => v = None)); [reflexivity | exact Hn].
    + split; [exact H1|]. split; [exact H2|]. intros k. rewrite H3.
      rewrite dict_set_keys. destruct (bool_decide (h ∈ map fst d)) eqn:Hin.
      * apply bool_decide_eq_true_1 in Hin. rewrite elem_of_cons.
        split; [tauto|]. intros [H|[->|H]]; auto.
      * rewrite elem_of_app, list_elem_of_singleton, elem_of_cons. tauto.
Qed.

(** The hosts loop of [MultipleSSHStorages.__init__], in full. *)
Lemma init_hosts_loop_exact self hosts : forall s u s' st,
  for_each hosts (fun host =>
    update_storage self (fun st =>
      set_ssh_client_managers (dict_set host None (_ssh_client_managers st)) st)) s
  = (Ok u, s') ->
  storages s !! self = Some st ->
  storages s' !! self
  = Some (set_ssh_client_managers (hosts_dict hosts (_ssh_client_managers st)) st).
Proof.
  induction hosts as [|host hosts IH]; intros s u s' st H Hst.
  - injection H as _ <-. rewrite Hst. f_equal. destruct st; reflexivity.
  - cbn [for_each] in H. apply bind_inv_Ok in H as (? & t & H1 & H).
    rewrite (update_storage_run _ _ _ _ Hst) in H1. injection H1 as _ <-.
    rewrite (IH _ _ _ (set_ssh_client_managers (dict_set host None (_ssh_client_managers st)) st) H);
      [reflexivity|]. cbn. apply lookup_insert_eq.
Qed.

Lemma py_iter_inv v s hs t : py_iter v s = (Ok hs, t) -> t = s.
Proof. destruct v; cbn; try discriminate; intros [= _ <-]; reflexivity. Qed.

(** X9: a coordinator that has been constructed holds a dict with one
    entry for each of the elements of [HOSTNAMES], each host once, and
    every entry [None]; the elements of a list are its items, the
    elements of a string its characters.  It has no manager of its own,
    its [hostname] is ['localhost'], and nothing has been called. *)
Theorem coordinator_dict_of_hosts
    (cfg : settings) (location : gmap string pyval) (s s' : state) (self : nat) :
  construct MultipleSSHStorages cfg location s = (Ok self, s') ->
  exists st hostnames hs,
    storages s' !! self = Some st /\ cls st = MultipleSSHStorages /\
    _ssh_client_manager st = None /\
    location !! "HOSTNAMES" = Some hostnames /\
    py_iter hostnames s = (Ok hs, s) /\
    _ssh_client_managers st = hosts_dict hs [] /\
    NoDup (map fst (_ssh_client_managers st)) /\
    Forall (fun e => snd e = None) (_ssh_client_managers st) /\
    (forall k, k ∈ map fst (_ssh_client_managers st) <-> k ∈ hs) /\
    _config st !! "hostname" = Some (PStr "localhost") /\
    _config st !! "hostnames" = Some hostnames /\
    calls s' = calls s /\ managers s' = managers s.
Proof.
  cbn [construct]. unfold MultipleSSHStorages___init__. intros H.
  apply bind_inv_Ok in H as (r & t & H1 & H).
  apply init_inv in H1 as (config & Hdec & -> & ->).
  cbn [_decode_location] in Hdec.
  apply decode_multiple_Ok in Hdec as (_ & c0 & hosts & Hd & Hhosts & ->).
  apply bind_inv_Ok in H as (? & t & H1 & H).
  apply update_storage_inv in H1 as (st0 & Hst0 & ->).
  cbn in Hst0. rewrite lookup_insert_eq in Hst0. injection Hst0 as <-.
  apply bind_inv_Ok in H as (st1 & t & H1 & H).
  apply deref_storage_inv in H1 as [Hst1 ->].
  apply bind_inv_Ok in H as (v & t & H1 & H). apply getitem_inv in H1 as [Hv ->].
  apply bind_inv_Ok in H as (hs & t & H1 & H).
  pose proof (py_iter_inv _ _ _ _ H1) as ->.
  apply bind_inv_Ok in H as (? & t & H2 & H). injection H as <- <-.
  pose proof (init_hosts_loop_exact _ _ _ _ _ _ H2 Hst1) as Hs'.
  destruct (init_hosts_loop _ _ _ _ _ H2 _ Hst1) as (_ & _ & Hm & Hc & _).
  cbn in Hst1. rewrite lookup_insert_eq in Hst1. injection Hst1 as <-.
  cbn in Hv. rewrite lookup_insert_eq in Hv. injection Hv as <-.
  destruct (hosts_dict_spec hs []) as (N1 & N2 & N3); [constructor | constructor |].
  eexists _, hosts, hs. split; [exact Hs'|]. cbn.
  split; [reflexivity|]. split; [reflexivity|]. split; [exact Hhosts|].
  split; [destruct hosts; cbn in H1 |- *; try discriminate; injection H1 as <-; reflexivity|].
  split; [reflexivity|]. split; [exact N1|]. split; [exact N2|].
  split; [intros k; rewrite N3; cbn; split; [intros [G|G]; [inversion G | exact G] | auto]|].
  split.
  - destruct Hd as [(hn & un & bp & proto & pw & key & prt & spp & sph & spport & -> & Hh & _)].
    rewrite lookup_insert_eq in Hh. injection Hh as <-. simplify_map_eq. reflexivity.
  - split; [apply lookup_insert_eq|]. split; [exact Hc | exact Hm].
Qed.

Lemma for_each_ext {A} (l : list A) (f g : A -> M unit) :
  (forall x s, f x s = g x s) -> forall s, for_each l f s = for_each l g s.
Proof.
  intros Hfg. induction l as [|x l IH]; intros s; cbn [for_each]; [reflexivity|].
  unfold bind. rewrite Hfg. destruct (g x s) as [[[]|e|] s1]; [apply IH | reflexivity | reflexivity].
Qed.

Lemma multi_start_unfold self s st :
  storages s !! self = Some st ->
  MultipleSSHStorages__start_connection self s
  = for_each (_ssh_client_managers st) (fun e =>
      bind (drop_if_invalid (snd e)) (fun kept =>
        match kept with
        | None => connect_host self (fst e)
        | Some _ => ret tt
        end)) s.
Proof.
  intros Hst. unfold MultipleSSHStorages__start_connection.
  rewrite (bind_Ok _ _ _ _ _ (deref_storage_Some _ _ _ Hst)).
  apply for_each_ext. intros [host manager] t. reflexivity.
Qed.

(** A host that has been connected. *)
Lemma connect_host_inv self host t s1 st :
  storages t !! self = Some st ->
  connect_host self host t = (Ok tt, s1) ->
  exists m h,
    managers s1 !! next_ref t = Some m /\ _sftp m = Bound (Some h) /\
    hostname m = PStr host /\
    (forall r, r <> next_ref t -> managers s1 !! r = managers t !! r) /\
    storages s1 = <[self := set_ssh_client_managers
                              (dict_set host (Some (next_ref t)) (_ssh_client_managers st)) st]>
                    (storages t) /\
    next_ref s1 = S (next_ref t).
Proof.
  intros Hst H. unfold connect_host in H.
  apply bind_inv_Ok in H as (st' & t0 & H1 & H).
  apply deref_storage_inv in H1 as [Hst' ->]. rewrite Hst in Hst'. injection Hst' as <-.
  apply bind_inv_Ok in H as (un & t0 & H1 & H). apply getitem_inv in H1 as [_ ->].
  apply bind_inv_Ok in H as (bp & t0 & H1 & H). apply getitem_inv in H1 as [_ ->].
  apply bind_inv_Ok in H as (pw & t0 & H1 & H). apply getitem_inv in H1 as [_ ->].
  apply bind_inv_Ok in H as (key & t0 & H1 & H). apply getitem_inv in H1 as [_ ->].
  apply bind_inv_Ok in H as (prt & t0 & H1 & H). apply getitem_inv in H1 as [_ ->].
  apply bind_inv_Ok in H as (r & t0 & H1 & H).
  unfold SSHClientManager.__init__, new_manager in H1. injection H1 as <- <-.
  apply bind_inv_Ok in H as (b & t2 & H1 & H).
  eapply setup_inv in H1 as (Hs & Hn & _ & c & Hcase); [|cbn; apply lookup_insert_eq].
  destruct Hcase as [(Hb & h & Hms & _)|(Hne & _)].
  2:{ destruct b; [congruence|]. cbn in H. unfold connection_error, logger, raise, bind in H.
      discriminate. }
  injection Hb as ->. cbn [negb] in H. apply update_storage_inv in H as (st2 & Hst2 & ->).
  rewrite Hs in Hst2. cbn in Hst2. rewrite Hst in Hst2. injection Hst2 as <-.
  eexists _, h. cbn. rewrite Hms. rewrite lookup_insert_eq.
  split; [reflexivity|]. split; [reflexivity|]. split; [reflexivity|].
  split; [|split; [rewrite Hs; reflexivity | rewrite Hn; reflexivity]].
  intros r Hr. cbn. rewrite !lookup_insert_ne by congruence. reflexivity.
Qed.

Lemma connected_app s ms1 hs1 ms2 hs2 :
  connected s ms1 hs1 -> connected s ms2 hs2 -> connected s (ms1 ++ ms2) (hs1 ++ hs2).
Proof. unfold connected. apply Forall2_app. Qed.

(** The loop of the coordinator's [_start_connection] over hosts that
    have no manager yet. *)
Lemma multi_loop_connects self st0 : forall rest done hs s s',
  storages s !! self = Some (set_ssh_client_managers (done ++ rest) st0) ->
  Forall (fun e => snd e = None) rest ->
  NoDup (map fst (done ++ rest)) ->
  Forall2 (fun e h => exists r m, snd e = Some r /\ managers s !! r = Some m /\
                                  _sftp m = Bound (Some h) /\ hostname m = PStr (fst e) /\
                                  r < next_ref s) done hs ->
  for_each rest (fun e =>
      bind (drop_if_invalid (snd e)) (fun kept =>
        match kept with
        | None => connect_host self (fst e)
        | Some _ => ret tt
        end)) s = (Ok tt, s') ->
  exists ms hs',
    storages s' !! self = Some (set_ssh_client_managers ms st0) /\
    Forall2 (fun e h => exists r m, snd e = Some r /\ managers s' !! r = Some m /\
                                    _sftp m = Bound (Some h) /\ hostname m = PStr (fst e) /\
                                    r < next_ref s') ms hs' /\
    map fst ms = map fst (done ++ rest).
Proof.
  induction rest as [|[host v] rest IH]; intros done hs s s' Hst Hnone Hnd Hcon H.
  - injection H as <-. rewrite app_nil_r in *. exists done, hs. auto.
  - cbn [for_each] in H. apply bind_inv_Ok in H as ([] & s1 & H1 & H).
    inversion Hnone as [|? ? Hv Hnone']; subst. cbn in Hv. subst v.
    cbn [snd fst drop_if_invalid] in H1.
    rewrite (bind_Ok _ _ s None s) in H1 by reflexivity.
    destruct (connect_host_inv _ _ _ _ _ Hst H1) as (m & h & Hm & Hh & Hhost & Hother & Hs1 & Hn1).
    cbn [_ssh_client_managers set_ssh_client_managers] in Hs1.
    assert (Hfresh : host ∉ map fst done).
    { rewrite map_app in Hnd. apply NoDup_app in Hnd as (_ & Hd & _).
      intros Hin. apply (Hd _ Hin). left. }
    rewrite (dict_set_middle _ _ _ _ _ Hfresh) in Hs1.
    destruct (IH (done ++ [(host, Some (next_ref s))])%list (hs ++ [h])%list s1 s') as (ms & hs' & R1 & R2 & R3).
    + rewrite Hs1, lookup_insert_eq. cbn. rewrite <- app_assoc. reflexivity.
    + exact Hnone'.
    + rewrite <- app_assoc. cbn. rewrite !map_app in *. exact Hnd.
    + apply Forall2_app.
      * eapply Forall2_impl; [exact Hcon|].
        intros e h0 (r & m0 & Hr & Hm0 & Hh0 & Hn0 & Hlt).
        exists r, m0. split; [exact Hr|]. split; [|split; [exact Hh0|split; [exact Hn0 | lia]]].
        rewrite Hother; [exact Hm0 | lia].
      * constructor; [|constructor]. exists (next_ref s), m. cbn.
        split; [reflexivity|]. split; [exact Hm|]. split; [exact Hh|]. split; [exact Hhost | lia].
    + exact H.
    + exists ms, hs'. split; [exact R1|]. split; [exact R2|].
      rewrite R3, <- app_assoc, !map_app. reflexivity.
Qed.

Lemma start_connection_multi self s st :
  storages s !! self = Some st -> cls st = MultipleSSHStorages ->
  _start_connection self s = MultipleSSHStorages__start_connection self s.
Proof.
  intros Hst Hc. unfold _start_connection.
  rewrite (bind_Ok _ _ _ _ _ (deref_storage_Some _ _ _ Hst)), Hc. reflexivity.
Qed.

(** X10: when [_start_connection] returns on a coordinator none of whose
    hosts has a manager yet, every host of the dict has a manager that
    holds an SFTP handle and was made for that host; the hosts of the
    dict and the configuration are as before, and the coordinator still
    has no manager of its own. *)
Theorem coordinator_connects_every_host (self : nat) (s s' : state) (st : storage) :
  storages s !! self = Some st -> cls st = MultipleSSHStorages ->
  Forall (fun e => snd e = None) (_ssh_client_managers st) ->
  NoDup (map fst (_ssh_client_managers st)) ->
  _start_connection self s = (Ok tt, s') ->
  exists ms hs,
    storages s' !! self = Some (set_ssh_client_managers ms st) /\
    map fst ms = map fst (_ssh_client_managers st) /\
    connected s' ms hs /\
    Forall (fun e => exists r m, snd e = Some r /\ managers s' !! r = Some m /\
                                 hostname m = PStr (fst e)) ms.
Proof.
  intros Hst Hc Hnone Hnd H.
  rewrite (start_connection_multi _ _ _ Hst Hc), (multi_start_unfold _ _ _ Hst) in H.
  destruct (multi_loop_connects self st (_ssh_client_managers st) [] [] s s')
    as (ms & hs & R1 & R2 & R3); [| exact Hnone | exact Hnd | constructor | exact H |].
  - rewrite Hst. f_equal. destruct st; reflexivity.
  - exists ms, hs. split; [exact R1|]. split; [exact R3|]. split.
    + unfold connected. eapply Forall2_impl; [exact R2|].
      intros e h (r & m & Hr & Hm & Hh & _). exists r, m. auto.
    + clear -R2. induction R2 as [|e h ms hs (r & m & Hr & Hm & _ & Hn & _) _ IH];
        constructor; [exists r, m; auto | exact IH].
Qed.

Lemma drop_if_invalid_storages v s o s' :
  drop_if_invalid v s = (o, s') -> storages s' = storages s.
Proof.
  destruct v as [r|]; cbn; [|intros [= _ <-]; reflexivity].
  unfold try_except, bind at 1.
  unfold SSHClientManager.check, bind at 1, deref.
  destruct (managers s !! r) as [m|]; cbn.
  - destruct (negb (truthy (username m))); cbn;
      [| destruct (negb (truthy (password m)) && negb (truthy (rsa_key m))); cbn;
         [| intros [= _ <-]; reflexivity]];
      unfold bind, try_except;
      destruct (SSHClientManager.close_connection r s) as [[b|e|] s1] eqn:Hrun;
      pose proof (close_connection_storages _ _ _ _ Hrun) as Hs; cbn;
      intros [= _ <-]; exact Hs.
  - unfold bind, try_except.
    destruct (SSHClientManager.close_connection r s) as [[b|e|] s1] eqn:Hrun;
      pose proof (close_connection_storages _ _ _ _ Hrun) as Hs; cbn;
      intros [= _ <-]; exact Hs.
Qed.

(** Whatever its hosts, a [_start_connection] of the coordinator that
    returns has rewritten the dict of managers and nothing else of the
    coordinator. *)
Lemma multi_loop_frame self : forall entries s s' st,
  storages s !! self = Some st ->
  for_each entries (fun e =>
      bind (drop_if_invalid (snd e)) (fun kept =>
        match kept with
        | None => connect_host self (fst e)
        | Some _ => ret tt
        end)) s = (Ok tt, s') ->
  exists ms, storages s' !! self = Some (set_ssh_client_managers ms st).
Proof.
  induction entries as [|[host v] entries IH]; intros s s' st Hst H.
  - injection H as <-. exists (_ssh_client_managers st). rewrite Hst. f_equal.
    destruct st; reflexivity.
  - cbn [for_each] in H. apply bind_inv_Ok in H as ([] & s1 & H1 & H).
    apply bind_inv_Ok in H1 as (kept & t & H0 & H1).
    pose proof (drop_if_invalid_storages _ _ _ _ H0) as Ht.
    destruct kept as [r|].
    + injection H1 as <-. apply (IH t s' st); [rewrite Ht; exact Hst | exact H].
    + cbn [fst] in H1.
      assert (Hst' : storages t !! self = Some st) by (rewrite Ht; exact Hst).
      destruct (connect_host_inv _ _ _ _ _ Hst' H1) as (_ & _ & _ & _ & _ & _ & Hs1 & _).
      destruct (IH s1 s' (set_ssh_client_managers
                 (dict_set host (Some (next_ref t)) (_ssh_client_managers st)) st))
        as (ms & Hms); [rewrite Hs1; apply lookup_insert_eq | exact H |].
      exists ms. exact Hms.
Qed.

Lemma multi_start_keeps_none self s s' st :
  storages s !! self = Some st -> cls st = MultipleSSHStorages ->
  _start_connection self s = (Ok tt, s') ->
  exists ms, storages s' !! self = Some (set_ssh_client_managers ms st).
Proof.
  intros Hst Hc H.
  rewrite (start_connection_multi _ _ _ Hst Hc), (multi_start_unfold _ _ _ Hst) in H.
  exact (multi_loop_frame _ _ _ _ _ Hst H).
Qed.

(** The [ssh_client_manager] property of a coordinator. *)
Lemma coordinator_manager_none self s st :
  storages s !! self = Some st -> cls st = MultipleSSHStorages ->
  _ssh_client_manager st = None ->
  forall o s', ssh_client_manager self s = (o, s') ->
    (o = Ok None /\ _start_connection self s = (Ok tt, s')) \/
    (exists e, o = Raise e /\ _start_connection self s = (Raise e, s')) \/
    (o = OutOfFuel /\ _start_connection self s = (OutOfFuel, s')).
Proof.
  intros Hst Hc Hnone o s'. unfold ssh_client_manager.
  rewrite (bind_Ok _ _ _ _ _ (deref_storage_Some _ _ _ Hst)), Hnone.
  unfold bind at 1.
  destruct (_start_connection self s) as [[[]|e|] s1] eqn:Hrun.
  - destruct (multi_start_keeps_none _ _ _ _ Hst Hc Hrun) as (ms & Hms).
    rewrite (bind_Ok _ _ _ _ _ (deref_storage_Some _ _ _ Hms)). cbn. rewrite Hnone.
    intros [= <- <-]. left. auto.
  - intros [= <- <-]. right. left. eauto.
  - intros [= <- <-]. right. right. auto.
Qed.

(** X11: [disconnect] closes none of the connections of a coordinator:
    the coordinator has no manager of its own, before and after
    [_start_connection], and [disconnect] looks at nothing else; it
    returns and leaves the state as it is. *)
Theorem coordinator_disconnect_closes_nothing (self : nat) (s s1 : state) (st : storage) :
  storages s !! self = Some st -> cls st = MultipleSSHStorages ->
  _ssh_client_manager st = None ->
  _start_connection self s = (Ok tt, s1) ->
  disconnect self s = (Ok tt, s) /\ disconnect self s1 = (Ok tt, s1).
Proof.
  intros Hst Hc Hnone H. split.
  - unfold disconnect.
    rewrite (bind_Ok _ _ _ _ _ (deref_storage_Some _ _ _ Hst)), Hnone. reflexivity.
  - destruct (multi_start_keeps_none _ _ _ _ Hst Hc H) as (ms & Hms).
    unfold disconnect.
    rewrite (bind_Ok _ _ _ _ _ (deref_storage_Some _ _ _ Hms)). cbn. rewrite Hnone.
    reflexivity.
Qed.

(** X12: on a coordinator, [delete] and [size] never return: they reach
    for the manager of the coordinator itself, which is [None] also
    after [_start_connection] has connected the hosts, and raise
    [AttributeError]; nothing is removed or looked up. *)
Theorem coordinator_delete_and_size_raise
    (self : nat) (name : string) (s : state) (st : storage) (b : string) :
  storages s !! self = Some st -> cls st = MultipleSSHStorages ->
  _ssh_client_manager st = None ->
  _config st !! "basepath" = Some (PStr b) ->
  (forall s1, _start_connection self s = (Ok tt, s1) ->
     SSHStorage_delete self name s
     = (Raise (AttributeError "'NoneType' object has no attribute 'sftp'"), s1) /\
     SSHStorage_size self name s
     = (Raise (AttributeError "'NoneType' object has no attribute 'sftp'"), s1)) /\
  (forall v s', SSHStorage_delete self name s <> (Ok v, s')) /\
  (forall z s', SSHStorage_size self name s <> (Ok z, s')).
Proof.
  intros Hst Hc Hnone Hb.
  assert (Hon : forall A meth (k : sftp_client -> M A),
            (forall s1, _start_connection self s = (Ok tt, s1) ->
               on_sftp self meth k s
               = (Raise (AttributeError "'NoneType' object has no attribute 'sftp'"), s1)) /\
            (forall v s', on_sftp self meth k s <> (Ok v, s'))).
  { intros A meth k. unfold on_sftp, bind at 1, bind at 2.
    destruct (ssh_client_manager self s) as [o s'] eqn:Hrun.
    destruct (coordinator_manager_none _ _ _ Hst Hc Hnone _ _ Hrun)
      as [[-> Hs]|[(e & -> & Hs)|[-> Hs]]].
    - split; [|discriminate]. intros s1 H1. rewrite Hs in H1. injection H1 as <-. reflexivity.
    - split; [|discriminate]. intros s1 H1. rewrite Hs in H1. discriminate.
    - split; [|discriminate]. intros s1 H1. rewrite Hs in H1. discriminate. }
  unfold SSHStorage_delete, SSHStorage_size.
  rewrite !(bind_Ok _ _ _ _ _ (remote_path_run _ _ _ _ _ Hst Hb)).
  split; [|split].
  - intros s1 H1. split.
    + apply Hon, H1.
    + apply bind_Raise, Hon, H1.
  - apply Hon.
  - intros z s' H. apply bind_inv_Ok in H as (a & t & H & _). revert H. apply Hon.
Qed.

End Coordinator2.

(** ** Removal, size and listing on a single-host storage *)

Section Removal.
Context `{E : Env}.

Lemma on_sftp_run {A} self meth (k : sftp_client -> M A) s st r m h :
  storages s !! self = Some st -> _ssh_client_manager st = Some r ->
  managers s !! r = Some m -> _sftp m = Bound (Some h) ->
  on_sftp self meth k s = k h s.
Proof.
  intros Hst Hr Hm Hh. unfold on_sftp.
  rewrite (bind_Ok _ _ _ _ _ (ssh_client_manager_set _ _ _ _ Hst Hr)).
  unfold on_manager. rewrite (bind_Ok _ _ _ _ _ (sftp_bound _ _ _ _ Hm Hh)). reflexivity.
Qed.

(** X13: [delete] on a storage whose manager holds an SFTP handle makes
    one call, [remove] on the name joined to the base path, and returns
    when the library does; an exception of the library, [IOError] for a
    path that is not there included, is raised to the caller. *)
Theorem delete_single_host
    (self : nat) (name : string) (s : state) (st : storage) (r : nat) (m : manager)
    (h : sftp_client) (b : string) :
  storages s !! self = Some st ->
  _ssh_client_manager st = Some r ->
  managers s !! r = Some m -> _sftp m = Bound (Some h) ->
  _config st !! "basepath" = Some (PStr b) ->
  SSHStorage_delete self name s
  = (match fst (SFTP_remove h (posixpath.join b [name]) (remote s)) with
     | Reply _ => Ok tt
     | Throw e => Raise e
     end,
     set_remote (snd (SFTP_remove h (posixpath.join b [name]) (remote s)))
       (add_call (CallRemove h (posixpath.join b [name])) s)).
Proof.
  intros Hst Hr Hm Hh Hb. unfold SSHStorage_delete.
  rewrite (bind_Ok _ _ _ _ _ (remote_path_run _ _ _ _ _ Hst Hb)).
  rewrite (on_sftp_run _ _ _ _ _ _ _ _ Hst Hr Hm Hh). unfold lib. cbn [remote add_call].
  destruct (SFTP_remove h (posixpath.join b [name]) (remote s)) as [[[]|e] w]; reflexivity.
Qed.

(** X14: [size] returns exactly when [exists] answers [True]: both make
    the same [stat] call; where [exists] answers [False], [size] raises
    the [IOError]; [size] returns the [st_size] of the attributes. *)
Theorem size_returns_iff_exists
    (self : nat) (name : string) (s : state) (st : storage) (r : nat) (m : manager)
    (h : sftp_client) (b : string) :
  storages s !! self = Some st -> cls st <> MultipleSSHStorages ->
  _ssh_client_manager st = Some r ->
  managers s !! r = Some m -> _sftp m = Bound (Some h) ->
  _config st !! "basepath" = Some (PStr b) ->
  SSHStorage_size self name s
  = (match SFTP_stat h (posixpath.join b [name]) (remote s) with
     | Reply a => Ok (st_size a)
     | Throw e => Raise e
     end, add_call (CallStat h (posixpath.join b [name])) s) /\
  ((exists z, fst (SSHStorage_size self name s) = Ok z) <-> fst (exists_ self name s) = Ok true) /\
  (fst (exists_ self name s) = Ok false ->
   exists msg, fst (SSHStorage_size self name s) = Raise (IOError msg)).
Proof.
  intros Hst Hc Hr Hm Hh Hb.
  assert (Hsize : SSHStorage_size self name s
                  = (match SFTP_stat h (posixpath.join b [name]) (remote s) with
                     | Reply a => Ok (st_size a)
                     | Throw e => Raise e
                     end, add_call (CallStat h (posixpath.join b [name])) s)).
  { unfold SSHStorage_size.
    rewrite (bind_Ok _ _ _ _ _ (remote_path_run _ _ _ _ _ Hst Hb)).
    unfold bind. rewrite (on_sftp_run _ _ _ _ _ _ _ _ Hst Hr Hm Hh). unfold ask. cbn [remote add_call].
    destruct (SFTP_stat h (posixpath.join b [name]) (remote s)); reflexivity. }
  assert (Hex : exists_ self name s
                = (match SFTP_stat h (posixpath.join b [name]) (remote s) with
                   | Reply _ => Ok true
                   | Throw e => if is_IOError e then Ok false else Raise e
                   end, add_call (CallStat h (posixpath.join b [name])) s)).
  { rewrite (exists_single _ _ _ _ Hst Hc). unfold SSHStorage_exists.
    rewrite (bind_Ok _ _ _ _ _ (remote_path_run _ _ _ _ _ Hst Hb)).
    unfold try_except.
    rewrite (bind_Ok _ _ _ _ _ (ssh_client_manager_set _ _ _ _ Hst Hr)).
    unfold bind. rewrite (manager_stat_run _ _ _ _ _ Hm Hh).
    destruct (SFTP_stat h (posixpath.join b [name]) (remote s)) as [a|e]; [reflexivity|].
    destruct (is_IOError e); reflexivity. }
  split; [exact Hsize|]. rewrite Hsize, Hex. cbn [fst].
  destruct (SFTP_stat h (posixpath.join b [name]) (remote s)) as [a|e].
  - split; [split; [reflexivity | intros _; eauto] | intros G; discriminate G].
  - split.
    + split; [intros [z Hz]; discriminate | destruct (is_IOError e); intros G; discriminate G].
    + destruct e; cbn; intros G; try discriminate G; eauto.
Qed.

(** X15: the base path does not confine the names: a name that starts
    with ['/'] is its own remote path, whatever the base path, and
    [delete] removes that path. *)
Theorem absolute_name_leaves_basepath
    (self : nat) (n : string) (s : state) (st : storage) (b : string) :
  storages s !! self = Some st ->
  _config st !! "basepath" = Some (PStr b) ->
  _remote_path self (String "/" n) s = (Ok (String "/" n), s) /\
  forall r m h,
    _ssh_client_manager st = Some r -> managers s !! r = Some m ->
    _sftp m = Bound (Some h) ->
    calls (snd (SSHStorage_delete self (String "/" n) s))
    = (calls s ++ [CallRemove h (String "/" n)])%list.
Proof.
  intros Hst Hb.
  assert (Hrp : _remote_path self (String "/" n) s = (Ok (String "/" n), s))
    by (rewrite (remote_path_run _ _ _ _ _ Hst Hb); reflexivity).
  split; [exact Hrp|]. intros r m h Hr Hm Hh.
  unfold SSHStorage_delete. rewrite (bind_Ok _ _ _ _ _ Hrp).
  rewrite (on_sftp_run _ _ _ _ _ _ _ _ Hst Hr Hm Hh). unfold lib. cbn [remote add_call].
  destruct (SFTP_remove h (String "/" n) (remote s)) as [[[]|e] w]; reflexivity.
Qed.

(** A host on which a path that has been removed is not there. *)
Section RemoveLaw.
Variable h : sftp_client.
Hypothesis removed_is_gone : forall p w w',
  SFTP_remove h p w = (Reply tt, w') ->
  exists msg, SFTP_stat h p w' = Throw (IOError msg).

(** X16: on a host where a path that has been removed is not there,
    [exists] of a name answers [False] once [delete] of that name has
    returned. *)
Theorem delete_then_exists
    (self : nat) (name : string) (s s1 : state) (st : storage) (r : nat) (m : manager)
    (b : string) :
  storages s !! self = Some st -> cls st <> MultipleSSHStorages ->
  _ssh_client_manager st = Some r ->
  managers s !! r = Some m -> _sftp m = Bound (Some h) ->
  _config st !! "basepath" = Some (PStr b) ->
  SSHStorage_delete self name s = (Ok tt, s1) ->
  fst (exists_ self name s1) = Ok false.
Proof.
  intros Hst Hc Hr Hm Hh Hb Hdel.
  unfold SSHStorage_delete in Hdel.
  rewrite (bind_Ok _ _ _ _ _ (remote_path_run _ _ _ _ _ Hst Hb)) in Hdel.
  rewrite (on_sftp_run _ _ _ _ _ _ _ _ Hst Hr Hm Hh) in Hdel. unfold lib in Hdel. cbn [remote add_call] in Hdel.
  destruct (SFTP_remove h (posixpath.join b [name]) (remote s)) as [[[]|e] w] eqn:Hrm;
    [|discriminate].
  destruct (removed_is_gone _ _ _ Hrm) as [msg Hgone].
  assert (Hst1 : storages s1 !! self = Some st) by (injection Hdel as <-; exact Hst).
  assert (Hm1 : managers s1 !! r = Some m) by (injection Hdel as <-; exact Hm).
  assert (Hw : remote s1 = w) by (injection Hdel as <-; reflexivity).
  rewrite (exists_single _ _ _ _ Hst1 Hc). unfold SSHStorage_exists.
  rewrite (bind_Ok _ _ _ _ _ (remote_path_run _ _ _ _ _ Hst1 Hb)).
  unfold try_except.
  rewrite (bind_Ok _ _ _ _ _ (ssh_client_manager_set _ _ _ _ Hst1 Hr)).
  unfold bind. rewrite (manager_stat_run _ _ _ _ _ Hm1 Hh).
  rewrite Hw, Hgone. reflexivity.
Qed.

End RemoveLaw.

End Removal.

(** ** The decoded configuration, field by field *)

Section DecodeFields.
Context `{E : Env}.

Lemma not_a_protocol_inv v s b s' :
  not_a_protocol v s = (Ok b, s') -> b = negb (is_protocol v).
Proof.
  unfold not_a_protocol. destruct (eq_str v EmptyString) eqn:Hv.
  - intros [= <- _]. apply eq_str_true in Hv as ->. reflexivity.
  - destruct v as [|p|z|l]; cbn; try discriminate.
    destruct (String.eqb (str_lower p) "http://"); cbn; intros [= <- _]; reflexivity.
Qed.

Lemma py_lower_inv v s l s' : py_lower v s = (Ok l, s') -> exists p, v = PStr p /\ l = str_lower p.
Proof. destruct v; cbn; try discriminate. intros [= <- _]. eauto. Qed.

Lemma py_int_number v s z s' : py_int v s = (Ok z, s') -> is_number v = true.
Proof.
  destruct v as [|p|n|l]; cbn; intros H; try discriminate H; [|reflexivity].
  destruct (py_int_of_str p); [reflexivity | discriminate H].
Qed.

Lemma py_int_ValueError v s e s' :
  py_int v s = (Raise e, s') -> is_ValueError e = true -> is_number v = false /\ s' = s.
Proof.
  destruct v as [|p|n|l]; cbn.
  - intros [= <- <-]. discriminate.
  - destruct (py_int_of_str p); [discriminate|]. intros [= <- <-]. auto.
  - discriminate.
  - intros [= <- <-]. discriminate.
Qed.

(** What a decoding that returns has put in each field. *)
Lemma decode_Ok_fields location s config s' :
  SSHStorage__decode_location location s = (Ok config, s') ->
  exists hn un bp proto pw key prt spp sph spport,
    config = <["static_proxy_port" := spport]> (<["static_proxy_hostname" := sph]>
              (<["static_proxy_protocol" := spp]> (<["port" := PInt prt]> (<["rsa_key" := key]>
              (<["password" := pw]> (<["protocol" := PStr proto]> (<["basepath" := bp]>
              (<["username" := un]> (<["hostname" := hn]> ∅))))))))) /\
    location !! "HOSTNAME" = Some hn /\ location !! "USERNAME" = Some un /\
    location !! "BASEPATH" = Some bp /\
    (if is_protocol (dict_get location "PROTOCOL")
     then exists p, dict_get location "PROTOCOL" = PStr p /\ proto = str_lower p
     else proto = "http://") /\
    (if eq_str (dict_get location "PORT") EmptyString then prt = 22%Z
     else if is_number (dict_get location "PORT")
          then py_int (dict_get location "PORT") s = (Ok prt, s)
          else prt = 22%Z) /\
    spp = (if is_protocol (dict_get location "STATIC_PROXY_PROTOCOL")
           then dict_get location "STATIC_PROXY_PROTOCOL" else PStr proto) /\
    sph = (if eq_str (dict_get location "STATIC_PROXY_HOSTNAME") EmptyString
           then hn else dict_get location "STATIC_PROXY_HOSTNAME") /\
    spport = (if eq_str (dict_get location "STATIC_PROXY_PORT") EmptyString then PStr "80"
              else if is_number (dict_get location "STATIC_PROXY_PORT")
                   then dict_get location "STATIC_PROXY_PORT" else PStr "80").
Proof.
  unfold SSHStorage__decode_location. intros H.
  apply bind_inv_Ok in H as (? & t & H1 & H). apply guard_inv in H1 as [G1 ->].
  apply bind_inv_Ok in H as (? & t & H1 & H). apply guard_inv in H1 as [G2 ->].
  apply bind_inv_Ok in H as (? & t & H1 & H). apply guard_inv in H1 as [G3 ->].
  apply bind_inv_Ok in H as (? & t & H1 & H). apply guard_inv in H1 as [G4 ->].
  apply bind_inv_Ok in H as (hn & t & H1 & H). apply getitem_inv in H1 as [L1 ->].
  apply bind_inv_Ok in H as (un & t & H1 & H). apply getitem_inv in H1 as [L2 ->].
  apply bind_inv_Ok in H as (bp & t & H1 & H). apply getitem_inv in H1 as [L3 ->].
  apply bind_inv_Ok in H as (b1 & t & H1 & H).
  pose proof (not_a_protocol_inv _ _ _ _ H1) as Hb1. apply not_a_protocol_state in H1 as ->.
  apply bind_inv_Ok in H as (c1 & t & H1 & H).
  assert (exists proto, c1 = <["protocol" := PStr proto]> (<["basepath" := bp]>
            (<["username" := un]> (<["hostname" := hn]> ∅))) /\ t = s /\
            (if is_protocol (dict_get location "PROTOCOL")
             then exists p, dict_get location "PROTOCOL" = PStr p /\ proto = str_lower p
             else proto = "http://")) as (proto & -> & -> & Hproto).
  { subst b1. destruct (is_protocol (dict_get location "PROTOCOL")); cbn [negb] in H1.
    - apply bind_inv_Ok in H1 as (l & t0 & H0 & H1).
      pose proof (py_lower_inv _ _ _ _ H0) as (p & Hp & ->). apply py_lower_state in H0 as ->.
      injection H1 as <- <-. eauto 10.
    - injection H1 as <- <-. eauto. }
  clear H1.
  apply bind_inv_Ok in H as (c2 & t & H1 & H).
  assert (exists pw key, c2 = <["rsa_key" := key]> (<["password" := pw]>
            (<["protocol" := PStr proto]> (<["basepath" := bp]>
            (<["username" := un]> (<["hostname" := hn]> ∅))))) /\ t = s)
    as (pw & key & -> & ->).
  { destruct (eq_str (dict_get location "PASSWORD") EmptyString).
    - apply bind_inv_Ok in H1 as (key & t0 & H0 & H1). apply getitem_inv in H0 as [L4 ->].
      apply bind_inv_Ok in H1 as (found & t0 & H0 & H1).
      unfold lib_exists in H0.
      destruct (os_path_exists key (remote s)) as [b|] eqn:Hex; [|discriminate].
      injection H0 as <- <-.
      destruct b; cbn in H1; [|discriminate].
      injection H1 as <- <-. eauto 10.
    - apply bind_inv_Ok in H1 as (pw & t0 & H0 & H1). apply getitem_inv in H0 as [L4 ->].
      injection H1 as <- <-. eauto 10. }
  clear H1.
  apply bind_inv_Ok in H as (c3 & t & H1 & H).
  assert (exists prt, c3 = <["port" := PInt prt]> (<["rsa_key" := key]> (<["password" := pw]>
            (<["protocol" := PStr proto]> (<["basepath" := bp]>
            (<["username" := un]> (<["hostname" := hn]> ∅)))))) /\ t = s /\
            (if eq_str (dict_get location "PORT") EmptyString then prt = 22%Z
             else if is_number (dict_get location "PORT")
                  then py_int (dict_get location "PORT") s = (Ok prt, s)
                  else prt = 22%Z)) as (prt & -> & -> & Hprt).
  { destruct (eq_str (dict_get location "PORT") EmptyString) eqn:Hport.
    - injection H1 as <- <-. eauto.
    - destruct (not_missing_get _ _ Hport) as (v & Lv & _).
      assert (Hget : dict_get location "PORT" = v) by (unfold dict_get; rewrite Lv; reflexivity).
      rewrite Hget. unfold try_except in H1.
      rewrite (bind_Ok _ _ _ _ _ (getitem_Some _ _ _ _ Lv)) in H1.
      unfold bind in H1. destruct (py_int v s) as [[z|e|] s1] eqn:Hint.
      + pose proof (py_int_number _ _ _ _ Hint) as ->.
        pose proof (py_int_state _ _ _ _ Hint) as ->.
        injection H1 as <- <-. eauto.
      + destruct (is_ValueError e) eqn:He; [|discriminate].
        destruct (py_int_ValueError _ _ _ _ Hint He) as [-> ->].
        injection H1 as <- <-. eauto.
      + discriminate. }
  clear H1.
  apply bind_inv_Ok in H as (b2 & t & H1 & H).
  pose proof (not_a_protocol_inv _ _ _ _ H1) as Hb2. apply not_a_protocol_state in H1 as ->.
  apply bind_inv_Ok in H as (c4 & t & H1 & H).
  assert (c4 = <["static_proxy_protocol" :=
                  if is_protocol (dict_get location "STATIC_PROXY_PROTOCOL")
                  then dict_get location "STATIC_PROXY_PROTOCOL" else PStr proto]>
               (<["port" := PInt prt]> (<["rsa_key" := key]> (<["password" := pw]>
               (<["protocol" := PStr proto]> (<["basepath" := bp]>
               (<["username" := un]> (<["hostname" := hn]> ∅))))))) /\ t = s) as (-> & ->).
  { subst b2. destruct (is_protocol (dict_get location "STATIC_PROXY_PROTOCOL")); cbn [negb] in H1.
    - injection H1 as <- <-. auto.
    - apply bind_inv_Ok in H1 as (v & t0 & H0 & H1). apply getitem_inv in H0 as [Lv ->].
      injection H1 as <- <-. simplify_map_eq. auto. }
  clear H1.
  apply bind_inv_Ok in H as (c5 & t & H1 & H).
  assert (c5 = <["static_proxy_hostname" :=
                  if eq_str (dict_get location "STATIC_PROXY_HOSTNAME") EmptyString
                  then hn else dict_get location "STATIC_PROXY_HOSTNAME"]>
               (<["static_proxy_protocol" :=
                  if is_protocol (dict_get location "STATIC_PROXY_PROTOCOL")
                  then dict_get location "STATIC_PROXY_PROTOCOL" else PStr proto]>
               (<["port" := PInt prt]> (<["rsa_key" := key]> (<["password" := pw]>
               (<["protocol" := PStr proto]> (<["basepath" := bp]>
               (<["username" := un]> (<["hostname" := hn]> ∅)))))))) /\ t = s) as (-> & ->).
  { destruct (eq_str (dict_get location "STATIC_PROXY_HOSTNAME") EmptyString).
    - apply bind_inv_Ok in H1 as (v & t0 & H0 & H1). apply getitem_inv in H0 as [Lv ->].
      injection H1 as <- <-. simplify_map_eq. auto.
    - injection H1 as <- <-. auto. }
  clear H1.
  apply bind_inv_Ok in H as (c6 & t & H1 & H).
  injection H as <- <-.
  exists hn, un, bp, proto, pw, key, prt.
  eexists _, _, (if eq_str (dict_get location "STATIC_PROXY_PORT") EmptyString then PStr "80"
                 else if is_number (dict_get location "STATIC_PROXY_PORT")
                      then dict_get location "STATIC_PROXY_PORT" else PStr "80").
  split; [|auto 10].
  destruct (eq_str (dict_get location "STATIC_PROXY_PORT") EmptyString).
  - injection H1 as <- _. reflexivity.
  - unfold try_except, bind in H1.
    destruct (py_int (dict_get location "STATIC_PROXY_PORT") s) as [[z|e|] s1] eqn:Hint.
    + rewrite (py_int_number _ _ _ _ Hint). injection H1 as <- _. reflexivity.
    + destruct (is_ValueError e) eqn:He; [|discriminate].
      destruct (py_int_ValueError _ _ _ _ Hint He) as [-> ->].
      injection H1 as <- _. reflexivity.
    + discriminate.
Qed.

Lemma is_protocol_lower p :
  is_protocol (PStr p) = true -> str_lower p = "http://" \/ str_lower p = "https://".
Proof.
  cbn. intros H. apply orb_true_iff in H as [H|H]; apply String.eqb_eq in H; auto.
Qed.

(** X17: whatever [PROTOCOL] holds, the protocol of a decoded
    configuration is ['http://'] or ['https://']: the setting in lower
    case when that is one of the two, and ['http://'] otherwise, for a
    setting that is missing as for one that names another protocol. *)
Theorem decoded_protocol_is_http_or_https
    (location : gmap string pyval) (s s' : state) (config : gmap string pyval) :
  SSHStorage__decode_location location s = (Ok config, s') ->
  (config !! "protocol" = Some (PStr "http://") \/
   config !! "protocol" = Some (PStr "https://")) /\
  (is_protocol (dict_get location "PROTOCOL") = false ->
   config !! "protocol" = Some (PStr "http://")) /\
  (forall p, location !! "PROTOCOL" = Some (PStr p) -> is_protocol (PStr p) = true ->
             config !! "protocol" = Some (PStr (str_lower p))).
Proof.
  intros H.
  destruct (decode_Ok_fields _ _ _ _ H)
    as (hn & un & bp & proto & pw & key & prt & spp & sph & spport & Hc & _ & _ & _ & Hproto & _).
  assert (Hl : config !! "protocol" = Some (PStr proto))
    by (rewrite Hc; simplify_map_eq; reflexivity).
  rewrite Hl. clear Hl.
  destruct (is_protocol (dict_get location "PROTOCOL")) eqn:Hp.
  - destruct Hproto as (p & Hget & ->). rewrite Hget in Hp.
    split; [destruct (is_protocol_lower _ Hp) as [-> | ->]; auto|].
    split; [discriminate|].
    intros p' Lp _. unfold dict_get in Hget. rewrite Lp in Hget. cbn in Hget.
    injection Hget as ->. reflexivity.
  - subst proto. split; [auto|]. split; [reflexivity|].
    intros p Lp Hp'. unfold dict_get in Hp. rewrite Lp in Hp. cbn in Hp, Hp'. congruence.
Qed.

(** X18: the port of a decoded configuration is an [int]: 22 when
    [PORT] is missing, the number when [PORT] is an [int] or a string
    that [int()] accepts, and 22 again, without an error, when [PORT]
    is a string that is no number. *)
Theorem decoded_port_is_a_number
    (location : gmap string pyval) (s s' : state) (config : gmap string pyval) :
  SSHStorage__decode_location location s = (Ok config, s') ->
  exists z, config !! "port" = Some (PInt z) /\
    (missing location "PORT" -> z = 22%Z) /\
    (forall n, location !! "PORT" = Some (PInt n) -> z = n) /\
    (forall p, location !! "PORT" = Some (PStr p) -> p <> EmptyString ->
               z = default 22%Z (py_int_of_str p)).
Proof.
  intros H.
  destruct (decode_Ok_fields _ _ _ _ H)
    as (hn & un & bp & proto & pw & key & prt & spp & sph & spport & -> & _ & _ & _ & _ & Hprt & _).
  exists prt. split; [simplify_map_eq; reflexivity|].
  split; [|split].
  - intros Hm. apply missing_get in Hm. rewrite Hm in Hprt. exact Hprt.
  - intros n Ln. unfold dict_get in Hprt. rewrite Ln in Hprt. cbn in Hprt. unfold ret in Hprt. congruence.
  - intros p Lp Hne. unfold dict_get in Hprt. rewrite Lp in Hprt. cbn in Hprt.
    destruct (String.eqb p EmptyString) eqn:Hp; [apply String.eqb_eq in Hp; contradiction|].
    destruct (py_int_of_str p) as [z|]; cbn in *; unfold ret in *; congruence.
Qed.

(** X19: the settings of the static proxy default to those of the
    host: the host name when [STATIC_PROXY_HOSTNAME] is missing, the
    decoded protocol when [STATIC_PROXY_PROTOCOL] is missing or names no
    protocol, the string ['80'] when [STATIC_PROXY_PORT] is missing or
    no number.  A setting that is given and valid is kept as it is
    written: the protocol of the proxy is not put in lower case. *)
Theorem decoded_static_proxy_defaults
    (location : gmap string pyval) (s s' : state) (config : gmap string pyval) :
  SSHStorage__decode_location location s = (Ok config, s') ->
  config !! "static_proxy_hostname"
  = (if eq_str (dict_get location "STATIC_PROXY_HOSTNAME") EmptyString
     then location !! "HOSTNAME" else location !! "STATIC_PROXY_HOSTNAME") /\
  config !! "static_proxy_protocol"
  = (if is_protocol (dict_get location "STATIC_PROXY_PROTOCOL")
     then location !! "STATIC_PROXY_PROTOCOL" else config !! "protocol") /\
  config !! "static_proxy_port"
  = (if eq_str (dict_get location "STATIC_PROXY_PORT") EmptyString then Some (PStr "80")
     else if is_number (dict_get location "STATIC_PROXY_PORT")
          then location !! "STATIC_PROXY_PORT" else Some (PStr "80")).
Proof.
  intros H.
  destruct (decode_Ok_fields _ _ _ _ H)
    as (hn & un & bp & proto & pw & key & prt & spp & sph & spport & Hc & Lh & _ & _ & _ & _
        & Hspp & Hsph & Hspport).
  clear H.
  assert (A1 : config !! "static_proxy_hostname" = Some sph)
    by (rewrite Hc; simplify_map_eq; reflexivity).
  assert (A2 : config !! "static_proxy_protocol" = Some spp)
    by (rewrite Hc; simplify_map_eq; reflexivity).
  assert (A3 : config !! "static_proxy_port" = Some spport)
    by (rewrite Hc; simplify_map_eq; reflexivity).
  assert (A4 : config !! "protocol" = Some (PStr proto))
    by (rewrite Hc; simplify_map_eq; reflexivity).
  rewrite A1, A2, A3, A4. clear Hc A1 A2 A3 A4. subst spp sph spport.
  assert (Hget : forall k, eq_str (dict_get location k) EmptyString = false ->
                   location !! k = Some (dict_get location k)).
  { intros k Hk. destruct (not_missing_get _ _ Hk) as (v & Lv & _).
    unfold dict_get. rewrite Lv. reflexivity. }
  assert (Hproto : forall k, is_protocol (dict_get location k) = true ->
                     location !! k = Some (dict_get location k)).
  { intros k Hk. apply Hget. destruct (eq_str (dict_get location k) EmptyString) eqn:G; [|reflexivity].
    apply eq_str_true in G. rewrite G in Hk. discriminate. }
  split; [|split].
  - destruct (eq_str (dict_get location "STATIC_PROXY_HOSTNAME") EmptyString) eqn:G;
      [symmetry; exact Lh | symmetry; apply Hget, G].
  - destruct (is_protocol (dict_get location "STATIC_PROXY_PROTOCOL")) eqn:G;
      [symmetry; apply Hproto, G | reflexivity].
  - destruct (eq_str (dict_get location "STATIC_PROXY_PORT") EmptyString) eqn:G; [reflexivity|].
    destruct (is_number (dict_get location "STATIC_PROXY_PORT")); [|reflexivity].
    symmetry. apply Hget, G.
Qed.

End DecodeFields.

(** ** [url] and the locations of [StaticStorage] and [MediaStorage] *)

Section UrlValue.
Context `{E : Env}.

Lemma app_nil_r_str (a : string) : a ++ EmptyString = a.
Proof. induction a as [|x a IH]; [reflexivity|]. rewrite append_cons, IH. reflexivity. Qed.

Lemma endswith_app c (a b : string) : b <> EmptyString -> endswith c (a ++ b) = endswith c b.
Proof.
  intros Hb. induction a as [|x a IH]; [reflexivity|].
  rewrite append_cons. cbn [endswith]. rewrite IH.
  destruct (a ++ b) eqn:Hab; [|reflexivity].
  destruct a; [cbn in Hab; contradiction | discriminate Hab].
Qed.

Lemma app_not_nil (a b : string) : b <> EmptyString -> a ++ b <> EmptyString.
Proof. destruct a; [auto | discriminate]. Qed.

Lemma eqb_app_nil (a b : string) :
  b <> EmptyString -> String.eqb (a ++ b) EmptyString = false.
Proof. intros Hb. apply String.eqb_neq, app_not_nil, Hb. Qed.

(** Joining a component that is no absolute path. *)
Lemma join2_relative a b :
  startswith sep b = false -> a <> EmptyString ->
  posixpath.join2 a b = if endswith sep a then a ++ b else a ++ String sep b.
Proof.
  intros Hb Ha. unfold posixpath.join2. rewrite Hb.
  destruct (String.eqb a EmptyString) eqn:G; [apply String.eqb_eq in G; contradiction|].
  reflexivity.
Qed.

Lemma join2_absolute a b : startswith sep b = true -> posixpath.join2 a b = b.
Proof. intros Hb. unfold posixpath.join2. rewrite Hb. reflexivity. Qed.

Lemma str_replace_clean a b s : a <> b -> has_char a (str_replace a b s) = false.
Proof.
  intros Hab. induction s as [|c s IH]; [reflexivity|]. cbn. rewrite IH, orb_false_r.
  destruct (Ascii.eqb c a) eqn:Hc.
  - apply Ascii.eqb_neq. congruence.
  - exact Hc.
Qed.

(** The host part of a URL: the port is added unless it is the string
    ['80']. *)
Lemma url_run self name s st h p a c :
  storages s !! self = Some st ->
  _config st !! "static_proxy_hostname" = Some (PStr h) ->
  _config st !! "static_proxy_port" = Some p ->
  _config st !! "static_proxy_protocol" = Some (PStr a) ->
  _config st !! "location" = Some (PStr c) ->
  url self name s
  = (Ok (str_replace "\"%char "/"%char
           (posixpath.join a [if eq_str p "80" then h else h ++ ":" ++ py_str p; c; name])), s).
Proof.
  intros Hst Hh Hp Ha Hc. unfold url.
  rewrite (bind_Ok _ _ _ _ _ (deref_storage_Some _ _ _ Hst)).
  rewrite (bind_Ok _ _ _ _ _ (getitem_Some _ _ _ _ Hh)).
  rewrite (bind_Ok _ _ _ _ _ (getitem_Some _ _ _ _ Hp)).
  destruct (eq_str p "80"); cbn [negb].
  - rewrite (bind_Ok _ _ s (PStr h) s) by reflexivity.
    rewrite (bind_Ok _ _ _ _ _ (getitem_Some _ _ _ _ Ha)).
    rewrite (bind_Ok _ _ _ _ _ (getitem_Some _ _ _ _ Hc)). reflexivity.
  - rewrite (bind_Ok _ _ s (PStr (h ++ ":" ++ py_str p)) s)
      by (rewrite (bind_Ok _ _ _ _ _ (getitem_Some _ _ _ _ Hp)); reflexivity).
    rewrite (bind_Ok _ _ _ _ _ (getitem_Some _ _ _ _ Ha)).
    rewrite (bind_Ok _ _ _ _ _ (getitem_Some _ _ _ _ Hc)). reflexivity.
Qed.

Lemma url_clean (self : nat) (name : string) (s s' : state) (u : string) :
  url self name s = (Ok u, s') -> has_char "\"%char u = false.
Proof.
  unfold url. intros H.
  apply bind_inv_Ok in H as (st & t & _ & H).
  apply bind_inv_Ok in H as (h & t0 & _ & H).
  apply bind_inv_Ok in H as (p & t1 & _ & H).
  apply bind_inv_Ok in H as (h' & t2 & _ & H).
  apply bind_inv_Ok in H as (a & t3 & _ & H).
  apply bind_inv_Ok in H as (c & t4 & _ & H).
  apply bind_inv_Ok in H as (a' & t5 & _ & H).
  apply bind_inv_Ok in H as (b' & t6 & _ & H).
  apply bind_inv_Ok in H as (c' & t7 & _ & H).
  injection H as <- _. apply str_replace_clean. discriminate.
Qed.

Lemma url_plain
    (self : nat) (name : string) (s : state) (st : storage) (h a c : string) (p : pyval) :
  storages s !! self = Some st ->
  _config st !! "static_proxy_hostname" = Some (PStr h) ->
  _config st !! "static_proxy_port" = Some p ->
  _config st !! "static_proxy_protocol" = Some (PStr a) ->
  _config st !! "location" = Some (PStr c) ->
  let host := if eq_str p "80" then h else h ++ ":" ++ py_str p in
  endswith sep a = true ->
  host <> EmptyString -> startswith sep host = false -> endswith sep host = false ->
  c <> EmptyString -> startswith sep c = false -> endswith sep c = false ->
  startswith sep name = false ->
  url self name s
  = (Ok (str_replace "\"%char "/"%char (a ++ host ++ "/" ++ c ++ "/" ++ name)), s).
Proof.
  intros Hst Hh Hp Ha Hc host Ea Nh Sh Eh Nc Sc Ec Sn.
  rewrite (url_run _ _ _ _ _ _ _ _ Hst Hh Hp Ha Hc). fold host.
  unfold posixpath.join. cbn [fold_left].
  assert (Na : a <> EmptyString) by (intros ->; discriminate Ea).
  rewrite (join2_relative a host Sh Na), Ea.
  rewrite (join2_relative (a ++ host) c Sc (app_not_nil _ _ Nh)), (endswith_app _ _ _ Nh), Eh.
  assert (Nc' : String sep c <> EmptyString) by discriminate.
  rewrite (join2_relative _ name Sn (app_not_nil _ _ Nc')).
  assert (Ec' : endswith sep ((a ++ host) ++ String sep c) = false).
  { rewrite (endswith_app _ _ _ Nc'). cbn [endswith].
    destruct c; [contradiction | exact Ec]. }
  rewrite Ec'. change (String sep c) with ("/" ++ c). change (String sep name) with ("/" ++ name).
  rewrite !string_app_assoc. reflexivity.
Qed.

(** X20: the URL of a name is the protocol of the proxy, its host, the
    location and the name, joined with ['/']; the port of the proxy
    follows the host after a colon unless it is the string ['80'];
    backslashes are turned into ['/'].  This is for a protocol that ends
    with ['/'] and a host, a location and a name that are plain: not
    empty, with no ['/'] at either end.  Whatever the configuration, a
    URL that [url] returns holds no backslash. *)
Theorem url_layout
    (self : nat) (name : string) (s : state) (st : storage) (h a c : string) (p : pyval) :
  storages s !! self = Some st ->
  _config st !! "static_proxy_hostname" = Some (PStr h) ->
  _config st !! "static_proxy_port" = Some p ->
  _config st !! "static_proxy_protocol" = Some (PStr a) ->
  _config st !! "location" = Some (PStr c) ->
  let host := if eq_str p "80" then h else h ++ ":" ++ py_str p in
  endswith sep a = true ->
  host <> EmptyString -> startswith sep host = false -> endswith sep host = false ->
  c <> EmptyString -> startswith sep c = false -> endswith sep c = false ->
  startswith sep name = false ->
  url self name s
  = (Ok (str_replace "\"%char "/"%char (a ++ host ++ "/" ++ c ++ "/" ++ name)), s) /\
  forall name' t t' u, url self name' t = (Ok u, t') -> has_char "\"%char u = false.
Proof.
  intros Hst Hh Hp Ha Hc host Ea Nh Sh Eh Nc Sc Ec Sn.
  split; [apply (url_plain self name s st h a c p); assumption|].
  intros name' t t' u. apply url_clean.
Qed.

(** X21: for a name that starts with ['/'], the URL is the name alone,
    with its backslashes turned: protocol, host and location are left
    out. *)
Theorem url_of_absolute_name
    (self : nat) (n : string) (s : state) (st : storage) (h a c : string) (p : pyval) :
  storages s !! self = Some st ->
  _config st !! "static_proxy_hostname" = Some (PStr h) ->
  _config st !! "static_proxy_port" = Some p ->
  _config st !! "static_proxy_protocol" = Some (PStr a) ->
  _config st !! "location" = Some (PStr c) ->
  url self (String "/" n) s = (Ok (str_replace "\"%char "/"%char (String "/" n)), s).
Proof.
  intros Hst Hh Hp Ha Hc.
  rewrite (url_run _ _ _ _ _ _ _ _ Hst Hh Hp Ha Hc).
  unfold posixpath.join. cbn [fold_left].
  rewrite (join2_absolute _ (String "/" n)) by reflexivity. reflexivity.
Qed.

End UrlValue.

(** ** [StaticStorage] and [MediaStorage] *)

Section Located.
Context `{E : Env}.

Lemma os_path_join_inv a b s r s' :
  os_path_join a b s = (Ok r, s') ->
  exists a' b', a = PStr a' /\ b = PStr b' /\ r = PStr (posixpath.join a' [b']) /\ s' = s.
Proof.
  destruct a, b; cbn; try discriminate. intros [= <- <-]. eauto 10.
Qed.

Lemma add_to_basepath_exact self location s u s' :
  _add_to_basepath self location s = (Ok u, s') ->
  exists st bp loc,
    storages s !! self = Some st /\ _config st !! "basepath" = Some (PStr bp) /\
    location = PStr loc /\
    s' = set_storages
           (<[self := set_config (<["basepath" := PStr (posixpath.join bp [loc])]>
                                    (<["location" := location]> (_config st))) st]>
              (storages s)) s.
Proof.
  unfold _add_to_basepath. intros H.
  apply bind_inv_Ok in H as (? & t & H1 & H).
  apply update_storage_inv in H1 as (st & Hst & ->).
  apply bind_inv_Ok in H as (st1 & t & H1 & H).
  apply deref_storage_inv in H1 as [Hst1 ->].
  cbn in Hst1. rewrite lookup_insert_eq in Hst1. injection Hst1 as <-.
  apply bind_inv_Ok in H as (p & t & H1 & H). apply getitem_inv in H1 as [Lp ->].
  cbn in Lp. rewrite lookup_insert_ne in Lp by discriminate.
  apply bind_inv_Ok in H as (p' & t & H1 & H).
  apply os_path_join_inv in H1 as (bp & loc & -> & -> & -> & ->).
  apply update_storage_inv in H as (st2 & Hst2 & ->).
  cbn in Hst2. rewrite lookup_insert_eq in Hst2. injection Hst2 as <-.
  exists st, bp, loc. split; [exact Hst|]. split; [exact Lp|]. split; [reflexivity|].
  cbn. rewrite insert_insert_eq. reflexivity.
Qed.

(** What the constructor of [StaticStorage] or [MediaStorage] leaves. *)
Lemma construct_located c cfg location s self s' l :
  location_setting c cfg = Some l ->
  construct c cfg location s = (Ok self, s') ->
  exists config bp loc,
    SSHStorage__decode_location location s = (Ok config, s) /\
    config !! "basepath" = Some (PStr bp) /\ l = PStr loc /\
    storages s' !! self
    = Some {| cls := c;
              _config := <["basepath" := PStr (posixpath.join bp [loc])]>
                           (<["location" := PStr loc]> config);
              _ssh_client_manager := None; _ssh_client_managers := [] |}.
Proof.
  intros Hl H.
  assert (Hgen : bind (SSHStorage___init__ c location) (fun self =>
                   bind (_add_to_basepath self l) (fun _ => ret self)) s = (Ok self, s') /\
                 _decode_location c location = SSHStorage__decode_location location).
  { destruct c; try discriminate; injection Hl as <-; split; try reflexivity; exact H. }
  destruct Hgen as [Hrun Hd]. clear H.
  apply bind_inv_Ok in Hrun as (r & t & H1 & H).
  apply init_inv in H1 as (config & Hdec & -> & ->). rewrite Hd in Hdec.
  apply bind_inv_Ok in H as (? & t & H1 & H). injection H as <- <-.
  apply add_to_basepath_exact in H1 as (st & bp & loc & Hst & Hb & -> & ->).
  cbn in Hst. rewrite lookup_insert_eq in Hst. injection Hst as <-. cbn in Hb.
  exists config, bp, loc. split; [exact Hdec|]. split; [exact Hb|]. split; [reflexivity|].
  cbn. rewrite lookup_insert_eq. reflexivity.
Qed.

(** X22: a [StaticStorage] or [MediaStorage] that has been constructed
    works under the base path joined with its location setting: that is
    its new base path, and the remote path of a name is the base path,
    the location and the name joined.  A location that starts with ['/']
    takes the place of the base path. *)
Theorem located_storage_paths
    (c : storage_class) (cfg : settings) (location : gmap string pyval)
    (s s' : state) (self : nat) (l : pyval) :
  location_setting c cfg = Some l ->
  construct c cfg location s = (Ok self, s') ->
  exists st bp loc,
    storages s' !! self = Some st /\
    location !! "BASEPATH" = Some (PStr bp) /\ l = PStr loc /\
    _config st !! "location" = Some (PStr loc) /\
    _config st !! "basepath" = Some (PStr (posixpath.join bp [loc])) /\
    (forall name, _remote_path self name s' = (Ok (posixpath.join bp [loc; name]), s')) /\
    (startswith sep loc = true -> _config st !! "basepath" = Some (PStr loc)).
Proof.
  intros Hl H.
  destruct (construct_located _ _ _ _ _ _ _ Hl H) as (config & bp & loc & Hdec & Hb & -> & Hst).
  destruct (decode_Ok_fields _ _ _ _ Hdec)
    as (hn & un & bp0 & proto & pw & key & prt & spp & sph & spport & Hc & _ & _ & Lb & _).
  assert (bp0 = PStr bp) as -> by (rewrite Hc in Hb; simplify_map_eq; reflexivity).
  eexists _, bp, loc. split; [exact Hst|]. split; [exact Lb|]. split; [reflexivity|].
  cbn [_config].
  split; [rewrite lookup_insert_ne by discriminate; apply lookup_insert_eq|].
  split; [apply lookup_insert_eq|]. split.
  - intros name. erewrite remote_path_run; [reflexivity | exact Hst | cbn; apply lookup_insert_eq].
  - intros Hs. rewrite lookup_insert_eq. unfold posixpath.join. cbn [fold_left].
    rewrite (join2_absolute _ _ Hs). reflexivity.
Qed.

(** X23: with the proxy settings and the protocol left to their
    defaults, the URL of a name in a [StaticStorage] or [MediaStorage] is
    ['http://'], the host name, the location and the name, joined with
    ['/']; for a host name, a location and a name that are plain. *)
Theorem located_storage_url
    (c : storage_class) (cfg : settings) (location : gmap string pyval)
    (s s' : state) (self : nat) (h loc name : string) :
  location_setting c cfg = Some (PStr loc) ->
  construct c cfg location s = (Ok self, s') ->
  location !! "HOSTNAME" = Some (PStr h) ->
  missing location "PROTOCOL" -> missing location "STATIC_PROXY_PROTOCOL" ->
  missing location "STATIC_PROXY_HOSTNAME" -> missing location "STATIC_PROXY_PORT" ->
  h <> EmptyString -> startswith sep h = false -> endswith sep h = false ->
  loc <> EmptyString -> startswith sep loc = false -> endswith sep loc = false ->
  startswith sep name = false ->
  url self name s'
  = (Ok (str_replace "\"%char "/"%char ("http://" ++ h ++ "/" ++ loc ++ "/" ++ name)), s').
Proof.
  intros Hl H Lh M1 M2 M3 M4 Nh Sh Eh Nc Sc Ec Sn.
  destruct (construct_located _ _ _ _ _ _ _ Hl H) as (config & bp & loc' & Hdec & Hb & Hloc & Hst).
  injection Hloc as <-.
  destruct (decode_Ok_fields _ _ _ _ Hdec)
    as (hn & un & bp0 & proto & pw & key & prt & spp & sph & spport & Hc & Lh' & _ & _ & Hproto
        & _ & Hspp & Hsph & Hspport).
  rewrite Lh in Lh'. injection Lh' as <-.
  assert (P1 : is_protocol (dict_get location "PROTOCOL") = false)
    by (apply missing_get, eq_str_true in M1; rewrite M1; reflexivity).
  assert (P2 : is_protocol (dict_get location "STATIC_PROXY_PROTOCOL") = false)
    by (apply missing_get, eq_str_true in M2; rewrite M2; reflexivity).
  apply missing_get in M3, M4.
  rewrite P1 in Hproto. rewrite P2 in Hspp. rewrite M3 in Hsph. rewrite M4 in Hspport.
  subst proto spp sph spport.
  apply (url_plain self name s' _ h "http://" loc (PStr "80") Hst); cbn [_config]; try assumption;
    try reflexivity; rewrite Hc; simplify_map_eq; reflexivity.
Qed.

End Located.

(** ** [remove] of a manager, and [listdir] *)

Section RemoveAndList.
Context `{E : Env}.

Lemma rsplit_at_none c f : has_char c f = false -> rsplit_at c f = None.
Proof.
  induction f as [|a f IH]; [reflexivity|]. cbn. intros H.
  apply orb_false_iff in H as [Ha Hf]. rewrite (IH Hf), Ha. reflexivity.
Qed.

Lemma rsplit_at_last c d f :
  has_char c f = false -> rsplit_at c (d ++ String c f) = Some (d, String c f).
Proof.
  intros Hf. induction d as [|a d IH].
  - rewrite append_nil_l. cbn. rewrite (rsplit_at_none _ _ Hf), Ascii.eqb_refl. reflexivity.
  - rewrite append_cons. cbn [rsplit_at]. rewrite IH. reflexivity.
Qed.

(** The last component of a path. *)
Lemma split_base d f :
  has_char sep f = false ->
  snd (posixpath.split (d ++ "/" ++ f)) = f /\ snd (posixpath.split f) = f.
Proof.
  intros Hf. unfold posixpath.split. split.
  - change ("/" ++ f) with (String sep f). rewrite (rsplit_at_last _ _ _ Hf). reflexivity.
  - rewrite (rsplit_at_none _ _ Hf). reflexivity.
Qed.

Lemma remove_run self s m h path dir f :
  managers s !! self = Some m -> _sftp m = Bound (Some h) ->
  dest_dir m path = Some dir ->
  SSHClientManager.remove self (PV (PStr f)) path s
  = let target := posixpath.join dir [snd (posixpath.split f)] in
    let s1 := add_call (CallRemove h target) s in
    match SFTP_remove h target (remote s) with
    | (Reply _, w) => (Ok true, set_remote w s1)
    | (Throw e, w) =>
        if is_IOError e
        then (Ok false, add_log ERROR ("The path '" ++ target ++ "' doesn't exist.")
                          (set_remote w s1))
        else (Raise e, set_remote w s1)
    end.
Proof.
  intros Hm Hh Hd. unfold SSHClientManager.remove.
  rewrite (bind_Ok _ _ s (posixpath.split f) s) by reflexivity.
  rewrite (bind_Ok _ _ _ _ _ (resolve_path_run _ _ _ _ _ Hm Hd)).
  rewrite (bind_Ok _ _ s (PStr (posixpath.join dir [snd (posixpath.split f)])) s) by reflexivity.
  unfold try_except, SSHClientManager.sftp_remove.
  unfold bind at 1. unfold bind at 1.
  rewrite (get_sftp_Bound _ _ _ _ Hm Hh). cbn [SSHClientManager.on_handle as_str].
  rewrite (bind_Ok _ _ s _ s) by reflexivity.
  unfold lib. cbn [remote add_call py_str].
  destruct (SFTP_remove h (posixpath.join dir [snd (posixpath.split f)]) (remote s))
    as [[[]|e] w]; [reflexivity|].
  destruct (is_IOError e); reflexivity.
Qed.

(** X24: [remove] of a manager removes the last component of the file
    name given, in the directory it resolves from [path]: the directory
    part of the file name is ignored.  It makes one call; it answers
    [True] when the library removes the file, answers [False] and logs
    the path when the library raises [IOError], and lets any other
    exception through. *)
Theorem remove_takes_base_name
    (self : nat) (s : state) (m : manager) (h : sftp_client) (path : pyval)
    (dir d f : string) :
  managers s !! self = Some m -> _sftp m = Bound (Some h) ->
  dest_dir m path = Some dir ->
  has_char sep f = false ->
  SSHClientManager.remove self (PV (PStr (d ++ "/" ++ f))) path s
  = SSHClientManager.remove self (PV (PStr f)) path s /\
  forall o s', SSHClientManager.remove self (PV (PStr f)) path s = (o, s') ->
    calls s' = (calls s ++ [CallRemove h (posixpath.join dir [f])])%list /\
    remote s' = snd (SFTP_remove h (posixpath.join dir [f]) (remote s)) /\
    (o = Ok true <-> fst (SFTP_remove h (posixpath.join dir [f]) (remote s)) = Reply tt) /\
    (o = Ok false <->
     exists msg, fst (SFTP_remove h (posixpath.join dir [f]) (remote s)) = Throw (IOError msg)) /\
    (o = Ok false ->
     log s' = (log s ++ [(ERROR, ("The path '" ++ posixpath.join dir [f]
                                  ++ "' doesn't exist.")%string)])%list).
Proof.
  intros Hm Hh Hd Hf.
  destruct (split_base d f Hf) as [S1 S2].
  rewrite !(remove_run _ _ _ _ _ _ _ Hm Hh Hd). cbn zeta. rewrite S1, S2.
  split; [reflexivity|]. intros o s'.
  destruct (SFTP_remove h (posixpath.join dir [f]) (remote s)) as [[[]|e] w]; cbn [fst snd].
  - intros [= <- <-]. cbn. split; [reflexivity|]. split; [reflexivity|].
    split; [tauto|]. split; [|discriminate].
    split; [discriminate | intros [msg G]; discriminate].
  - destruct (is_IOError e) eqn:He; intros [= <- <-]; cbn.
    + split; [reflexivity|]. split; [reflexivity|].
      split; [split; discriminate|]. split; [|reflexivity].
      split; [|reflexivity]. intros _. destruct e; try discriminate. eauto.
    + split; [reflexivity|]. split; [reflexivity|].
      split; [split; discriminate|]. split; [|discriminate].
      split; [discriminate|]. intros [msg G]. injection G as ->. discriminate.
Qed.

(** Sorting the entries of a directory. *)
Lemma sort_items items : forall dirs files,
  fold_left sort_item items (dirs, files)
  = ((dirs ++ map fst (List.filter (fun i => _isdir_attr (snd i)) items))%list,
     (files ++ map fst (List.filter (fun i => negb (_isdir_attr (snd i))) items))%list).
Proof.
  induction items as [|i items IH]; intros dirs files; cbn [fold_left List.filter map].
  - rewrite !app_nil_r. reflexivity.
  - unfold sort_item at 2. cbn [fst snd].
    destruct (_isdir_attr (snd i)); cbn [negb map]; rewrite IH, <- app_assoc; reflexivity.
Qed.

Section Listing.
Variable SFTP_listdir_attr :
  sftp_client -> string -> world -> reply (list (string * sftp_attr)).

(** X25: [listdir] answers with the names of the entries that are
    directories and the names of the entries that are not, each in the
    order of the listing, every entry in one of the two; an entry whose
    mode is not known is not a directory.  An exception of the library
    goes through. *)
Theorem listdir_sorts_entries
    (self : nat) (path : string) (s : state) (st : storage) (r : nat) (m : manager)
    (h : sftp_client) (b : string) :
  storages s !! self = Some st ->
  _ssh_client_manager st = Some r ->
  managers s !! r = Some m -> _sftp m = Bound (Some h) ->
  _config st !! "basepath" = Some (PStr b) ->
  listdir SFTP_listdir_attr self path s
  = (match SFTP_listdir_attr h (posixpath.join b [path]) (remote s) with
     | Reply items =>
         Ok (map fst (List.filter (fun i => _isdir_attr (snd i)) items),
             map fst (List.filter (fun i => negb (_isdir_attr (snd i))) items))
     | Throw e => Raise e
     end, s) /\
  forall items dirs files,
    SFTP_listdir_attr h (posixpath.join b [path]) (remote s) = Reply items ->
    fst (listdir SFTP_listdir_attr self path s) = Ok (dirs, files) ->
    length dirs + length files = length items /\
    forall name a, In (name, a) items ->
      (st_mode a = None -> In name files) /\
      (_isdir_attr a = true -> In name dirs) /\
      (_isdir_attr a = false -> In name files).
Proof.
  intros Hst Hr Hm Hh Hb.
  assert (Hrun : listdir SFTP_listdir_attr self path s
            = (match SFTP_listdir_attr h (posixpath.join b [path]) (remote s) with
               | Reply items =>
                   Ok (map fst (List.filter (fun i => _isdir_attr (snd i)) items),
                       map fst (List.filter (fun i => negb (_isdir_attr (snd i))) items))
               | Throw e => Raise e
               end, s)).
  { unfold listdir.
    rewrite (bind_Ok _ _ _ _ _ (remote_path_run _ _ _ _ _ Hst Hb)).
    unfold bind. rewrite (on_sftp_run _ _ _ _ _ _ _ _ Hst Hr Hm Hh).
    destruct (SFTP_listdir_attr h (posixpath.join b [path]) (remote s)) as [items|e];
      [|reflexivity].
    unfold ret. rewrite sort_items. reflexivity. }
  split; [exact Hrun|].
  intros items dirs files Hl. rewrite Hrun, Hl. cbn [fst]. intros [= <- <-].
  split.
  - rewrite !length_map. clear. induction items as [|i items IH]; [reflexivity|].
    cbn. destruct (_isdir_attr (snd i)); cbn; lia.
  - intros name a Hin.
    assert (Hd : _isdir_attr a = true -> In name
                   (map fst (List.filter (fun i => _isdir_attr (snd i)) items))).
    { intros Ha. apply in_map_iff. exists (name, a). split; [reflexivity|].
      apply filter_In. auto. }
    assert (Hf : _isdir_attr a = false -> In name
                   (map fst (List.filter (fun i => negb (_isdir_attr (snd i))) items))).
    { intros Ha. apply in_map_iff. exists (name, a). split; [reflexivity|].
      apply filter_In. cbn. rewrite Ha. auto. }
    split; [|split; assumption].
    intros Hnone. apply Hf. unfold _isdir_attr. rewrite Hnone. reflexivity.
Qed.

End Listing.

Lemma land_type_bits perms :
  (0 <= perms < 4096)%Z -> Z.land perms 61440 = 0%Z.
Proof.
  intros Hp. apply Z.bits_inj'. intros n Hn.
  rewrite Z.land_spec, Z.bits_0.
  destruct (Z.ltb_spec n 12).
  - change 61440%Z with (Z.shiftl 15 12). rewrite Z.shiftl_spec_low by lia.
    apply andb_false_r.
  - destruct (Z.eq_dec perms 0%Z) as [->|Hne]; [rewrite Z.bits_0; reflexivity|].
    rewrite Z.bits_above_log2; [reflexivity | lia |].
    apply Z.log2_lt_pow2; [lia|]. change (2 ^ n)%Z with (2 ^ n)%Z.
    apply Z.lt_le_trans with (2 ^ 12)%Z; [change (2 ^ 12)%Z with 4096%Z; lia|].
    apply Z.pow_le_mono_r; lia.
Qed.

(** X26: whether an entry is a directory is read off the type bits of
    its mode alone: the permission bits, those below [0o10000], make no
    difference. *)
Theorem isdir_ignores_permissions (item item' : sftp_attr) (mode perms : Z) :
  (0 <= perms < 4096)%Z ->
  st_mode item = Some mode -> st_mode item' = Some (Z.lor mode perms) ->
  _isdir_attr item' = _isdir_attr item /\
  (mode = S_IFDIR -> _isdir_attr item' = true).
Proof.
  intros Hp Hm Hm'. unfold _isdir_attr, S_IFMT. rewrite Hm, Hm'.
  rewrite Z.land_lor_distr_l, (land_type_bits _ Hp), Z.lor_0_r.
  split; [reflexivity|]. intros ->. reflexivity.
Qed.

End RemoveAndList.

(** ** [SSHStorageFile] *)

Section StorageFile.
Context `{E : Env}.

(** X27: the [size] of a file of a storage is [None]: the constructor
    binds [_size] to [None], so that the attribute is there and the
    storage is never asked; this holds for a file that has just been
    opened and after it has been written to. *)
Theorem file_size_is_none
    (self : nat) (name mode : string) (s : state) :
  SSHStorageFile.size (_open self name mode) s = (Ok (None, _open self name mode), s) /\
  forall content f' s',
    SSHStorageFile.write (_open self name mode) content s = (Ok f', s') ->
    SSHStorageFile.size f' s' = (Ok (None, f'), s').
Proof.
  split; [reflexivity|].
  intros content f' s'. unfold SSHStorageFile.write. cbn [_open SSHStorageFile.__init__ SSHStorageFile._mode].
  destruct (negb (has_char "w" mode)); [discriminate|].
  intros [= <- <-]. reflexivity.
Qed.

(** X28: what is written to a file of a storage is never stored.  On a
    file whose mode holds no ['w'], the mode ['rb'] that [_open] uses by
    default among them, [write] raises [AttributeError].  On a file whose
    mode holds a ['w'], [write] keeps the content in the buffer, and
    [close] hands [_save] the bytes of the buffer: [_save] calls [open]
    on them, which raises [AttributeError] before the storage connects
    or uploads, and the state is as it was. *)
Theorem file_write_is_never_stored
    (fuel : nat) (f : SSHStorageFile.t) (content : string) (s : state) :
  (has_char "w" (SSHStorageFile._mode f) = false ->
   SSHStorageFile.write f content s
   = (Raise (AttributeError "File was opened for read-only access."), s)) /\
  (forall self name,
     SSHStorageFile.write (_open self name "rb") content s
     = (Raise (AttributeError "File was opened for read-only access."), s)) /\
  (has_char "w" (SSHStorageFile._mode f) = true ->
   exists f', SSHStorageFile.write f content s = (Ok f', s) /\
     SSHStorageFile.getvalue (SSHStorageFile.file f') = content /\
     SSHStorageFile.close fuel f' s
     = (Raise (AttributeError "object has no attribute 'open'"), s)).
Proof.
  split; [|split].
  - intros H. unfold SSHStorageFile.write. rewrite H. reflexivity.
  - intros self name. reflexivity.
  - intros H. unfold SSHStorageFile.write. rewrite H. cbn [negb].
    eexists. split; [reflexivity|]. split; reflexivity.
Qed.

End StorageFile.

(** ** The coordinator, once connected *)

Section Coordinator3.
Context `{E : Env}.

(** X29: [_start_connection] on a coordinator each of whose managers has
    a user name and a password or a key file returns at once: no manager
    is closed or made, nothing is called, and the state is as it was. *)
Theorem coordinator_keeps_valid_managers (self : nat) (s : state) (st : storage) :
  storages s !! self = Some st -> cls st = MultipleSSHStorages ->
  Forall (fun e => exists r m, snd e = Some r /\ managers s !! r = Some m /\
                     truthy (username m) = true /\
                     truthy (password m) || truthy (rsa_key m) = true)
         (_ssh_client_managers st) ->
  _start_connection self s = (Ok tt, s).
Proof.
  intros Hst Hc Hall.
  rewrite (start_connection_multi _ _ _ Hst Hc), (multi_start_unfold _ _ _ Hst).
  induction Hall as [|[host v] ms (r & m & Hv & Hm & Hu & Hp) _ IH]; [reflexivity|].
  cbn [for_each snd fst]. cbn in Hv. subst v.
  rewrite (bind_Ok _ _ s tt s); [exact IH|].
  rewrite (bind_Ok _ _ _ _ _ (drop_if_invalid_valid _ _ _ Hm Hu Hp)). reflexivity.
Qed.


End Coordinator3.

(** ** The further properties on the in-memory hosts *)

Section Runs2.
#[local] Existing Instance Mem.env.

Lemma closed_manager_fails_check_witness :
  SSHClientManager.check 0 Scenario2.closed_data
  = (Raise SSHClientManagerException, Scenario2.closed_data).
Proof.
  epose proof (closed_manager_fails_check 0 Scenario.connected_data Scenario2.closed_data
                 _ true) as H.
  edestruct H as (Hcheck & _); clear H.
  - reflexivity.
  - reflexivity.
  - exact Hcheck.
Defined.

Lemma setup_true_sets_handles_witness :
  SSHClientManager.sftp 0 Scenario.connected_data = (Ok (Some 1), Scenario.connected_data).
Proof.
  epose proof (setup_true_sets_handles 0 Scenario2.made Scenario.connected_data _) as H.
  edestruct H as (c & h & Hm & Hsftp & _); clear H.
  - reflexivity.
  - reflexivity.
  - injection Hm as <- <-. exact Hsftp.
Defined.

Lemma setup_failure_keeps_client_witness :
  SSHClientManager.sftp 0 Scenario.refused = (Ok None, Scenario.refused).
Proof.
  epose proof (setup_failure_keeps_client 0 Scenario2.made_wrong Scenario.refused _
                 (Ok false)) as H.
  edestruct H as (c & m' & _ & _ & _ & _ & _ & Hsftp); clear H.
  - reflexivity.
  - reflexivity.
  - discriminate.
  - apply Hsftp. reflexivity.
Defined.

Lemma start_connection_keeps_manager_witness :
  _start_connection 0 Scenario2.started = (Ok tt, Scenario2.started).
Proof.
  epose proof (start_connection_keeps_manager 0 Scenario2.started _ 1 _) as H.
  edestruct H as (Hstart & _); clear H.
  - reflexivity.
  - discriminate.
  - reflexivity.
  - reflexivity.
  - reflexivity.
  - reflexivity.
  - exact Hstart.
Defined.

Lemma failed_connection_not_retried_witness :
  _start_connection 0 Scenario2.refused_storage = (Ok tt, Scenario2.refused_storage) /\
  exists_ 0 "pic.jpg" Scenario2.refused_storage
  = (Raise (AttributeError "'NoneType' object has no attribute 'stat'"),
     Scenario2.refused_storage).
Proof.
  epose proof (failed_connection_not_retried 0 Scenario2.constructed_wrong
                 Scenario2.refused_storage _
                 (SSHStorageException "Connection or login error using data {...}") (PStr "h1") (PStr "u") (PStr "/data")
                 (PStr "wrong") PNone (PInt 22)) as H.
  edestruct H as (r & m & _ & _ & _ & Hstart & Hexists); clear H.
  - reflexivity.
  - discriminate.
  - reflexivity.
  - reflexivity.
  - reflexivity.
  - reflexivity.
  - reflexivity.
  - reflexivity.
  - reflexivity.
  - reflexivity.
  - reflexivity.
  - reflexivity.
  - split; [exact Hstart|]. exact (Hexists "/data" "pic.jpg" eq_refl).
Defined.

Lemma exists_single_host_witness :
  fst (exists_ 0 "pic.jpg" Scenario2.started) = Ok true.
Proof.
  rewrite (exists_single_host 0 "pic.jpg" Scenario2.started _ 1 _ 1 "/data"
             eq_refl ltac:(discriminate) eq_refl eq_refl eq_refl eq_refl).
  reflexivity.
Defined.


Lemma disconnect_drops_manager_witness :
  exists s', disconnect 0 Scenario2.started = (Ok tt, s') /\ disconnect 0 s' = (Ok tt, s').
Proof.
  epose proof (disconnect_drops_manager 0 Scenario2.started _) as H.
  edestruct H as (s' & Hrun & _ & Hagain & _); clear H.
  - reflexivity.
  - exists s'. split; [exact Hrun | exact Hagain].
Defined.

Lemma coordinator_dict_of_hosts_witness :
  exists st, storages Scenario.fresh_readonly_first !! 0 = Some st /\
    Forall (fun e => snd e = None) (_ssh_client_managers st) /\
    NoDup (map fst (_ssh_client_managers st)).
Proof.
  epose proof (coordinator_dict_of_hosts Scenario.django Scenario.two_hosts
                 (Mem.initial Scenario.readonly_first) Scenario.fresh_readonly_first 0) as H.
  edestruct H as (st & hostnames & hs & Hst & _ & _ & _ & _ & _ & Hnd & Hnone & _); clear H.
  - reflexivity.
  - exists st. auto.
Defined.

Lemma coordinator_connects_every_host_witness :
  exists ms hs, connected Scenario.connected_readonly_first ms hs /\
                map fst ms = ["h1"; "h2"].
Proof.
  epose proof (coordinator_connects_every_host 0 Scenario.fresh_readonly_first
                 Scenario.connected_readonly_first _) as H.
  edestruct H as (ms & hs & _ & Hkeys & Hcon & _); clear H.
  - reflexivity.
  - reflexivity.
  - cbn [_ssh_client_managers]. repeat (apply List.Forall_cons; [reflexivity|]). apply List.Forall_nil.
  - cbn [_ssh_client_managers map fst].
    apply NoDup_cons. split; [|apply NoDup_singleton].
    intros Hin%list_elem_of_singleton. discriminate Hin.
  - reflexivity.
  - exists ms, hs. split; [exact Hcon | exact Hkeys].
Defined.

Lemma coordinator_disconnect_closes_nothing_witness :
  disconnect 0 Scenario.connected_readonly_first = (Ok tt, Scenario.connected_readonly_first).
Proof.
  epose proof (coordinator_disconnect_closes_nothing 0 Scenario.fresh_readonly_first
                 Scenario.connected_readonly_first _) as H.
  edestruct H as (_ & Hdis); clear H.
  - reflexivity.
  - reflexivity.
  - reflexivity.
  - reflexivity.
  - exact Hdis.
Defined.

Lemma coordinator_delete_and_size_raise_witness :
  SSHStorage_delete 0 "pic.jpg" Scenario.fresh_readonly_first
  = (Raise (AttributeError "'NoneType' object has no attribute 'sftp'"),
     Scenario.connected_readonly_first).
Proof.
  epose proof (coordinator_delete_and_size_raise 0 "pic.jpg" Scenario.fresh_readonly_first
                 _ "/data/media") as H.
  edestruct H as (Hraise & _); clear H.
  - reflexivity.
  - reflexivity.
  - reflexivity.
  - reflexivity.
  - destruct (Hraise Scenario.connected_readonly_first) as [Hdel _]; [reflexivity | exact Hdel].
Defined.

Lemma delete_single_host_witness :
  fst (SSHStorage_delete 0 "pic.jpg" Scenario2.started) = Ok tt.
Proof.
  rewrite (delete_single_host 0 "pic.jpg" Scenario2.started _ 1 _ 1 "/data"
             eq_refl eq_refl eq_refl eq_refl eq_refl).
  reflexivity.
Defined.

Lemma size_returns_iff_exists_witness :
  fst (SSHStorage_size 0 "pic.jpg" Scenario2.started) = Ok 3%Z.
Proof.
  epose proof (size_returns_iff_exists 0 "pic.jpg" Scenario2.started _ 1 _ 1 "/data") as H.
  edestruct H as (Hsize & _); clear H.
  - reflexivity.
  - discriminate.
  - reflexivity.
  - reflexivity.
  - reflexivity.
  - reflexivity.
  - rewrite Hsize. reflexivity.
Defined.

Lemma absolute_name_leaves_basepath_witness :
  _remote_path 0 "/etc/passwd" Scenario2.started = (Ok "/etc/passwd", Scenario2.started).
Proof.
  epose proof (absolute_name_leaves_basepath 0 "etc/passwd" Scenario2.started _ "/data") as H.
  edestruct H as (Hrp & _); clear H.
  - reflexivity.
  - reflexivity.
  - exact Hrp.
Defined.

(** On the in-memory hosts, a file that has been removed is not there. *)
Lemma Mem_removed_is_gone h p w w' :
  Mem.remove h p w = (Reply tt, w') -> exists msg, Mem.lstat h p w' = Throw (IOError msg).
Proof.
  unfold Mem.remove, Mem.closed.
  destruct (Mem.host_of h w) as [[name hd]|] eqn:Hh; [|discriminate].
  destruct (Mem.readonly hd); [discriminate|].
  destruct (Mem.node_at (Mem.files hd) (Mem.resolve hd p)) as [[|c]|] eqn:Hn; try discriminate.
  intros [= <-]. unfold Mem.lstat.
  rewrite (Mem_host_of_insert _ _ _ _ _ Hh).
  change (Mem.resolve (Mem.set_files _ hd) p) with (Mem.resolve hd p). cbn [Mem.files Mem.set_files].
  unfold Mem.node_at in *. destruct (Mem.resolve hd p) as [|x l]; [discriminate|].
  rewrite lookup_delete_eq. eauto.
Qed.

Lemma delete_then_exists_witness :
  fst (exists_ 0 "pic.jpg" Scenario2.deleted) = Ok false.
Proof.
  eapply (@delete_then_exists Mem.env 1 (Mem_removed_is_gone 1) 0 "pic.jpg" Scenario2.started
            Scenario2.deleted _ 1 _ "/data").
  - reflexivity.
  - discriminate.
  - reflexivity.
  - reflexivity.
  - reflexivity.
  - reflexivity.
  - reflexivity.
Defined.

End Runs2.

Section Runs3.
#[local] Existing Instance Mem.env.

Lemma decoded_protocol_is_http_or_https_witness :
  Scenario2.odd_config !! "protocol" = Some (PStr "https://").
Proof.
  epose proof (decoded_protocol_is_http_or_https Scenario2.odd_settings
                 (Mem.initial Scenario.one_host) (Mem.initial Scenario.one_host)
                 Scenario2.odd_config) as H.
  edestruct H as (_ & _ & Hp); clear H.
  - reflexivity.
  - exact (Hp "HTTPS://" eq_refl eq_refl).
Defined.

Lemma decoded_port_is_a_number_witness :
  Scenario2.odd_config !! "port" = Some (PInt 22).
Proof.
  epose proof (decoded_port_is_a_number Scenario2.odd_settings
                 (Mem.initial Scenario.one_host) (Mem.initial Scenario.one_host)
                 Scenario2.odd_config) as H.
  edestruct H as (z & Hz & _ & _ & Hs); clear H.
  - reflexivity.
  - rewrite Hz, (Hs "ssh" eq_refl ltac:(discriminate)). reflexivity.
Defined.

Lemma decoded_static_proxy_defaults_witness :
  Scenario2.odd_config !! "static_proxy_hostname" = Some (PStr "h1") /\
  Scenario2.odd_config !! "static_proxy_protocol" = Some (PStr "HTTPS://") /\
  Scenario2.odd_config !! "static_proxy_port" = Some (PStr "8080").
Proof.
  epose proof (decoded_static_proxy_defaults Scenario2.odd_settings
                 (Mem.initial Scenario.one_host) (Mem.initial Scenario.one_host)
                 Scenario2.odd_config) as H.
  edestruct H as (H1 & H2 & H3); clear H.
  - reflexivity.
  - split; [exact H1|]. split; [exact H2 | exact H3].
Defined.

Lemma url_layout_witness :
  url 0 "css/site.css" Scenario2.static_constructed
  = (Ok "http://h1/static/css/site.css", Scenario2.static_constructed).
Proof.
  epose proof (url_layout 0 "css/site.css" Scenario2.static_constructed _
                 "h1" "http://" "static" (PStr "80")) as H.
  edestruct H as (Hurl & _); clear H.
  - reflexivity.
  - reflexivity.
  - reflexivity.
  - reflexivity.
  - reflexivity.
  - reflexivity.
  - discriminate.
  - reflexivity.
  - reflexivity.
  - discriminate.
  - reflexivity.
  - reflexivity.
  - reflexivity.
  - exact Hurl.
Defined.

Lemma url_of_absolute_name_witness :
  url 0 "/etc/passwd" Scenario2.static_constructed
  = (Ok "/etc/passwd", Scenario2.static_constructed).
Proof.
  exact (url_of_absolute_name 0 "etc/passwd" Scenario2.static_constructed _
           "h1" "http://" "static" (PStr "80") eq_refl eq_refl eq_refl eq_refl eq_refl).
Defined.

Lemma located_storage_paths_witness :
  _remote_path 0 "css/site.css" Scenario2.static_constructed
  = (Ok "/data/static/css/site.css", Scenario2.static_constructed).
Proof.
  epose proof (located_storage_paths StaticStorage Scenario.django Scenario.one_host_settings
                 (Mem.initial Scenario.one_host) Scenario2.static_constructed 0
                 (PStr "static")) as H.
  edestruct H as (st & bp & loc & _ & Hbp & Hloc & _ & _ & Hrp & _); clear H.
  - reflexivity.
  - reflexivity.
  - injection Hbp as <-. injection Hloc as <-. exact (Hrp "css/site.css").
Defined.

Lemma located_storage_url_witness :
  url 0 "img/a.png" Scenario2.media_constructed
  = (Ok "http://h1/media/img/a.png", Scenario2.media_constructed).
Proof.
  apply (located_storage_url MediaStorage Scenario.django Scenario.one_host_settings
           (Mem.initial Scenario.one_host) Scenario2.media_constructed 0
           "h1" "media" "img/a.png"); try reflexivity; try discriminate;
    left; reflexivity.
Defined.

Lemma remove_takes_base_name_witness :
  fst (SSHClientManager.remove 0 (PV (PStr "some/dir/pic.jpg")) PNone Scenario.connected_data)
  = Ok true.
Proof.
  epose proof (remove_takes_base_name 0 Scenario.connected_data _ 1 PNone "/data"
                 "some/dir" "pic.jpg") as H.
  edestruct H as (Heq & Hrun); clear H.
  - reflexivity.
  - reflexivity.
  - reflexivity.
  - reflexivity.
  - change ("some/dir/pic.jpg") with ("some/dir" ++ "/" ++ "pic.jpg"). rewrite Heq.
    destruct (SSHClientManager.remove 0 (PV (PStr "pic.jpg")) PNone Scenario.connected_data)
      as [o s'] eqn:Hr.
    destruct (Hrun o s' eq_refl) as (_ & _ & Htrue & _).
    cbn [fst]. apply Htrue. vm_compute. reflexivity.
Defined.

Lemma listdir_sorts_entries_witness :
  fst (listdir Scenario2.listdir_attr 0 EmptyString Scenario2.listed) = Ok (["img"], ["pic.jpg"]).
Proof.
  epose proof (listdir_sorts_entries Scenario2.listdir_attr 0 EmptyString Scenario2.listed
                 _ 1 _ 1 "/data") as H.
  edestruct H as (Hrun & _); clear H.
  - reflexivity.
  - reflexivity.
  - reflexivity.
  - reflexivity.
  - reflexivity.
  - rewrite Hrun. vm_compute. reflexivity.
Defined.

Lemma isdir_ignores_permissions_witness :
  _isdir_attr {| st_size := 4096; st_mtime := 0; st_atime := 0; st_mode := Some 16877%Z |}
  = true.
Proof.
  epose proof (isdir_ignores_permissions
                 {| st_size := 4096; st_mtime := 0; st_atime := 0; st_mode := Some 16384%Z |}
                 {| st_size := 4096; st_mtime := 0; st_atime := 0; st_mode := Some 16877%Z |}
                 16384 493) as H.
  edestruct H as (_ & Hdir); clear H.
  - lia.
  - reflexivity.
  - reflexivity.
  - exact (Hdir eq_refl).
Defined.

Lemma coordinator_keeps_valid_managers_witness :
  _start_connection 0 Scenario.connected_readonly_first
  = (Ok tt, Scenario.connected_readonly_first).
Proof.
  eapply (coordinator_keeps_valid_managers 0 Scenario.connected_readonly_first).
  - reflexivity.
  - reflexivity.
  - cbn [_ssh_client_managers].
    apply List.Forall_cons; [|apply List.Forall_cons; [|apply List.Forall_nil]].
    + eexists _, _. split; [reflexivity|]. split; [reflexivity|]. split; reflexivity.
    + eexists _, _. split; [reflexivity|]. split; [reflexivity|]. split; reflexivity.
Defined.


End Runs3.
